(** * statWrappers: t-test and OLS wrappers around scipy

    A shallow embedding of [wrappers/ttest.py] and [wrappers/ols.py].
    Python objects are attribute dictionaries, methods are programs in a
    state-and-exception monad over those dictionaries, and the numeric
    routines of numpy and scipy are the fields of an interface record. *)

From Stdlib Require Import ZArith Ascii String List Bool Lia Floats DecimalString.
From stdpp Require Import base gmap strings.

Import ListNotations.
Local Open Scope string_scope.
Local Open Scope Z_scope.
Set Warnings "-register-all".
Set Default Proof Using "Type".

(** ** Python values *)

(** A numpy array is a shape and a flat row-major buffer of doubles; a
    numpy scalar ([numpy.float64]) is the array of shape [[]]. *)
Record ndarray := NdArray { shape : list Z; buffer : list float }.

Inductive pyval :=
| PyNone
| PyBool (b : bool)
| PyInt (z : Z)
| PyFloat (f : float)
| PyStr (s : string)
| PyList (l : list pyval)
| PyTuple (l : list pyval)
| PyDict (d : gmap string pyval)
| PyArr (a : ndarray).

(** Exceptions the two modules raise or let through. *)
Inductive exn :=
| ValueError (args : list pyval)
| LinAlgError (args : list pyval)
| AttributeError (name : string)
| TypeError (what : string)
| IndexError (what : string)
| ZeroDivisionError.

Inductive result (A : Type) :=
| Ok (a : A)
| Raise (e : exn).
Arguments Ok {A} a.
Arguments Raise {A} e.

(** ** The world a method runs in *)

(** [self] is the instance dictionary of the object the method is called
    on, [stdout] the lines printed so far (oldest first), [files] the
    files opened for writing, by name, each still empty ([None]) or
    holding the document [json.dump] wrote, and [clock] the value
    [localtime()] returns. *)
Record world := World {
  self : gmap string pyval;
  stdout : list string;
  files : gmap string (option pyval);
  clock : Z
}.

Definition set_self (f : gmap string pyval -> gmap string pyval) (w : world) : world :=
  World (f (self w)) (stdout w) (files w) (clock w).
Definition set_stdout (f : list string -> list string) (w : world) : world :=
  World (self w) (f (stdout w)) (files w) (clock w).
Definition set_files (f : gmap string (option pyval) -> gmap string (option pyval))
    (w : world) : world :=
  World (self w) (stdout w) (f (files w)) (clock w).

(** Programs: state passing, with the exception as the other outcome.  The
    world at the time of a raise is kept. *)
Definition M (A : Type) : Type := world -> result A * world.

Definition ret {A} (a : A) : M A := fun w => (Ok a, w).
Definition raise {A} (e : exn) : M A := fun w => (Raise e, w).
Definition bind {A B} (m : M A) (k : A -> M B) : M B :=
  fun w => match m w with
           | (Ok a, w') => k a w'
           | (Raise e, w') => (Raise e, w')
           end.
Definition lift {A} (r : result A) : M A := fun w => (r, w).

Declare Scope py_scope.
Delimit Scope py_scope with py.
Notation "x <- m ;; k" := (bind m (fun x => k))
  (at level 100, m at next level, right associativity) : py_scope.
Notation "m ;;; k" := (bind m (fun _ => k))
  (at level 100, right associativity) : py_scope.
Local Open Scope py_scope.

(** [self.n] and [self.n = v]. *)
Definition getattr (n : string) : M pyval :=
  fun w => match self w !! n with
           | Some v => (Ok v, w)
           | None => (Raise (AttributeError n), w)
           end.
Definition setattr (n : string) (v : pyval) : M unit :=
  fun w => (Ok tt, set_self (insert n v) w).

(** [print(s)]: one more line on standard output. *)
Definition print (s : string) : M unit :=
  fun w => (Ok tt, set_stdout (fun out => (out ++ [s])%list) w).
Definition localtime : M Z := fun w => (Ok (clock w), w).

(** [try: body except kind: handler]: [catches] selects the exceptions the
    clause names. *)
Definition try_except {A} (body : M A) (catches : exn -> bool) (handler : M A) : M A :=
  fun w => match body w with
           | (Raise e, w') => if catches e then handler w' else (Raise e, w')
           | r => r
           end.

Definition is_LinAlgError (e : exn) : bool :=
  match e with LinAlgError _ => true | _ => false end.
Definition is_ValueError (e : exn) : bool :=
  match e with ValueError _ => true | _ => false end.

(** ** Python builtins used by the two modules *)

Definition nl : string := String "010"%char "".
Definition tab : string := String "009"%char "".

(** A Python [int] as a [float].  Exact up to 2^53 in magnitude, which
    covers every array length and threshold that occurs here. *)
Definition float_of_Z (z : Z) : float :=
  if z <? 0 then PrimFloat.opp (PrimFloat.of_uint63 (Uint63.of_Z (- z)))
  else PrimFloat.of_uint63 (Uint63.of_Z z).

Definition str_int (z : Z) : string := NilZero.string_of_int (Z.to_int z).

Definition scalar (f : float) : ndarray := NdArray [] [f].

(** [type(v)], as far as the modules look at it.  A numpy scalar is a
    [float64], any other array an [ndarray]. *)
Inductive pytype :=
| T_NoneType | T_bool | T_int | T_float | T_str | T_list | T_tuple | T_dict
| T_float64 | T_ndarray.

Definition py_type (v : pyval) : pytype :=
  match v with
  | PyNone => T_NoneType
  | PyBool _ => T_bool
  | PyInt _ => T_int
  | PyFloat _ => T_float
  | PyStr _ => T_str
  | PyList _ => T_list
  | PyTuple _ => T_tuple
  | PyDict _ => T_dict
  | PyArr a => match shape a with [] => T_float64 | _ => T_ndarray end
  end.

Definition type_name (t : pytype) : string :=
  match t with
  | T_NoneType => "NoneType" | T_bool => "bool" | T_int => "int"
  | T_float => "float" | T_str => "str" | T_list => "list"
  | T_tuple => "tuple" | T_dict => "dict" | T_float64 => "float64"
  | T_ndarray => "ndarray"
  end.

(** [type(v) in (int, float)] *)
Definition type_in_int_float (v : pyval) : bool :=
  match py_type v with T_int | T_float => true | _ => false end.

(** Truth value of [v], as [if v:], [not v], [v and ...] and [v or ...]
    take it.  An array of more than one element has none. *)
Definition py_truthy (v : pyval) : result bool :=
  match v with
  | PyNone => Ok false
  | PyBool b => Ok b
  | PyInt z => Ok (negb (z =? 0))
  | PyFloat f => Ok (negb (PrimFloat.eqb f 0))
  | PyStr s => Ok (negb (String.eqb s ""))
  | PyList l | PyTuple l => Ok (match l with [] => false | _ => true end)
  | PyDict d => Ok (match map_to_list d with [] => false | _ => true end)
  | PyArr a =>
      match buffer a with
      | [] => Ok false
      | [f] => Ok (negb (PrimFloat.eqb f 0))
      | _ => Raise (ValueError [PyStr "The truth value of an array with more than one element is ambiguous. Use a.any() or a.all()"])
      end
  end.

(** [s + v] for a string [s]: concatenation, defined on strings only. *)
Definition str_concat (s : string) (v : pyval) : result string :=
  match v with
  | PyStr t => Ok (s ++ t)
  | _ => Raise (TypeError "cannot concatenate 'str' and non-str objects")
  end.

(** [v in (s1, ..., sn)] for a tuple of string constants: membership by
    [==], which holds of no value that is not a string. *)
Definition in_strs (v : pyval) (ss : list string) : bool :=
  match v with
  | PyStr s => existsb (String.eqb s) ss
  | _ => false
  end.

(** [v == s] for a string constant [s]. *)
Definition eq_str (v : pyval) (s : string) : bool := in_strs v [s].

(** Numbers for ordering: [bool] is a subclass of [int]. *)
Inductive pynum :=
| NInt (z : Z)
| NFloat (f : float).

Definition as_num (v : pyval) : option pynum :=
  match v with
  | PyBool b => Some (NInt (Z.b2z b))
  | PyInt z => Some (NInt z)
  | PyFloat f => Some (NFloat f)
  | _ => None
  end.

Definition num_float (n : pynum) : float :=
  match n with NInt z => float_of_Z z | NFloat f => f end.

Inductive cmpop := Lt_ | Gt_ | Ge_ | Eq_.

Definition cmp_num (c : cmpop) (a b : pynum) : bool :=
  match a, b with
  | NInt x, NInt y =>
      match c with
      | Lt_ => x <? y | Gt_ => y <? x | Ge_ => y <=? x | Eq_ => x =? y
      end
  | _, _ =>
      let x := num_float a in
      let y := num_float b in
      match c with
      | Lt_ => PrimFloat.ltb x y | Gt_ => PrimFloat.ltb y x
      | Ge_ => PrimFloat.leb y x | Eq_ => PrimFloat.eqb x y
      end
  end.

(** [u < v], [u > v], [u >= v], [u == v] between numbers; between other
    values the ordering is the interpreter's own and is left out. *)
Definition py_cmp (c : cmpop) (u v : pyval) : result bool :=
  match as_num u, as_num v with
  | Some a, Some b => Ok (cmp_num c a b)
  | _, _ => Raise (TypeError "unorderable types")
  end.

(** [str(v)] where the text is fixed by the language; floats, arrays and
    containers are printed by [other]. *)
Definition py_str (other : pyval -> string) (v : pyval) : string :=
  match v with
  | PyNone => "None"
  | PyBool b => if b then "True" else "False"
  | PyInt z => str_int z
  | PyStr s => s
  | _ => other v
  end.

(** [len(v)] *)
Definition py_len (v : pyval) : result Z :=
  match v with
  | PyStr s => Ok (Z.of_nat (String.length s))
  | PyList l | PyTuple l => Ok (Z.of_nat (List.length l))
  | PyDict d => Ok (Z.of_nat (List.length (map_to_list d)))
  | PyArr a =>
      match shape a with
      | n :: _ => Ok n
      | [] => Raise (TypeError "len() of unsized object")
      end
  | _ => Raise (TypeError "object has no len()")
  end.

(** [v.shape] and [t[i]] on a shape tuple. *)
Definition py_shape (v : pyval) : result (list Z) :=
  match v with
  | PyArr a => Ok (shape a)
  | _ => Raise (AttributeError "shape")
  end.

Definition shape_item (s : list Z) (i : nat) : result Z :=
  match s !! i with
  | Some n => Ok n
  | None => Raise (IndexError "tuple index out of range")
  end.

(** ** The libraries underneath *)

Inductive binop := Add | Sub | Mul | Div.

(** What the modules import from numpy, scipy, [time] and [str].  Arrays
    go in and come out as [ndarray]; a routine that can refuse its
    arguments returns a [result]. *)
Record pylib := PyLib {
  str_other : pyval -> string;
  strftime : string -> Z -> string;
  stats_ttest_1samp : pyval -> pyval -> result (float * float);
  stats_ttest_ind : pyval -> pyval -> pyval -> result (float * float);
  stats_ttest_rel : pyval -> pyval -> result (float * float);
  np_ones : Z -> result ndarray;
  np_c_ : ndarray -> ndarray -> result ndarray;
  np_T : ndarray -> ndarray;
  np_dot : ndarray -> ndarray -> result ndarray;
  linalg_inv : ndarray -> result ndarray;
  np_arith : binop -> ndarray -> ndarray -> result ndarray;
  np_sqrt : ndarray -> ndarray;
  np_abs : ndarray -> ndarray;
  np_square : ndarray -> ndarray;
  np_log : ndarray -> ndarray;
  np_negative : ndarray -> ndarray;
  np_diagonal : ndarray -> result ndarray;
  np_var : ndarray -> ndarray;
  np_diff : ndarray -> Z -> result ndarray;
  np_getitem : ndarray -> Z -> result pyval;
  stats_t_cdf : ndarray -> ndarray -> ndarray;
  stats_f_cdf : ndarray -> ndarray -> ndarray -> ndarray;
  stats_chi2_cdf : ndarray -> ndarray -> ndarray;
  stats_normaltest : ndarray -> result (ndarray * ndarray);
  stats_skew : ndarray -> ndarray;
  stats_kurtosis : ndarray -> ndarray;
  json_encodable : pyval -> bool
}.

Definition np_pi : float := 0x1.921fb54442d18p+1%float.
Definition np_nan : float := nan.

(** An argument handed to numpy: a number becomes a scalar. *)
Definition as_array (v : pyval) : result ndarray :=
  match v with
  | PyArr a => Ok a
  | _ => match as_num v with
         | Some n => Ok (scalar (num_float n))
         | None => Raise (TypeError "unsupported operand type(s)")
         end
  end.

Definition float_arith (op : binop) (x y : float) : result pyval :=
  match op with
  | Add => Ok (PyFloat (x + y))
  | Sub => Ok (PyFloat (x - y))
  | Mul => Ok (PyFloat (x * y))
  | Div => if PrimFloat.eqb y 0 then Raise ZeroDivisionError
           else Ok (PyFloat (x / y))
  end.

(** [u + v], [u - v], [u * v] and [u / v] (true division).  Between
    Python numbers the interpreter computes, and division by zero raises;
    as soon as an array or numpy scalar takes part, numpy computes. *)
Definition py_arith (L : pylib) (op : binop) (u v : pyval) : result pyval :=
  match as_num u, as_num v with
  | Some (NInt x), Some (NInt y) =>
      match op with
      | Add => Ok (PyInt (x + y))
      | Sub => Ok (PyInt (x - y))
      | Mul => Ok (PyInt (x * y))
      | Div => if y =? 0 then Raise ZeroDivisionError
               else Ok (PyFloat (float_of_Z x / float_of_Z y))
      end
  | Some a, Some b => float_arith op (num_float a) (num_float b)
  | _, _ =>
      match as_array u, as_array v with
      | Ok a, Ok b =>
          match np_arith L op a b with
          | Ok c => Ok (PyArr c)
          | Raise e => Raise e
          end
      | Raise e, _ | _, Raise e => Raise e
      end
  end.

(** [with open(filename, 'w') as target: dump(data, target)]: the file is
    created or emptied, then receives the document, unless [json] cannot
    encode it. *)
Definition dump_to (L : pylib) (filename : string) (data : pyval) : M unit :=
  fun w =>
    let w1 := set_files (insert filename None) w in
    if json_encodable L data
    then (Ok tt, set_files (insert filename (Some data)) w1)
    else (Raise (TypeError "is not JSON serializable"), w1).

(** [filename or strftime(fmt, t)] *)
Definition filename_or (L : pylib) (filename : option string) (t : Z) : string :=
  match filename with
  | Some f => if String.eqb f "" then strftime L "%a_%d_%b_%Y_%H_%M_%S.json" t else f
  | None => strftime L "%a_%d_%b_%Y_%H_%M_%S.json" t
  end.

(** ** [wrappers/ttest.py] *)

(** The decision both classes print in [summary] and write in [to_file].
    The source spells the two conditions out four times, word for word;
    they are given once here. *)
Module decision.

(** [(self.alpha and self.p_val >= self.alpha) or self.p_val == 0 or
    not self.alpha]: the test under which the null hypothesis is kept. *)
Definition keep_null : M bool :=
  alpha <- getattr "alpha";;
  ta <- lift (py_truthy alpha);;
  c1 <- (if ta then
           p_val <- getattr "p_val";;
           alpha <- getattr "alpha";;
           lift (py_cmp Ge_ p_val alpha)
         else ret false);;
  if c1 then ret true else
  p_val <- getattr "p_val";;
  c2 <- lift (py_cmp Eq_ p_val (PyInt 0));;
  if c2 then ret true else
  alpha <- getattr "alpha";;
  ta <- lift (py_truthy alpha);;
  ret (negb ta).

(** [self.alt_hyp == 'unequal' or (self.alt_hyp == 'less' and
    self.t_stat < 0) or (self.alt_hyp == 'greater' and self.t_stat > 0)] *)
Definition direction_ok : M bool :=
  alt_hyp <- getattr "alt_hyp";;
  if eq_str alt_hyp "unequal" then ret true else
  alt_hyp <- getattr "alt_hyp";;
  c1 <- (if eq_str alt_hyp "less" then
           t_stat <- getattr "t_stat";;
           lift (py_cmp Lt_ t_stat (PyInt 0))
         else ret false);;
  if c1 then ret true else
  alt_hyp <- getattr "alt_hyp";;
  if eq_str alt_hyp "greater" then
    t_stat <- getattr "t_stat";;
    lift (py_cmp Gt_ t_stat (PyInt 0))
  else ret false.

End decision.

Definition bar : string :=
  "==============================================================================".

Module ttest_1samp.
Section methods.
Variable L : pylib.

Definition check_params : M unit :=
  alt_hyp <- getattr "alt_hyp";;
  (if negb (in_strs alt_hyp ["less"; "unequal"; "greater"]) then
     alt_hyp <- getattr "alt_hyp";;
     msg <- lift (str_concat ("Invalid alternative hypothesis. " ++
                              "Expected 'less', 'unequal', or 'greater' " ++
                              "but got: '") alt_hyp);;
     raise (ValueError [PyStr (msg ++ "'")])
   else ret tt);;;
  alpha <- getattr "alpha";;
  ta <- lift (py_truthy alpha);;
  if ta then
    alpha <- getattr "alpha";;
    (if negb (type_in_int_float alpha) then
       alpha <- getattr "alpha";;
       raise (ValueError [PyStr ("Invalid alpha data type. " ++
                                 "Expected 'int' or 'float' " ++
                                 "but got: '" ++ type_name (py_type alpha) ++ "'")])
     else ret tt);;;
    alpha <- getattr "alpha";;
    lo <- lift (py_cmp Lt_ alpha (PyInt 0));;
    out <- (if lo then ret true else
              alpha <- getattr "alpha";;
              lift (py_cmp Gt_ alpha (PyInt 1)));;
    if out then
      alpha <- getattr "alpha";;
      raise (ValueError [PyStr ("Invalid alpha data value. " ++
                                "Expected somewhere in range [0, 1] " ++
                                "but got a value of:");
                         PyStr (py_str (str_other L) alpha)])
    else ret tt
  else ret tt.

Definition test : M unit :=
  a <- getattr "a";;
  popmean <- getattr "popmean";;
  r <- lift (stats_ttest_1samp L a popmean);;
  setattr "t_stat" (PyFloat (fst r));;;
  setattr "p_val" (PyFloat (snd r));;;
  alt_hyp <- getattr "alt_hyp";;
  if negb (eq_str alt_hyp "unequal") then
    p_val <- getattr "p_val";;
    half <- lift (py_arith L Div p_val (PyFloat 2));;
    setattr "p_val" half
  else ret tt.

Definition __init__ (a popmean alt_hyp alpha : pyval) : M unit :=
  setattr "a" a;;;
  setattr "popmean" popmean;;;
  setattr "alt_hyp" alt_hyp;;;
  setattr "alpha" alpha;;;
  check_params;;;
  test.

(** The two locals [alternative] and [sided] that [summary] and [to_file]
    both compute first. *)
Definition alternative_sided : M (string * string) :=
  alt_hyp <- getattr "alt_hyp";;
  if eq_str alt_hyp "unequal" then
    popmean <- getattr "popmean";;
    ret ("Mean 1 != " ++ py_str (str_other L) popmean, "two-sided")
  else
    alt_hyp <- getattr "alt_hyp";;
    if eq_str alt_hyp "less" then
      popmean <- getattr "popmean";;
      ret ("Mean 1 < " ++ py_str (str_other L) popmean, "one-sided")
    else
      popmean <- getattr "popmean";;
      ret ("Mean 1 > " ++ py_str (str_other L) popmean, "one-sided").

Definition summary : M unit :=
  t <- localtime;;
  a <- getattr "a";;
  size <- lift (py_len a);;
  let assumptions := "   Independent Observations" in
  als <- alternative_sided;;
  let alternative := fst als in
  let sided := snd als in
  print (nl ++ bar);;;
  print ("Significance Test: T-Test (" ++ sided ++ ")");;;
  print ("Date: " ++ strftime L "%a, %d %b %Y" t);;;
  print ("Time: " ++ strftime L "%H:%M:%S" t);;;
  print (nl ++ "Assumptions: ");;;
  print assumptions;;;
  print (nl ++ "Data Size: " ++ str_int size);;;
  popmean <- getattr "popmean";;
  print ("Population Mean: " ++ py_str (str_other L) popmean);;;
  popmean <- getattr "popmean";;
  print (nl ++ "Null Hypothesis:        Mean 1 == " ++ py_str (str_other L) popmean);;;
  print ("Alternative Hypothesis: " ++ alternative);;;
  t_stat <- getattr "t_stat";;
  print (nl ++ "T-Statistic: " ++ py_str (str_other L) t_stat);;;
  p_val <- getattr "p_val";;
  print ("P-Value: " ++ py_str (str_other L) p_val);;;
  alpha <- getattr "alpha";;
  print ("Alpha: " ++ py_str (str_other L) alpha);;;
  let NULL := nl ++ "Reject Null Hypothesis: " in
  let ALT := "Accept Alternative Hypothesis: " in
  let YES := "Yes" in
  let NO := "No" in
  keep <- decision.keep_null;;
  (if keep then
     print (NULL ++ NO);;;
     print (ALT ++ NO)
   else
     print (NULL ++ YES);;;
     dir <- decision.direction_ok;;
     if dir then print (ALT ++ YES) else print (ALT ++ NO));;;
  print bar.

Definition to_file (filename : option string) : M unit :=
  t <- localtime;;
  a <- getattr "a";;
  size <- lift (py_len a);;
  let assumptions := PyList [PyStr "Independent Observations"] in
  als <- alternative_sided;;
  let alternative := fst als in
  let sided := snd als in
  let data : gmap string pyval := ∅ in
  let data := <["sig_test" := PyStr ("T-Test (" ++ sided ++ ")")]> data in
  let data := <["date" := PyStr (strftime L "%a, %d %b %Y" t)]> data in
  let data := <["time" := PyStr (strftime L "%H:%M:%S" t)]> data in
  let data := <["assumptions" := assumptions]> data in
  let data := <["data_size" := PyInt size]> data in
  popmean <- getattr "popmean";;
  let data := <["pop_mean" := popmean]> data in
  popmean <- getattr "popmean";;
  let data := <["null_hyp" := PyTuple [PyStr "Mean 1 =="; popmean]]> data in
  let data := <["alt_hyp" := PyStr alternative]> data in
  t_stat <- getattr "t_stat";;
  let data := <["t_stat" := t_stat]> data in
  p_val <- getattr "p_val";;
  let data := <["p_val" := p_val]> data in
  keep <- decision.keep_null;;
  data <- (if keep then
             let data := <["reject_null" := PyBool false]> data in
             ret (<["accept_alt" := PyBool false]> data)
           else
             let data := <["reject_null" := PyBool true]> data in
             dir <- decision.direction_ok;;
             if dir then ret (<["accept_alt" := PyBool true]> data)
             else ret (<["accept_alt" := PyBool false]> data));;
  let filename := filename_or L filename t in
  dump_to L filename (PyDict data).

Definition __str__ : M string :=
  a <- getattr "a";;
  n <- lift (py_len a);;
  popmean <- getattr "popmean";;
  ret ("1-Sample T-Test on Data of Size " ++ str_int n ++
       ", Hypothesized Population Mean of " ++ py_str (str_other L) popmean).

End methods.
End ttest_1samp.

Module ttest_2samp.
Section methods.
Variable L : pylib.

Definition check_params : M unit :=
  test_type <- getattr "test_type";;
  (if negb (in_strs test_type ["ind"; "rel"]) then
     test_type <- getattr "test_type";;
     msg <- lift (str_concat ("Invalid t-test type. " ++
                              "Expected 'ind' or 'rel' " ++
                              "but got: '") test_type);;
     raise (ValueError [PyStr (msg ++ "'")])
   else ret tt);;;
  alt_hyp <- getattr "alt_hyp";;
  (if negb (in_strs alt_hyp ["less"; "unequal"; "greater"]) then
     alt_hyp <- getattr "alt_hyp";;
     msg <- lift (str_concat ("Invalid alternative hypothesis. " ++
                              "Expected 'less', 'unequal', or 'greater' " ++
                              "but got: '") alt_hyp);;
     raise (ValueError [PyStr (msg ++ "'")])
   else ret tt);;;
  alpha <- getattr "alpha";;
  ta <- lift (py_truthy alpha);;
  if ta then
    alpha <- getattr "alpha";;
    (if negb (type_in_int_float alpha) then
       alpha <- getattr "alpha";;
       raise (ValueError [PyStr ("Invalid alpha data type. " ++
                                 "Expected 'int' or 'float' " ++
                                 "but got: '" ++ type_name (py_type alpha) ++ "'")])
     else ret tt);;;
    alpha <- getattr "alpha";;
    lo <- lift (py_cmp Lt_ alpha (PyInt 0));;
    out <- (if lo then ret true else
              alpha <- getattr "alpha";;
              lift (py_cmp Gt_ alpha (PyInt 1)));;
    if out then
      alpha <- getattr "alpha";;
      raise (ValueError [PyStr ("Invalid alpha data value. " ++
                                "Expected somewhere in range [0, 1] " ++
                                "but got a value of:");
                         PyStr (py_str (str_other L) alpha)])
    else ret tt
  else ret tt.

Definition test : M unit :=
  test_type <- getattr "test_type";;
  r <- (if eq_str test_type "ind" then
          a <- getattr "a";;
          b <- getattr "b";;
          equal_var <- getattr "equal_var";;
          lift (stats_ttest_ind L a b equal_var)
        else
          a <- getattr "a";;
          b <- getattr "b";;
          lift (stats_ttest_rel L a b));;
  setattr "t_stat" (PyFloat (fst r));;;
  setattr "p_val" (PyFloat (snd r));;;
  alt_hyp <- getattr "alt_hyp";;
  if negb (eq_str alt_hyp "unequal") then
    p_val <- getattr "p_val";;
    half <- lift (py_arith L Div p_val (PyFloat 2));;
    setattr "p_val" half
  else ret tt.

Definition __init__ (a b test_type equal_var alt_hyp alpha : pyval) : M unit :=
  setattr "a" a;;;
  setattr "b" b;;;
  setattr "test_type" test_type;;;
  setattr "equal_var" equal_var;;;
  setattr "alt_hyp" alt_hyp;;;
  setattr "alpha" alpha;;;
  check_params;;;
  test.

(** The locals [alternative] and [sided] of [summary] and [to_file]. *)
Definition alternative_sided : M (string * string) :=
  alt_hyp <- getattr "alt_hyp";;
  if eq_str alt_hyp "unequal" then ret ("Mean 1 != Mean 2", "two-sided")
  else
    alt_hyp <- getattr "alt_hyp";;
    if eq_str alt_hyp "less" then ret ("Mean 1 < Mean 2", "one-sided")
    else ret ("Mean 1 > Mean 2", "one-sided").

(** The local [assumptions] of [summary]: a conditional expression whose
    two arms differ in the white space before [Equal Variances]. *)
Definition summary_assumptions : M string :=
  test_type <- getattr "test_type";;
  if eq_str test_type "ind" then
    let assumptions := "   Independent Samples" in
    equal_var <- getattr "equal_var";;
    ev <- lift (py_truthy equal_var);;
    if ev then ret (assumptions ++ nl ++ "   Equal Variances")
    else ret (assumptions ++ nl ++ tab ++ "Equal Variances")
  else ret "Related Samples".

(** The local [assumptions] of [to_file]: the same conditional, with the
    same list in both arms. *)
Definition to_file_assumptions : M pyval :=
  test_type <- getattr "test_type";;
  if eq_str test_type "ind" then
    let assumptions := [PyStr "Independent Samples"] in
    equal_var <- getattr "equal_var";;
    ev <- lift (py_truthy equal_var);;
    if ev then ret (PyList (assumptions ++ [PyStr "Equal Variances"])%list)
    else ret (PyList (assumptions ++ [PyStr "Equal Variances"])%list)
  else ret (PyList [PyStr "Related Samples"]).

Definition summary : M unit :=
  t <- localtime;;
  a <- getattr "a";;
  size <- lift (py_len a);;
  assumptions <- summary_assumptions;;
  als <- alternative_sided;;
  let alternative := fst als in
  let sided := snd als in
  print (nl ++ bar);;;
  print ("Significance Test: T-Test (" ++ sided ++ ")");;;
  print ("Date: " ++ strftime L "%a, %d %b %Y" t);;;
  print ("Time: " ++ strftime L "%H:%M:%S" t);;;
  print (nl ++ "Assumptions: ");;;
  print assumptions;;;
  print (nl ++ "Data Size: " ++ str_int size);;;
  print (nl ++ "Null Hypothesis:        Mean 1 == Mean 2");;;
  print ("Alternative Hypothesis: " ++ alternative);;;
  t_stat <- getattr "t_stat";;
  print (nl ++ "T-Statistic: " ++ py_str (str_other L) t_stat);;;
  p_val <- getattr "p_val";;
  print ("P-Value: " ++ py_str (str_other L) p_val);;;
  alpha <- getattr "alpha";;
  print ("Alpha: " ++ py_str (str_other L) alpha);;;
  let NULL := nl ++ "Reject Null Hypothesis: " in
  let ALT := "Accept Alternative Hypothesis: " in
  let YES := "Yes" in
  let NO := "No" in
  keep <- decision.keep_null;;
  (if keep then
     print (NULL ++ NO);;;
     print (ALT ++ NO)
   else
     print (NULL ++ YES);;;
     dir <- decision.direction_ok;;
     if dir then print (ALT ++ YES) else print (ALT ++ NO));;;
  print bar.

Definition to_file (filename : option string) : M unit :=
  t <- localtime;;
  a <- getattr "a";;
  size <- lift (py_len a);;
  assumptions <- to_file_assumptions;;
  als <- alternative_sided;;
  let alternative := fst als in
  let sided := snd als in
  let data : gmap string pyval := ∅ in
  let data := <["sig_test" := PyStr ("T-Test (" ++ sided ++ ")")]> data in
  let data := <["date" := PyStr (strftime L "%a, %d %b %Y" t)]> data in
  let data := <["time" := PyStr (strftime L "%H:%M:%S" t)]> data in
  let data := <["assumptions" := assumptions]> data in
  let data := <["data_size" := PyInt size]> data in
  let data := <["null_hyp" := PyStr "Mean 1 == Mean 2"]> data in
  let data := <["alt_hyp" := PyStr alternative]> data in
  t_stat <- getattr "t_stat";;
  let data := <["t_stat" := t_stat]> data in
  p_val <- getattr "p_val";;
  let data := <["p_val" := p_val]> data in
  keep <- decision.keep_null;;
  data <- (if keep then
             let data := <["reject_null" := PyBool false]> data in
             ret (<["accept_alt" := PyBool false]> data)
           else
             let data := <["reject_null" := PyBool true]> data in
             dir <- decision.direction_ok;;
             if dir then ret (<["accept_alt" := PyBool true]> data)
             else ret (<["accept_alt" := PyBool false]> data));;
  let filename := filename_or L filename t in
  dump_to L filename (PyDict data).

Definition __str__ : M string :=
  a <- getattr "a";;
  n <- lift (py_len a);;
  ret ("2-Sample T-Test on Data of Size " ++ str_int n).

End methods.
End ttest_2samp.

(** ** [wrappers/ols.py] *)

(** [range(lo, hi)] *)
Definition py_range (lo hi : Z) : list Z :=
  map (fun i => lo + Z.of_nat i) (seq 0 (Z.to_nat (hi - lo))).

(** [a, b = v], [a, b, c = v] and [a, b, c, d = v] read the tuple [v]. *)
Definition unpack (n : nat) (v : pyval) : result (list pyval) :=
  match v with
  | PyTuple l | PyList l =>
      if Nat.eqb (List.length l) n then Ok l
      else Raise (ValueError [PyStr "wrong number of values to unpack"])
  | _ => Raise (TypeError "object is not iterable")
  end.

Definition item (l : list pyval) (i : nat) : pyval := nth i l PyNone.

(** The class [ols].  Its [summary], which prints the stored fields and
    the diagnostics through [%] formatting, is not embedded: nothing
    stated below is about its output. *)
Module ols.
Section methods.
Variable L : pylib.

Definition arith (op : binop) (u v : pyval) : M pyval := lift (py_arith L op u v).

(** [dot(u, v)] *)
Definition dot (u v : pyval) : M pyval :=
  a <- lift (as_array u);;
  b <- lift (as_array v);;
  c <- lift (np_dot L a b);;
  ret (PyArr c).

(** [f(v)] for a numpy routine [f] that always answers. *)
Definition call1 (f : ndarray -> ndarray) (v : pyval) : M pyval :=
  a <- lift (as_array v);;
  ret (PyArr (f a)).

(** [f(v)] for one that can refuse. *)
Definition call1r (f : ndarray -> result ndarray) (v : pyval) : M pyval :=
  a <- lift (as_array v);;
  c <- lift (f a);;
  ret (PyArr c).

(** [v.T] and [v.var()] *)
Definition attr_T (v : pyval) : M pyval :=
  match v with
  | PyArr a => ret (PyArr (np_T L a))
  | _ => raise (AttributeError "T")
  end.
Definition meth_var (v : pyval) : M pyval :=
  match v with
  | PyArr a => ret (PyArr (np_var L a))
  | _ => raise (AttributeError "var")
  end.

(** [v[i]] *)
Definition getitem (v : pyval) (i : Z) : M pyval :=
  match v with
  | PyArr a => lift (np_getitem L a i)
  | PyList l | PyTuple l =>
      let j := if i <? 0 then Z.of_nat (List.length l) + i else i in
      if j <? 0 then raise (IndexError "list index out of range") else
      match l !! Z.to_nat j with
      | Some x => ret x
      | None => raise (IndexError "list index out of range")
      end
  | _ => raise (TypeError "object has no __getitem__")
  end.

Definition singular_msg : string :=
  nl ++ nl ++ "Your matrix of independent observations is singular!" ++
  nl ++ "Unfortunately, that means we cannot compute an OLS" ++
  nl ++ "model for your provided data. Terminating immediately.".

Definition estimate : M unit :=
  try_except
    (x <- getattr "x";;
     xT <- attr_T x;;
     x <- getattr "x";;
     xx <- dot xT x;;
     inv_xx <- call1r (linalg_inv L) xx;;
     setattr "inv_xx" inv_xx;;;
     x <- getattr "x";;
     xT <- attr_T x;;
     y <- getattr "y";;
     xy <- dot xT y;;
     inv_xx <- getattr "inv_xx";;
     b <- dot inv_xx xy;;
     setattr "b" b)
    is_LinAlgError
    (raise (LinAlgError [PyStr singular_msg]));;;
  y <- getattr "y";;
  y_shape <- lift (py_shape y);;
  nobs <- lift (shape_item y_shape 0);;
  setattr "nobs" (PyInt nobs);;;
  x <- getattr "x";;
  x_shape <- lift (py_shape x);;
  ncoef <- lift (shape_item x_shape 1);;
  setattr "ncoef" (PyInt ncoef);;;
  nobs <- getattr "nobs";;
  ncoef <- getattr "ncoef";;
  df_e <- arith Sub nobs ncoef;;
  setattr "df_e" df_e;;;
  ncoef <- getattr "ncoef";;
  df_r <- arith Sub ncoef (PyInt 1);;
  setattr "df_r" df_r;;;
  y <- getattr "y";;
  x <- getattr "x";;
  b <- getattr "b";;
  xb <- dot x b;;
  e <- arith Sub y xb;;
  setattr "e" e;;;
  e1 <- getattr "e";;
  e2 <- getattr "e";;
  ee <- dot e1 e2;;
  df_e <- getattr "df_e";;
  sse <- arith Div ee df_e;;
  setattr "sse" sse;;;
  sse <- getattr "sse";;
  inv_xx <- getattr "inv_xx";;
  cov <- arith Mul sse inv_xx;;
  dg <- call1r (np_diagonal L) cov;;
  se <- call1 (np_sqrt L) dg;;
  setattr "se" se;;;
  b <- getattr "b";;
  se <- getattr "se";;
  t <- arith Div b se;;
  setattr "t" t;;;
  t <- getattr "t";;
  abs_t <- call1 (np_abs L) t;;
  df_e <- getattr "df_e";;
  abs_t_a <- lift (as_array abs_t);;
  df_e_a <- lift (as_array df_e);;
  let cdf := PyArr (stats_t_cdf L abs_t_a df_e_a) in
  u <- arith Sub (PyInt 1) cdf;;
  p <- arith Mul u (PyInt 2);;
  setattr "p" p;;;
  e <- getattr "e";;
  var_e <- meth_var e;;
  y <- getattr "y";;
  var_y <- meth_var y;;
  q <- arith Div var_e var_y;;
  R2 <- arith Sub (PyInt 1) q;;
  setattr "R2" R2;;;
  R2 <- getattr "R2";;
  u <- arith Sub (PyInt 1) R2;;
  nobs <- getattr "nobs";;
  n1 <- arith Sub nobs (PyInt 1);;
  nobs <- getattr "nobs";;
  ncoef <- getattr "ncoef";;
  nk <- arith Sub nobs ncoef;;
  ratio <- arith Div n1 nk;;
  v <- arith Mul u ratio;;
  R2adj <- arith Sub (PyInt 1) v;;
  setattr "R2adj" R2adj;;;
  R2 <- getattr "R2";;
  df_r <- getattr "df_r";;
  num <- arith Div R2 df_r;;
  R2 <- getattr "R2";;
  u <- arith Sub (PyInt 1) R2;;
  df_e <- getattr "df_e";;
  den <- arith Div u df_e;;
  F <- arith Div num den;;
  setattr "F" F;;;
  F <- getattr "F";;
  df_r <- getattr "df_r";;
  df_e <- getattr "df_e";;
  F_a <- lift (as_array F);;
  df_r_a <- lift (as_array df_r);;
  df_e_a <- lift (as_array df_e);;
  let cdf := PyArr (stats_f_cdf L F_a df_r_a df_e_a) in
  Fpv <- arith Sub (PyInt 1) cdf;;
  setattr "Fpv" Fpv.

(** The default names [['x' + str(i) for i in range(1, k + 1)]]. *)
Definition numbered_names (k : Z) : list pyval :=
  map (fun i => PyStr ("x" ++ str_int i)) (py_range 1 (k + 1)).

Definition __init__ (x y x_varnm y_varnm : pyval) : M unit :=
  x_shape <- lift (py_shape x);;
  n <- lift (shape_item x_shape 0);;
  col <- lift (np_ones L n);;
  x_a <- lift (as_array x);;
  xc <- lift (np_c_ L col x_a);;
  setattr "x" (PyArr xc);;;
  named <- lift (py_truthy x_varnm);;
  (if negb named then
     x_shape <- lift (py_shape x);;
     single <- (if Nat.eqb (List.length x_shape) 1 then ret true else
                  x_shape <- lift (py_shape x);;
                  k <- lift (shape_item x_shape 1);;
                  ret (k =? 1));;
     if single then
       setattr "x_varnm" (PyList [PyStr "const"; PyStr "x"])
     else
       x_shape <- lift (py_shape x);;
       k <- lift (shape_item x_shape 1);;
       setattr "x_varnm" (PyList ([PyStr "const"] ++ numbered_names k)%list)
   else
     match x_varnm with
     | PyList l => setattr "x_varnm" (PyList ([PyStr "const"] ++ l)%list)
     | _ => raise (TypeError "can only concatenate list to list")
     end);;;
  setattr "y" y;;;
  setattr "y_varnm" y_varnm;;;
  estimate.

(** [-v] *)
Definition neg (v : pyval) : M pyval :=
  match as_num v with
  | Some (NInt z) => ret (PyInt (- z))
  | Some (NFloat f) => ret (PyFloat (- f))
  | None => call1 (np_negative L) v
  end.

Definition dw : M pyval :=
  e <- getattr "e";;
  de <- call1r (fun a => np_diff L a 1) e;;
  num <- dot de de;;
  e1 <- getattr "e";;
  e2 <- getattr "e";;
  den <- dot e1 e2;;
  dw <- arith Div num den;;
  ret dw.

Definition omni : M pyval :=
  try_except
    (e <- getattr "e";;
     e_a <- lift (as_array e);;
     r <- lift (stats_normaltest L e_a);;
     ret (PyTuple [PyArr (fst r); PyArr (snd r)]))
    is_ValueError
    (ret (PyTuple [PyFloat np_nan; PyFloat np_nan])).

Definition JB : M pyval :=
  e <- getattr "e";;
  skew <- call1 (stats_skew L) e;;
  e <- getattr "e";;
  k <- call1 (stats_kurtosis L) e;;
  kurtosis <- arith Add (PyInt 3) k;;
  nobs <- getattr "nobs";;
  n6 <- arith Div nobs (PyInt 6);;
  skew2 <- call1 (np_square L) skew;;
  quarter <- arith Div (PyInt 1) (PyInt 4);;
  excess <- arith Sub kurtosis (PyInt 3);;
  excess2 <- call1 (np_square L) excess;;
  q <- arith Mul quarter excess2;;
  s <- arith Add skew2 q;;
  JB <- arith Mul n6 s;;
  JB_a <- lift (as_array JB);;
  let cdf := PyArr (stats_chi2_cdf L JB_a (scalar 2)) in
  JBpv <- arith Sub (PyInt 1) cdf;;
  ret (PyTuple [JB; JBpv; skew; kurtosis]).

Definition ll : M pyval :=
  nobs <- getattr "nobs";;
  h <- arith Div nobs (PyInt 2);;
  mh <- neg h;;
  two_pi <- arith Mul (PyInt 2) (PyFloat np_pi);;
  lg <- call1 (np_log L) two_pi;;
  c <- arith Add (PyInt 1) lg;;
  left <- arith Mul mh c;;
  nobs <- getattr "nobs";;
  h <- arith Div nobs (PyInt 2);;
  e1 <- getattr "e";;
  e2 <- getattr "e";;
  ee <- dot e1 e2;;
  nobs <- getattr "nobs";;
  m <- arith Div ee nobs;;
  lm <- call1 (np_log L) m;;
  right <- arith Mul h lm;;
  ll <- arith Sub left right;;
  a1 <- arith Mul (PyInt (-2)) ll;;
  nobs <- getattr "nobs";;
  a2 <- arith Div a1 nobs;;
  ncoef <- getattr "ncoef";;
  a3 <- arith Mul (PyInt 2) ncoef;;
  nobs <- getattr "nobs";;
  a4 <- arith Div a3 nobs;;
  aic <- arith Add a2 a4;;
  b1 <- arith Mul (PyInt (-2)) ll;;
  nobs <- getattr "nobs";;
  b2 <- arith Div b1 nobs;;
  ncoef <- getattr "ncoef";;
  nobs <- getattr "nobs";;
  ln <- call1 (np_log L) nobs;;
  b3 <- arith Mul ncoef ln;;
  nobs <- getattr "nobs";;
  b4 <- arith Div b3 nobs;;
  bic <- arith Add b2 b4;;
  ret (PyTuple [ll; aic; bic]).

(** A dictionary key as [json] writes it. *)
Definition key_of (v : pyval) : string := py_str (str_other L) v.

(** One turn of the loop [for i in range(len(self.x_varnm))] of [to_file]. *)
Definition to_file_row (estimates : gmap string pyval) (i : Z)
  : M (gmap string pyval) :=
  let estimate : gmap string pyval := ∅ in
  b <- getattr "b";;
  bi <- getitem b i;;
  let estimate := <["estimate" := bi]> estimate in
  se <- getattr "se";;
  sei <- getitem se i;;
  let estimate := <["std_error" := sei]> estimate in
  t <- getattr "t";;
  ti <- getitem t i;;
  let estimate := <["t_stat" := ti]> estimate in
  p <- getattr "p";;
  pi_ <- getitem p i;;
  let estimate := <["p_val" := pi_]> estimate in
  x_varnm <- getattr "x_varnm";;
  name <- getitem x_varnm i;;
  ret (<[key_of name := PyDict estimate]> estimates).

Fixpoint for_each {A} (body : A -> Z -> M A) (acc : A) (l : list Z) : M A :=
  match l with
  | [] => ret acc
  | i :: l' => acc' <- body acc i;; for_each body acc' l'
  end.

Definition to_file (filename : option string) : M unit :=
  t <- localtime;;
  r <- ll;;
  r <- lift (unpack 3 r);;
  let ll := item r 0 in
  let aic := item r 1 in
  let bic := item r 2 in
  r <- JB;;
  r <- lift (unpack 4 r);;
  let JB := item r 0 in
  let JBpv := item r 1 in
  let skew := item r 2 in
  let kurtosis := item r 3 in
  r <- omni;;
  r <- lift (unpack 2 r);;
  let omni := item r 0 in
  let omnipv := item r 1 in
  let data : gmap string pyval := ∅ in
  y <- getattr "y";;
  let data := <["dependent_var" := y]> data in
  let data := <["method" := PyStr "least squares"]> data in
  let data := <["date" := PyStr (strftime L "%a, %d %b %Y" t)]> data in
  let data := <["time" := PyStr (strftime L "%H:%M:%S" t)]> data in
  nobs <- getattr "nobs";;
  let data := <["obs_count" := nobs]> data in
  ncoefs <- getattr "ncoefs";;
  let data := <["var_count" := ncoefs]> data in
  x_varnm <- getattr "x_varnm";;
  n <- lift (py_len x_varnm);;
  estimates <- for_each to_file_row ∅ (py_range 0 n);;
  let data := <["estimates" := PyDict estimates]> data in
  R2 <- getattr "R2";;
  let data := <["r_squared" := R2]> data in
  R2adj <- getattr "R2adj";;
  let data := <["r_squared_adj" := R2adj]> data in
  d <- dw;;
  let data := <["durbin_watson" := d]> data in
  let data := <["omnibus_stat" := omni]> data in
  let data := <["omnibus_p_val" := omnipv]> data in
  F <- getattr "F";;
  let data := <["f_stat" := F]> data in
  Fpv <- getattr "Fpv";;
  let data := <["f_stat_p_val" := Fpv]> data in
  let data := <["jb_stat" := JB]> data in
  let data := <["jb_stat_p_val" := JBpv]> data in
  let data := <["skew" := skew]> data in
  let data := <["kurtosis" := kurtosis]> data in
  let data := <["aic_stat" := aic]> data in
  let data := <["bic_stat" := bic]> data in
  let data := <["log_likelihood" := ll]> data in
  let filename := filename_or L filename t in
  dump_to L filename (PyDict data).

Definition __str__ : M string :=
  x <- getattr "x";;
  x_shape <- lift (py_shape x);;
  n <- lift (shape_item x_shape 0);;
  ret ("OLS Regression on " ++ str_int n ++ " Observations").

End methods.
End ols.

(** ** A small instance of the libraries

    Dense linear algebra on binary64, written plainly, so that the classes
    can be run on concrete data.  The t-tests answer with a given pair;
    the distribution functions and the logarithm, which have no closed
    form here, answer [nan] in the right shape. *)
Module plain.

Fixpoint chunk (n k : nat) (buf : list float) : list (list float) :=
  match n with
  | O => []
  | S n' => firstn k buf :: chunk n' k (skipn k buf)
  end.

Fixpoint transpose (k : nat) (rows : list (list float)) : list (list float) :=
  match k with
  | O => []
  | S k' => map (fun r => hd 0%float r) rows :: transpose k' (map (@tl float) rows)
  end.

Definition rows_of (a : ndarray) : option (nat * nat * list (list float)) :=
  match shape a with
  | [n; k] => Some (Z.to_nat n, Z.to_nat k, chunk (Z.to_nat n) (Z.to_nat k) (buffer a))
  | _ => None
  end.

Definition of_rows (n k : nat) (rows : list (list float)) : ndarray :=
  NdArray [Z.of_nat n; Z.of_nat k] (concat rows).

Definition vec (l : list float) : ndarray := NdArray [Z.of_nat (List.length l)] l.

Definition dotv (u v : list float) : float :=
  fold_left (fun acc ab => (acc + fst ab * snd ab)%float) (combine u v) 0%float.

Definition bad_shape {A} : result A :=
  Raise (ValueError [PyStr "shapes not aligned"]).

Definition ones (n : Z) : result ndarray :=
  if n <? 0 then Raise (ValueError [PyStr "negative dimensions are not allowed"])
  else Ok (vec (repeat 1%float (Z.to_nat n))).

Definition c_ (a b : ndarray) : result ndarray :=
  match shape a, shape b with
  | [n], [m] =>
      if n =? m then
        Ok (of_rows (Z.to_nat n) 2
              (map (fun ab => [fst ab; snd ab]) (combine (buffer a) (buffer b))))
      else bad_shape
  | [n], [m; k] =>
      if n =? m then
        Ok (of_rows (Z.to_nat n) (S (Z.to_nat k))
              (map (fun ar => fst ar :: snd ar)
                 (combine (buffer a) (chunk (Z.to_nat m) (Z.to_nat k) (buffer b)))))
      else bad_shape
  | _, _ => bad_shape
  end.

Definition T (a : ndarray) : ndarray :=
  match rows_of a with
  | Some (n, k, rows) => of_rows k n (transpose k rows)
  | None => a
  end.

Definition dot (a b : ndarray) : result ndarray :=
  match shape a, shape b with
  | [n], [m] =>
      if n =? m then Ok (scalar (dotv (buffer a) (buffer b))) else bad_shape
  | [n; k], [m] =>
      if k =? m then
        Ok (vec (map (fun r => dotv r (buffer b))
                   (chunk (Z.to_nat n) (Z.to_nat k) (buffer a))))
      else bad_shape
  | [n; k], [m; j] =>
      if k =? m then
        let cols := transpose (Z.to_nat j) (chunk (Z.to_nat m) (Z.to_nat j) (buffer b)) in
        Ok (of_rows (Z.to_nat n) (Z.to_nat j)
              (map (fun r => map (dotv r) cols)
                 (chunk (Z.to_nat n) (Z.to_nat k) (buffer a))))
      else bad_shape
  | _, _ => bad_shape
  end.

(** The row of [rows] largest in magnitude at column [j], and the others. *)
Fixpoint pick_pivot (j : nat) (rows : list (list float))
  : option (list float * list (list float)) :=
  match rows with
  | [] => None
  | r :: rows' =>
      match pick_pivot j rows' with
      | None => Some (r, [])
      | Some (best, others) =>
          if PrimFloat.ltb (PrimFloat.abs (nth j r 0%float))
                           (PrimFloat.abs (nth j best 0%float))
          then Some (best, r :: others)
          else Some (r, best :: others)
      end
  end.

(** Gauss-Jordan elimination with partial pivoting on the rows of
    [[A | I]]; a pivot that is exactly zero means a singular matrix. *)
Fixpoint gauss_jordan (js : list nat) (m : list (list float))
  : option (list (list float)) :=
  match js with
  | [] => Some m
  | j :: js' =>
      match pick_pivot j (skipn j m) with
      | None => None
      | Some (prow, others) =>
          let pv := nth j prow 0%float in
          if PrimFloat.eqb pv 0 then None else
          let prow' := map (fun x => (x / pv)%float) prow in
          let elim r :=
            let f := nth j r 0%float in
            map (fun xp => (fst xp - f * snd xp)%float) (combine r prow') in
          gauss_jordan js' (map elim (firstn j m) ++ [prow'] ++ map elim others)%list
      end
  end.

Definition unit_row (n i : nat) : list float :=
  map (fun j => if Nat.eqb i j then 1%float else 0%float) (seq 0 n).

Definition inv (a : ndarray) : result ndarray :=
  match rows_of a with
  | Some (n, k, rows) =>
      if Nat.eqb n k then
        let aug := map (fun ir => (snd ir ++ unit_row n (fst ir))%list)
                       (combine (seq 0 n) rows) in
        match gauss_jordan (seq 0 n) aug with
        | Some m => Ok (of_rows n n (map (skipn n) m))
        | None => Raise (LinAlgError [PyStr "singular matrix"])
        end
      else Raise (ValueError [PyStr "expected square matrix"])
  | None => Raise (ValueError [PyStr "expected square matrix"])
  end.

Definition apply (op : binop) (x y : float) : float :=
  match op with
  | Add => x + y | Sub => x - y | Mul => x * y | Div => x / y
  end%float.

(** Element by element on equal shapes, or a scalar against an array. *)
Definition arith (op : binop) (a b : ndarray) : result ndarray :=
  match shape a, buffer a, shape b, buffer b with
  | [], [x], sb, ys => Ok (NdArray sb (map (apply op x) ys))
  | sa, xs, [], [y] => Ok (NdArray sa (map (fun x => apply op x y) xs))
  | sa, xs, sb, ys =>
      if bool_decide (sa = sb)
      then Ok (NdArray sa (map (fun xy => apply op (fst xy) (snd xy)) (combine xs ys)))
      else bad_shape
  end.

Definition each (f : float -> float) (a : ndarray) : ndarray :=
  NdArray (shape a) (map f (buffer a)).

Definition diagonal (a : ndarray) : result ndarray :=
  match rows_of a with
  | Some (n, k, rows) =>
      Ok (vec (map (fun ir => nth (fst ir) (snd ir) 0%float) (combine (seq 0 n) rows)))
  | None => Raise (ValueError [PyStr "diag requires an array of at least two dimensions"])
  end.

Definition total (l : list float) : float := fold_left PrimFloat.add l 0%float.
Definition mean (l : list float) : float :=
  (total l / float_of_Z (Z.of_nat (List.length l)))%float.

(** Population variance: the mean squared deviation from the mean. *)
Definition var (a : ndarray) : ndarray :=
  let m := mean (buffer a) in
  scalar (mean (map (fun x => ((x - m) * (x - m))%float) (buffer a))).

Definition diff (a : ndarray) (n : Z) : result ndarray :=
  match shape a, buffer a with
  | [_], x :: xs =>
      Ok (vec (map (fun xy => (snd xy - fst xy)%float) (combine (x :: xs) xs)))
  | [_], [] => Ok (vec [])
  | _, _ => bad_shape
  end.

Definition getitem (a : ndarray) (i : Z) : result pyval :=
  match shape a with
  | [n] =>
      let j := if i <? 0 then n + i else i in
      if (0 <=? j) && (j <? n)
      then Ok (PyArr (scalar (nth (Z.to_nat j) (buffer a) 0%float)))
      else Raise (IndexError "index out of bounds")
  | _ => Raise (IndexError "too many indices")
  end.

Definition unknown (a : ndarray) : ndarray := each (fun _ => nan) a.

(** [scipy.stats.normaltest] refuses fewer than eight observations. *)
Definition normaltest (a : ndarray) : result (ndarray * ndarray) :=
  match shape a with
  | n :: _ =>
      if n <? 8
      then Raise (ValueError [PyStr "skewtest is not valid with less than 8 samples"])
      else Ok (scalar nan, scalar nan)
  | [] => Raise (IndexError "tuple index out of range")
  end.

(** The instance; [tp] is what the three t-tests answer. *)
Definition lib (tp : float * float) : pylib := {|
  str_other := fun _ => "?";
  strftime := fun fmt _ => fmt;
  stats_ttest_1samp := fun _ _ => Ok tp;
  stats_ttest_ind := fun _ _ _ => Ok tp;
  stats_ttest_rel := fun _ _ => Ok tp;
  np_ones := ones;
  np_c_ := c_;
  np_T := T;
  np_dot := dot;
  linalg_inv := inv;
  np_arith := arith;
  np_sqrt := each PrimFloat.sqrt;
  np_abs := each PrimFloat.abs;
  np_square := each (fun x => (x * x)%float);
  np_log := unknown;
  np_negative := each PrimFloat.opp;
  np_diagonal := diagonal;
  np_var := var;
  np_diff := diff;
  np_getitem := getitem;
  stats_t_cdf := fun a _ => unknown a;
  stats_f_cdf := fun a _ _ => unknown a;
  stats_chi2_cdf := fun a _ => unknown a;
  stats_normaltest := normaltest;
  stats_skew := fun _ => scalar nan;
  stats_kurtosis := fun _ => scalar nan;
  json_encodable := fun _ => true
|}.

(** A fresh object in an empty world. *)
Definition world0 : world := World ∅ [] ∅ 0.

(** Arrays of small integers, as the tests of the repository build them. *)
Definition arange (lo hi : Z) : pyval :=
  PyArr (vec (map float_of_Z (py_range lo hi))).

End plain.

(** ** Constructions and what they report *)

(** The arguments of the two constructors. *)
Inductive ttest_args :=
| OneSample (a popmean alt_hyp alpha : pyval)
| TwoSample (a b test_type equal_var alt_hyp alpha : pyval).

Definition alt_hyp_of (c : ttest_args) : pyval :=
  match c with
  | OneSample _ _ alt_hyp _ | TwoSample _ _ _ _ alt_hyp _ => alt_hyp
  end.
Definition alpha_of (c : ttest_args) : pyval :=
  match c with
  | OneSample _ _ _ alpha | TwoSample _ _ _ _ _ alpha => alpha
  end.

Definition construct (L : pylib) (c : ttest_args) : M unit :=
  match c with
  | OneSample a popmean alt_hyp alpha => ttest_1samp.__init__ L a popmean alt_hyp alpha
  | TwoSample a b test_type equal_var alt_hyp alpha =>
      ttest_2samp.__init__ L a b test_type equal_var alt_hyp alpha
  end.
Definition summary_of (L : pylib) (c : ttest_args) : M unit :=
  match c with
  | OneSample _ _ _ _ => ttest_1samp.summary L
  | TwoSample _ _ _ _ _ _ => ttest_2samp.summary L
  end.
Definition to_file_of (L : pylib) (c : ttest_args) : option string -> M unit :=
  match c with
  | OneSample _ _ _ _ => ttest_1samp.to_file L
  | TwoSample _ _ _ _ _ _ => ttest_2samp.to_file L
  end.

(** The world once a constructor has stored its arguments and nothing
    else: no test has run and no statistic is stored by it. *)
Definition stored_only (c : ttest_args) (w : world) : world :=
  match c with
  | OneSample a popmean alt_hyp alpha =>
      set_self (fun s => <["alpha" := alpha]> (<["alt_hyp" := alt_hyp]>
                (<["popmean" := popmean]> (<["a" := a]> s)))) w
  | TwoSample a b test_type equal_var alt_hyp alpha =>
      set_self (fun s => <["alpha" := alpha]> (<["alt_hyp" := alt_hyp]>
                (<["equal_var" := equal_var]> (<["test_type" := test_type]>
                (<["b" := b]> (<["a" := a]> s)))))) w
  end.

(** The raw two-sided answer scipy gives for these arguments. *)
Definition raw_test (L : pylib) (c : ttest_args) : result (float * float) :=
  match c with
  | OneSample a popmean _ _ => stats_ttest_1samp L a popmean
  | TwoSample a b test_type equal_var _ _ =>
      if eq_str test_type "ind" then stats_ttest_ind L a b equal_var
      else stats_ttest_rel L a b
  end.

(** The lines a call printed, and the document a call to [to_file] left
    in the file it names. *)
Definition printed (w w' : world) : list string :=
  skipn (List.length (stdout w)) (stdout w').
Definition written (L : pylib) (filename : option string) (w w' : world)
  : option (gmap string pyval) :=
  match files w' !! filename_or L filename (clock w) with
  | Some (Some (PyDict d)) => Some d
  | _ => None
  end.

(** The decision rule in the words of the specification: [alpha] is
    supplied and positive, and [p < alpha] ... *)
Definition alpha_positive (alpha : pyval) : bool :=
  match alpha with
  | PyInt z => 0 <? z
  | PyFloat f => PrimFloat.ltb 0 f
  | _ => false
  end.
Definition below_alpha (p : float) (alpha : pyval) : bool :=
  match alpha with
  | PyInt z => PrimFloat.ltb p (float_of_Z z)
  | PyFloat f => PrimFloat.ltb p f
  | _ => false
  end.
Definition rule_as_specified (alpha : pyval) (p : float) : bool :=
  alpha_positive alpha && below_alpha p alpha.

(** ... and as the code has it, where a p-value of exactly zero never
    rejects. *)
Definition rule (alpha : pyval) (p : float) : bool :=
  alpha_positive alpha && below_alpha p alpha && negb (PrimFloat.eqb p 0).

(** The direction check: [unequal] always passes, [less] wants [t < 0],
    [greater] wants [t > 0]. *)
Definition direction (alt_hyp : pyval) (t : float) : bool :=
  match alt_hyp with
  | PyStr s =>
      if String.eqb s "unequal" then true
      else if String.eqb s "less" then PrimFloat.ltb t 0
      else if String.eqb s "greater" then PrimFloat.ltb 0 t
      else false
  | _ => false
  end.

Definition alpha_is_nan (alpha : pyval) : bool :=
  match alpha with PyFloat f => is_nan f | _ => false end.

(** The four diagnostics of a regression, and a session of calls to them
    in which every outcome, value or exception, is collected. *)
Inductive diagnostic := Durbin_Watson | Omnibus | Jarque_Bera | Log_likelihood.

Definition call (L : pylib) (d : diagnostic) : M pyval :=
  match d with
  | Durbin_Watson => ols.dw L
  | Omnibus => ols.omni L
  | Jarque_Bera => ols.JB L
  | Log_likelihood => ols.ll L
  end.

Fixpoint session (L : pylib) (ds : list diagnostic) (w : world)
  : list (result pyval) * world :=
  match ds with
  | [] => ([], w)
  | d :: ds' =>
      let (r, w1) := call L d w in
      let (rs, w2) := session L ds' w1 in
      (r :: rs, w2)
  end.

(** The number of predictor columns of the input [x]: a one-dimensional
    input is one predictor. *)
Definition predictors (x : pyval) : option Z :=
  match x with
  | PyArr a =>
      match shape a with
      | [_] => Some 1
      | _ :: k :: _ => Some k
      | [] => None
      end
  | _ => None
  end.

(** The augmented design matrix [c_[ones(n), x]] and its Gram matrix. *)
Definition design (L : pylib) (x : pyval) : result ndarray :=
  match py_shape x with
  | Ok s =>
      match shape_item s 0 with
      | Ok n =>
          match np_ones L n, as_array x with
          | Ok col, Ok x_a => np_c_ L col x_a
          | Raise e, _ | _, Raise e => Raise e
          end
      | Raise e => Raise e
      end
  | Raise e => Raise e
  end.
Definition gram (L : pylib) (X : ndarray) : result ndarray :=
  np_dot L (np_T L X) X.

(** Programs that only read: the world comes back as it was. *)
Definition read_only {A} (m : M A) : Prop := forall w, snd (m w) = w.

(** Programs that neither read nor write the attribute [k]: storing a
    value under [k] beforehand changes nothing but that attribute. *)
Definition ignores {A} (k : string) (m : M A) : Prop :=
  forall v w, m (set_self (insert k v) w)
              = (fst (m w), set_self (insert k v) (snd (m w))).

(** What the parameter checks of both constructors accept: one of the
    three alternatives, and an [alpha] without truth value [True], or a
    number that is neither below 0 nor above 1. *)
Definition alt_hyp_valid (alt_hyp : pyval) : bool :=
  in_strs alt_hyp ["less"; "unequal"; "greater"].

Definition alpha_passes (alpha : pyval) : Prop :=
  py_truthy alpha = Ok false \/
  (py_truthy alpha = Ok true /\ type_in_int_float alpha = true /\
   py_cmp Lt_ alpha (PyInt 0) = Ok false /\ py_cmp Gt_ alpha (PyInt 1) = Ok false).

(** An object on which the test has run: the arguments and the two
    statistics are where the methods look for them. *)
Definition tested (c : ttest_args) (t p : float) (w : world) : Prop :=
  self w !! "alt_hyp" = Some (alt_hyp_of c) /\
  self w !! "alpha" = Some (alpha_of c) /\
  self w !! "t_stat" = Some (PyFloat t) /\
  self w !! "p_val" = Some (PyFloat p) /\
  match c with
  | OneSample a popmean _ _ =>
      self w !! "a" = Some a /\ self w !! "popmean" = Some popmean
  | TwoSample a b test_type equal_var _ _ =>
      self w !! "a" = Some a /\ self w !! "b" = Some b /\
      self w !! "test_type" = Some test_type /\
      self w !! "equal_var" = Some equal_var
  end.

Definition yes_no (b : bool) : string := if b then "Yes" else "No".

(** The three lines that close a summary. *)
Definition verdict (reject accept : bool) : list string :=
  [nl ++ "Reject Null Hypothesis: " ++ yes_no reject;
   "Accept Alternative Hypothesis: " ++ yes_no accept;
   bar].

(** What makes the checks refuse an [alpha]: a truth value other than
    [False] with a type that is neither [int] nor [float], or a number
    below 0 or above 1. *)
Definition alpha_refused (alpha : pyval) : Prop :=
  (py_truthy alpha <> Ok false /\ type_in_int_float alpha = false) \/
  (type_in_int_float alpha = true /\
   (py_cmp Lt_ alpha (PyInt 0) = Ok true \/ py_cmp Gt_ alpha (PyInt 1) = Ok true)).

Definition is_str (v : pyval) : Prop := exists s, v = PyStr s.

(** The arguments that are documented as strings are strings. *)
Definition string_options (c : ttest_args) : Prop :=
  match c with
  | OneSample _ _ alt_hyp _ => is_str alt_hyp
  | TwoSample _ _ test_type _ alt_hyp _ => is_str test_type /\ is_str alt_hyp
  end.

(** The p-value an object stores, from the raw two-sided one. *)
Definition stored_p (alt_hyp : pyval) (p_raw : float) : float :=
  if eq_str alt_hyp "unequal" then p_raw else (p_raw / 2)%float.

(** The attributes [estimate] assigns, and those a construction does. *)
Definition estimated : list string :=
  ["inv_xx"; "b"; "nobs"; "ncoef"; "df_e"; "df_r"; "e"; "sse"; "se"; "t"; "p";
   "R2"; "R2adj"; "F"; "Fpv"].
Definition constructed : list string :=
  (["x"; "x_varnm"; "y"; "y_varnm"] ++ estimated)%list.

(** ** Data to run the classes on

    Ten points near a line, the same with a second predictor column, five
    points, and the one-row design of [test_singular_matrix]. *)
Definition sample_x : pyval := plain.arange 1 11.
Definition sample_y : pyval :=
  PyArr (plain.vec [0x1.199999999999ap+0; 0x1.2666666666666p+1; 0x1.7333333333333p+1;
                    0x1.0cccccccccccdp+2; 0x1.4666666666666p+2; 0x1.7333333333333p+2;
                    0x1.d333333333333p+2; 0x1.0333333333333p+3; 0x1.199999999999ap+3;
                    0x1.4666666666666p+3]%float).

Definition two_columns : ndarray :=
  NdArray [10; 2]
    [1; 1.5; 2; 1; 3; 4.5; 4; 2; 5; 0.5; 6; 3; 7; 7.5; 8; 1; 9; 2.5; 10; 6]%float.

Definition row_of_ones : pyval := PyArr (NdArray [1; 10] (repeat 1%float 10)).
Definition row_of_range : pyval :=
  PyArr (NdArray [1; 10] (map float_of_Z (py_range 0 10))).

Definition five_x : pyval := plain.arange 1 6.
Definition five_y : pyval :=
  PyArr (plain.vec [1.5; 1.75; 3.5; 3.75; 5.25]%float).

(** What a program answers when it answers. *)
Definition answers {A} (P : A -> Prop) (m : M A) : Prop :=
  forall w a w', m w = (Ok a, w') -> P a.

(** A tuple of [n] values. *)
Definition tuple_of (n : nat) (v : pyval) : Prop :=
  exists l, v = PyTuple l /\ List.length l = n.

(** ** Further notions for the statements about the t-tests *)

(** The [test_type] check of the two-sample constructor; the one-sample
    constructor has none. *)
Definition test_type_valid (c : ttest_args) : bool :=
  match c with
  | OneSample _ _ _ _ => true
  | TwoSample _ _ test_type _ _ _ => in_strs test_type ["ind"; "rel"]
  end.

(** The sample whose length the reports give: the first one. *)
Definition sample_of (c : ttest_args) : pyval :=
  match c with
  | OneSample a _ _ _ | TwoSample a _ _ _ _ _ => a
  end.

(** The label of the test and the text of the alternative hypothesis
    that [summary] prints and [to_file] writes. *)
Definition sided_of (alt_hyp : pyval) : string :=
  if eq_str alt_hyp "unequal" then "two-sided" else "one-sided".

Definition relation_of (alt_hyp : pyval) : string :=
  if eq_str alt_hyp "unequal" then "!="
  else if eq_str alt_hyp "less" then "<" else ">".

Definition alternative_of (L : pylib) (c : ttest_args) : string :=
  match c with
  | OneSample _ popmean alt_hyp _ =>
      "Mean 1 " ++ relation_of alt_hyp ++ " " ++ py_str (str_other L) popmean
  | TwoSample _ _ _ _ alt_hyp _ =>
      "Mean 1 " ++ relation_of alt_hyp ++ " Mean 2"
  end.

(** The null hypothesis as [to_file] writes it: a pair for one sample, a
    string for two. *)
Definition null_hyp_of (c : ttest_args) : pyval :=
  match c with
  | OneSample _ popmean _ _ => PyTuple [PyStr "Mean 1 =="; popmean]
  | TwoSample _ _ _ _ _ _ => PyStr "Mean 1 == Mean 2"
  end.

(** The number of [print] calls of a summary before those of the
    verdict; what one call prints may begin with a line break. *)
Definition header_lines (c : ttest_args) : nat :=
  match c with
  | OneSample _ _ _ _ => 13
  | TwoSample _ _ _ _ _ _ => 12
  end.

(** A value that is neither a string nor an array. *)
Definition plain_non_string (v : pyval) : bool :=
  match v with
  | PyStr _ | PyArr _ => false
  | _ => true
  end.

(** A value that is neither a list nor an array. *)
Definition plain_non_list (v : pyval) : bool :=
  match v with
  | PyList _ | PyArr _ => false
  | _ => true
  end.

(** The two steps of a constructor, for either class. *)
Definition check_params_of (L : pylib) (c : ttest_args) : M unit :=
  match c with
  | OneSample _ _ _ _ => ttest_1samp.check_params L
  | TwoSample _ _ _ _ _ _ => ttest_2samp.check_params L
  end.
Definition test_of (L : pylib) (c : ttest_args) : M unit :=
  match c with
  | OneSample _ _ _ _ => ttest_1samp.test L
  | TwoSample _ _ _ _ _ _ => ttest_2samp.test L
  end.

(** ** Singular matrices

    Matrices of integers, exactly: the array that holds one, its Gram
    matrix, and what it means for a square one to be singular. *)
Definition int_array (rows : list (list Z)) : ndarray :=
  NdArray [Z.of_nat (List.length rows); Z.of_nat (List.length (hd [] rows))]
          (map float_of_Z (concat rows)).

Definition dot_Z (u v : list Z) : Z :=
  fold_left Z.add (map (fun ab => fst ab * snd ab) (combine u v)) 0.

Definition column_Z (j : nat) (rows : list (list Z)) : list Z :=
  map (fun r => nth j r 0) rows.

(** Entry (i, j) of the Gram matrix is the product of columns i and j. *)
Definition gram_Z (rows : list (list Z)) : list (list Z) :=
  let k := List.length (hd [] rows) in
  map (fun i => map (fun j => dot_Z (column_Z i rows) (column_Z j rows)) (seq 0 k))
      (seq 0 k).

(** A square matrix is singular when it sends a vector other than zero
    to zero. *)
Definition singular_Z (m : list (list Z)) : Prop :=
  exists v, List.length v = List.length m /\
            v <> repeat 0 (List.length m) /\
            map (fun r => dot_Z r v) m = repeat 0 (List.length m).

(** Ten observations of two predictors, the second eleven times the
    first plus thirteen. *)
Definition dependent_columns : list (list Z) :=
  map (fun i => [i; 11 * i + 13]) (py_range 1 11).
Definition dependent_design : list (list Z) :=
  map (fun r => 1 :: r) dependent_columns.

(** * Properties *)

(** ** Order on binary64 *)
Lemma SFcompare_antisym x y c :
  SFcompare x y = Some c -> SFcompare y x = Some (CompOpp c).
Proof.
  destruct x as [sx|sx| |sx mx ex], y as [sy|sy| |sy my ey]; simpl;
    try discriminate; intros [= <-];
    try (destruct sx; reflexivity); try (destruct sy; reflexivity);
    try (destruct sx, sy; reflexivity).
  change (PosDef.Pos.compare_cont Eq my mx) with (Pos.compare my mx).
  change (PosDef.Pos.compare_cont Eq mx my) with (Pos.compare mx my).
  rewrite (Z.compare_antisym ex ey), (Pos.compare_antisym mx my).
  destruct sx, sy, (ex ?= ey)%Z, (mx ?= my)%positive; reflexivity.
Qed.

Lemma SFcompare_defined x y :
  x <> S754_nan -> y <> S754_nan -> exists c, SFcompare x y = Some c.
Proof.
  destruct x, y; simpl; intros; try congruence; eauto.
Qed.

Lemma SFcompare_refl x : x <> S754_nan -> SFcompare x x = Some Eq.
Proof.
  destruct x as [s|s| |s m e]; simpl; intros; try congruence.
  - destruct s; reflexivity.
  - change (PosDef.Pos.compare_cont Eq m m) with (Pos.compare m m).
    rewrite Z.compare_refl, Pos.compare_refl. destruct s; reflexivity.
Qed.

Lemma not_nan_spec x : is_nan x = false -> Prim2SF x <> S754_nan.
Proof.
  unfold is_nan. rewrite FloatAxioms.eqb_spec. unfold SFeqb. intros H E.
  rewrite E in H. discriminate.
Qed.

(** Among numbers, [not (y <= x)] says [x < y]. *)
Lemma not_le_lt x y :
  is_nan x = false -> is_nan y = false ->
  negb (PrimFloat.leb y x) = PrimFloat.ltb x y.
Proof.
  intros Hx%not_nan_spec Hy%not_nan_spec.
  rewrite FloatAxioms.leb_spec, FloatAxioms.ltb_spec. unfold SFleb, SFltb.
  destruct (SFcompare_defined _ _ Hy Hx) as [c Hc].
  rewrite Hc, (SFcompare_antisym _ _ _ Hc). destruct c; reflexivity.
Qed.

(** A number that is neither zero nor negative is positive. *)
Lemma not_zero_not_neg_pos x :
  is_nan x = false -> PrimFloat.eqb x 0 = false -> PrimFloat.ltb x 0 = false ->
  PrimFloat.ltb 0 x = true.
Proof.
  intros Hx%not_nan_spec. rewrite FloatAxioms.eqb_spec, !FloatAxioms.ltb_spec. unfold SFeqb, SFltb.
  assert (H0 : Prim2SF 0 <> S754_nan) by (vm_compute; discriminate).
  destruct (SFcompare_defined _ _ Hx H0) as [c Hc].
  rewrite Hc, (SFcompare_antisym _ _ _ Hc). destruct c; simpl; congruence.
Qed.

Lemma lt_not_eq x y : PrimFloat.ltb x y = true -> PrimFloat.eqb x y = false.
Proof.
  rewrite FloatAxioms.eqb_spec, FloatAxioms.ltb_spec. unfold SFeqb, SFltb.
  destruct (SFcompare _ _) as [[]|]; congruence.
Qed.
Lemma lt_asym x y : PrimFloat.ltb x y = true -> PrimFloat.ltb y x = false.
Proof.
  rewrite !FloatAxioms.ltb_spec. unfold SFltb.
  destruct (SFcompare (Prim2SF x) (Prim2SF y)) as [c|] eqn:E; try discriminate.
  rewrite (SFcompare_antisym _ _ _ E). destruct c; simpl; congruence.
Qed.

Lemma above_one_not_zero f :
  PrimFloat.ltb 1 f = true -> PrimFloat.eqb f 0 = false.
Proof.
  rewrite FloatAxioms.ltb_spec, FloatAxioms.eqb_spec. unfold SFltb, SFeqb.
  set (one := Prim2SF 1). vm_compute in one. subst one.
  set (zero := Prim2SF 0). vm_compute in zero. subst zero.
  destruct (Prim2SF f) as [[]|[]| |[] m e]; simpl; congruence.
Qed.

Lemma zero_not_pos f :
  PrimFloat.eqb f 0 = true -> PrimFloat.ltb 0 f = false.
Proof.
  rewrite FloatAxioms.ltb_spec, FloatAxioms.eqb_spec. unfold SFltb, SFeqb.
  destruct (SFcompare (Prim2SF f) (Prim2SF 0)) as [c|] eqn:E; try discriminate.
  rewrite (SFcompare_antisym _ _ _ E). destruct c; simpl; congruence.
Qed.

(** ** Running programs *)

Section running.
Context {A B : Type}.
Implicit Types (k : A -> M B) (w : world).

Lemma bind_ret a k w : bind (ret a) k w = k a w.
Proof. reflexivity. Qed.

Lemma bind_raise_now e k w : bind (raise e) k w = (Raise e, w).
Proof. reflexivity. Qed.

Lemma bind_lift r k w :
  bind (lift r) k w = match r with Ok a => k a w | Raise e => (Raise e, w) end.
Proof. unfold bind, lift. now destruct r. Qed.

Lemma bind_if (c : bool) (m1 m2 : M A) k w :
  bind (if c then m1 else m2) k w = if c then bind m1 k w else bind m2 k w.
Proof. now destruct c. Qed.

Lemma bind_assoc {C} (m : M C) (f : C -> M A) k w :
  bind (bind m f) k w = bind m (fun x => bind (f x) k) w.
Proof. unfold bind. destruct (m w) as [[c|e] w1]; reflexivity. Qed.

Lemma bind_ok_inv (m : M A) k w b w' :
  bind m k w = (Ok b, w') ->
  exists a w1, m w = (Ok a, w1) /\ k a w1 = (Ok b, w').
Proof.
  unfold bind. destruct (m w) as [[a|e] w1]; [eauto | discriminate].
Qed.

Lemma bind_ok (m : M A) k w a w1 : m w = (Ok a, w1) -> bind m k w = k a w1.
Proof. unfold bind. now intros ->. Qed.

Lemma bind_raise (m : M A) k w e w1 :
  m w = (Raise e, w1) -> bind m k w = (Raise e, w1).
Proof. unfold bind. now intros ->. Qed.
End running.

Lemma bind_getattr {B} n v (k : pyval -> M B) w :
  self w !! n = Some v -> bind (getattr n) k w = k v w.
Proof. unfold bind, getattr. now intros ->. Qed.

Lemma bind_getattr_none {B} n (k : pyval -> M B) w :
  self w !! n = None -> bind (getattr n) k w = (Raise (AttributeError n), w).
Proof. unfold bind, getattr. now intros ->. Qed.

Lemma bind_setattr {B} n v (k : unit -> M B) w :
  bind (setattr n v) k w = k tt (set_self (insert n v) w).
Proof. reflexivity. Qed.

Lemma bind_print {B} s (k : unit -> M B) w :
  bind (print s) k w = k tt (set_stdout (fun out => (out ++ [s])%list) w).
Proof. reflexivity. Qed.

Lemma bind_localtime {B} (k : Z -> M B) w :
  bind localtime k w = k (clock w) w.
Proof. reflexivity. Qed.

(** Looking an attribute up in a dictionary built by assignments. *)
Ltac lookup :=
  cbn [self stdout files clock set_self set_stdout set_files];
  repeat first
    [ eassumption
    | apply lookup_insert_eq
    | rewrite lookup_insert_ne by discriminate ].

(** One pass of symbolic execution at the head of the goal. *)
Ltac mrun :=
  repeat first
    [ rewrite bind_assoc
    | rewrite bind_ret
    | rewrite bind_raise_now
    | rewrite bind_setattr
    | rewrite bind_print
    | rewrite bind_localtime
    | erewrite bind_getattr by lookup
    | rewrite bind_lift
    | rewrite bind_if ].

Ltac mrun_in H :=
  repeat first
    [ rewrite bind_assoc in H
    | rewrite bind_ret in H
    | rewrite bind_raise_now in H
    | rewrite bind_setattr in H
    | rewrite bind_print in H
    | rewrite bind_localtime in H
    | erewrite bind_getattr in H by lookup
    | rewrite bind_lift in H
    | rewrite bind_if in H ].

(** Case analysis on what the program at the head of [H] waits for. *)
Ltac mcase_in H :=
  lazymatch type of H with
  | (if negb ?c then _ else _) = _ => destruct c eqn:?; cbn [negb] in H
  | (if negb ?c then _ else _) _ = _ => destruct c eqn:?; cbn [negb] in H
  | (if ?c then _ else _) = _ => destruct c eqn:?
  | (if ?c then _ else _) _ = _ => destruct c eqn:?
  | match ?r with Ok _ => _ | Raise _ => _ end = _ => destruct r eqn:?
  | match ?r with Ok _ => _ | Raise _ => _ end _ = _ => destruct r eqn:?
  end.

Ltac mdone_in H :=
  unfold ret, raise, lift in H; try discriminate H.

Ltac mgo_in H := repeat (mrun_in H; try mcase_in H); mdone_in H.

Ltac mcase :=
  lazymatch goal with
  | |- (if negb ?c then _ else _) = _ => destruct c eqn:?; cbn [negb]
  | |- (if negb ?c then _ else _) _ = _ => destruct c eqn:?; cbn [negb]
  | |- (if ?c then _ else _) = _ => destruct c eqn:?
  | |- (if ?c then _ else _) _ = _ => destruct c eqn:?
  | |- match ?r with Ok _ => _ | Raise _ => _ end = _ => destruct r eqn:?
  | |- match ?r with Ok _ => _ | Raise _ => _ end _ = _ => destruct r eqn:?
  end.

(** ** Parameter checks of the t-tests *)

Lemma truthy_raises v e : py_truthy v = Raise e -> exists args, e = ValueError args.
Proof.
  destruct v; simpl; try discriminate.
  destruct (buffer a) as [|? [|? ?]]; try discriminate. intros [= <-]. eauto.
Qed.

Lemma cmp_number c v u : type_in_int_float v = true -> exists b, py_cmp c v (PyInt u) = Ok b.
Proof.
  unfold type_in_int_float. destruct v; cbn; try discriminate; eauto.
  destruct (shape a); discriminate.
Qed.

Lemma out_of_range_truthy alpha :
  type_in_int_float alpha = true ->
  py_cmp Lt_ alpha (PyInt 0) = Ok true \/ py_cmp Gt_ alpha (PyInt 1) = Ok true ->
  py_truthy alpha = Ok true.
Proof.
  unfold type_in_int_float.
  destruct alpha; cbn; intros Hty Hr; try discriminate;
    try (destruct Hr; discriminate).
  - destruct Hr as [[= H]|[= H]]; f_equal; apply negb_true_iff, Z.eqb_neq; lia.
  - destruct Hr as [[= H]|[= H]]; f_equal; apply negb_true_iff.
    + now apply lt_not_eq.
    + now apply above_one_not_zero.
Qed.

Lemma refused_not_passes alpha : alpha_refused alpha -> ~ alpha_passes alpha.
Proof.
  intros [[Ht Hty]|[Hty Hr]] [Hf|(Ht' & Hty' & Hlo & Hhi)]; try congruence.
  - rewrite (out_of_range_truthy _ Hty Hr) in Hf. discriminate.
  - destruct Hr; congruence.
Qed.

Section checks.
Variable L : pylib.
Variables (w : world) (test_type alt_hyp alpha : pyval).
Hypothesis Htype : self w !! "test_type" = Some test_type.
Hypothesis Halt : self w !! "alt_hyp" = Some alt_hyp.
Hypothesis Halpha : self w !! "alpha" = Some alpha.

Lemma check_params_1_ok w' :
  ttest_1samp.check_params L w = (Ok tt, w') ->
  w' = w /\ alt_hyp_valid alt_hyp = true /\ alpha_passes alpha.
Proof using Halt Halpha.
  unfold ttest_1samp.check_params, alt_hyp_valid, alpha_passes. intros H.
  mgo_in H; injection H as <-; intuition auto.
Qed.

Lemma check_params_1_outcome r w' :
  (exists s, alt_hyp = PyStr s) ->
  ttest_1samp.check_params L w = (r, w') ->
  w' = w /\ (r = Ok tt \/ exists args, r = Raise (ValueError args)).
Proof using Halt Halpha.
  intros [s ->]. unfold ttest_1samp.check_params. intros H.
  mgo_in H; injection H as <- <-; split; eauto.
  all: try (right; match goal with
            | Ht : py_truthy _ = Raise _ |- _ =>
                destruct (truthy_raises _ _ Ht) as [? ->]; eauto
            end).
  all: try (exfalso; match goal with
       | Hty : type_in_int_float alpha = true,
         Hc : py_cmp ?c alpha (PyInt ?u) = Raise _ |- _ =>
           destruct (cmp_number c alpha u Hty); congruence
       end).
  discriminate.
Qed.

Lemma check_params_1_refuses :
  (exists s, alt_hyp = PyStr s) ->
  alt_hyp_valid alt_hyp = false \/ alpha_refused alpha ->
  exists args, ttest_1samp.check_params L w = (Raise (ValueError args), w).
Proof using Halt Halpha.
  intros Hs Hbad.
  destruct (ttest_1samp.check_params L w) as [r w'] eqn:E.
  destruct (check_params_1_outcome _ _ Hs E) as [-> [->|[args ->]]]; eauto.
  destruct (check_params_1_ok _ E) as (_ & Hv & Hp).
  destruct Hbad as [Hbad|Hbad]; [congruence|].
  now apply refused_not_passes in Hbad.
Qed.

Lemma check_params_2_ok w' :
  ttest_2samp.check_params L w = (Ok tt, w') ->
  w' = w /\ alt_hyp_valid alt_hyp = true /\ alpha_passes alpha.
Proof using Htype Halt Halpha.
  unfold ttest_2samp.check_params, alt_hyp_valid, alpha_passes. intros H.
  mgo_in H; injection H as <-; intuition auto.
Qed.

Lemma check_params_2_outcome r w' :
  (exists s, test_type = PyStr s) -> (exists s, alt_hyp = PyStr s) ->
  ttest_2samp.check_params L w = (r, w') ->
  w' = w /\ (r = Ok tt \/ exists args, r = Raise (ValueError args)).
Proof using Htype Halt Halpha.
  intros [s' ->] [s ->]. unfold ttest_2samp.check_params. intros H.
  mgo_in H; injection H as <- <-; split; eauto.
  all: try (right; match goal with
            | Ht : py_truthy _ = Raise _ |- _ =>
                destruct (truthy_raises _ _ Ht) as [? ->]; eauto
            end).
  all: try (exfalso; match goal with
       | Hty : type_in_int_float alpha = true,
         Hc : py_cmp ?c alpha (PyInt ?u) = Raise _ |- _ =>
           destruct (cmp_number c alpha u Hty); congruence
       end).
  all: discriminate.
Qed.

Lemma check_params_2_refuses :
  (exists s, test_type = PyStr s) -> (exists s, alt_hyp = PyStr s) ->
  alt_hyp_valid alt_hyp = false \/ alpha_refused alpha ->
  exists args, ttest_2samp.check_params L w = (Raise (ValueError args), w).
Proof using Htype Halt Halpha.
  intros Hs' Hs Hbad.
  destruct (ttest_2samp.check_params L w) as [r w'] eqn:E.
  destruct (check_params_2_outcome _ _ Hs' Hs E) as [-> [->|[args ->]]]; eauto.
  destruct (check_params_2_ok _ E) as (_ & Hv & Hp).
  destruct Hbad as [Hbad|Hbad]; [congruence|].
  now apply refused_not_passes in Hbad.
Qed.
End checks.

(** ** Construction of the t-tests *)

Section construction.
Variable L : pylib.

(** [p /= 2.0] on a float. *)
Lemma halve p : py_arith L Div (PyFloat p) (PyFloat 2) = Ok (PyFloat (p / 2)).
Proof. reflexivity. Qed.

Lemma construct_refuses c w0 :
  string_options c ->
  alt_hyp_valid (alt_hyp_of c) = false \/ alpha_refused (alpha_of c) ->
  exists args, construct L c w0 = (Raise (ValueError args), stored_only c w0).
Proof.
  destruct c as [a popmean alt alpha|a b ty ev alt alpha]; simpl; intros Hs Hbad.
  - destruct (check_params_1_refuses L (stored_only (OneSample a popmean alt alpha) w0)
                alt alpha) as [args E]; auto; try (simpl; lookup).
    exists args. unfold ttest_1samp.__init__. mrun.
    now rewrite (bind_raise _ _ _ _ _ E).
  - destruct Hs as [Hty Hs].
    destruct (check_params_2_refuses L (stored_only (TwoSample a b ty ev alt alpha) w0)
                ty alt alpha) as [args E]; auto; try (simpl; lookup).
    exists args. unfold ttest_2samp.__init__. mrun.
    now rewrite (bind_raise _ _ _ _ _ E).
Qed.

Lemma construct_ok c w0 w :
  construct L c w0 = (Ok tt, w) ->
  exists t p_raw,
    raw_test L c = Ok (t, p_raw) /\
    alt_hyp_valid (alt_hyp_of c) = true /\ alpha_passes (alpha_of c) /\
    tested c t (stored_p (alt_hyp_of c) p_raw) w /\
    stdout w = stdout w0 /\ files w = files w0 /\ clock w = clock w0.
Proof.
  destruct c as [a popmean alt alpha|a b ty ev alt alpha]; simpl; intros H.
  - unfold ttest_1samp.__init__ in H. mrun_in H.
    apply bind_ok_inv in H as ([] & w1 & Hc & H).
    apply check_params_1_ok with (alt_hyp := alt) (alpha := alpha) in Hc
      as (-> & Hv & Hp); try lookup.
    unfold ttest_1samp.test in H. mrun_in H.
    destruct (stats_ttest_1samp L a popmean) as [[t p]|] eqn:E; [|discriminate].
    exists t, p. unfold stored_p.
    mgo_in H; injection H as <-; cbn [fst snd] in *;
      try (rewrite halve in *; simplify_eq);
      (split; [reflexivity|]); (split; [assumption|]); (split; [assumption|]);
      (split; [|auto]); unfold tested; cbn [alt_hyp_of alpha_of];
      repeat split; lookup.
  - unfold ttest_2samp.__init__ in H. mrun_in H.
    apply bind_ok_inv in H as ([] & w1 & Hc & H).
    apply check_params_2_ok with (test_type := ty) (alt_hyp := alt) (alpha := alpha)
      in Hc as (-> & Hv & Hp); try lookup.
    unfold ttest_2samp.test in H. mrun_in H.
    destruct (eq_str ty "ind") eqn:Ety; mrun_in H.
    + destruct (stats_ttest_ind L a b ev) as [[t p]|] eqn:E; [|discriminate].
      exists t, p. unfold stored_p.
      mgo_in H; injection H as <-; cbn [fst snd] in *;
        try (rewrite halve in *; simplify_eq);
        (split; [reflexivity|]); (split; [assumption|]); (split; [assumption|]);
        (split; [|auto]); unfold tested; cbn [alt_hyp_of alpha_of];
        repeat split; lookup.
    + destruct (stats_ttest_rel L a b) as [[t p]|] eqn:E; [|discriminate].
      exists t, p. unfold stored_p.
      mgo_in H; injection H as <-; cbn [fst snd] in *;
        try (rewrite halve in *; simplify_eq);
        (split; [reflexivity|]); (split; [assumption|]); (split; [assumption|]);
        (split; [|auto]); unfold tested; cbn [alt_hyp_of alpha_of];
        repeat split; lookup.
Qed.
End construction.

(** ** The decision *)

Lemma falsy_not_positive alpha :
  py_truthy alpha = Ok false -> alpha_positive alpha = false.
Proof.
  destruct alpha; simpl; try reflexivity.
  - intros [= H%negb_false_iff%Z.eqb_eq]. now subst.
  - intros [= H%negb_false_iff]. now apply zero_not_pos.
Qed.

Lemma int_in_range z :
  negb (z =? 0) = true -> (z <? 0) = false -> (1 <? z) = false -> z = 1.
Proof. intros H%negb_true_iff%Z.eqb_neq; lia. Qed.

Section decision.
Variables (w : world) (alpha alt_hyp : pyval) (t p : float).
Hypothesis Halpha : self w !! "alpha" = Some alpha.
Hypothesis Halt : self w !! "alt_hyp" = Some alt_hyp.
Hypothesis Ht : self w !! "t_stat" = Some (PyFloat t).
Hypothesis Hp : self w !! "p_val" = Some (PyFloat p).

(** The null hypothesis is kept exactly when the rule does not reject. *)
Lemma keep_null_rule :
  alpha_passes alpha -> is_nan p = false -> alpha_is_nan alpha = false ->
  decision.keep_null w = (Ok (negb (rule alpha p)), w).
Proof using Halpha Hp.
  intros Hpass Hnp Hna. unfold decision.keep_null, rule. mrun.
  destruct Hpass as [Hf|(Htr & Hty & Hlo & Hhi)].
  - rewrite Hf, (falsy_not_positive _ Hf). mrun. cbn.
    destruct (PrimFloat.eqb p 0); mrun; rewrite ?Hf; reflexivity.
  - rewrite Htr. mrun. revert Htr Hty Hlo Hhi Hna.
    unfold type_in_int_float.
    destruct alpha as [| |z|f| | | | |a]; cbn; try discriminate.
    + intros [= E1] _ [= E2] [= E3] _.
      rewrite (int_in_range z E1 E2 E3) in *. cbn.
      rewrite <- (not_le_lt p 1 Hnp eq_refl).
      destruct (PrimFloat.leb 1 p); mrun; cbn; [reflexivity|].
      destruct (PrimFloat.eqb p 0); mrun; reflexivity.
    + intros [= E1%negb_true_iff] _ [= E2] _ Hnf.
      rewrite (not_zero_not_neg_pos f Hnf E1 E2), <- (not_le_lt p f Hnp Hnf).
      destruct (PrimFloat.leb f p); mrun; cbn; [reflexivity|].
      destruct (PrimFloat.eqb p 0); mrun; cbn; rewrite ?E1; reflexivity.
Qed.

Lemma direction_ok_rule :
  decision.direction_ok w = (Ok (direction alt_hyp t), w).
Proof using Halt Ht.
  unfold decision.direction_ok, direction, eq_str. mrun.
  destruct alt_hyp; cbn; mrun; try reflexivity.
  rewrite orb_false_r.
  destruct (String.eqb s "unequal") eqn:E1; [reflexivity|]. mrun. cbn.
  rewrite orb_false_r.
  destruct (String.eqb s "less") eqn:E2; mrun; cbn.
  - apply String.eqb_eq in E2 as ->.
    destruct (PrimFloat.ltb t 0); mrun; reflexivity.
  - rewrite orb_false_r. destruct (String.eqb s "greater"); mrun; reflexivity.
Qed.
End decision.

Ltac mexec_in H := repeat (mrun_in H; try mcase_in H).

Lemma skipn_length_app {A} (l l' : list A) : skipn (List.length l) (l ++ l') = l'.
Proof. induction l; simpl; auto. Qed.

Section reports.
Variable L : pylib.
Variables (c : ttest_args) (w : world) (t p : float).
Hypothesis Hobj : tested c t p w.
Hypothesis Hpass : alpha_passes (alpha_of c).
Hypothesis Hnp : is_nan p = false.
Hypothesis Hna : alpha_is_nan (alpha_of c) = false.

Lemma keep_null_at w1 :
  self w1 = self w ->
  decision.keep_null w1 = (Ok (negb (rule (alpha_of c) p)), w1).
Proof using Hobj Hpass Hnp Hna.
  intros E. destruct Hobj as (Ha & Hal & Ht & Hp & _).
  apply keep_null_rule; auto; rewrite E; auto.
Qed.

Lemma direction_ok_at w1 :
  self w1 = self w ->
  decision.direction_ok w1 = (Ok (direction (alt_hyp_of c) t), w1).
Proof using Hobj.
  intros E. destruct Hobj as (Ha & Hal & Ht & Hp & _).
  apply direction_ok_rule; rewrite E; auto.
Qed.
End reports.

(** Runs the decision at the head of [H], by the two rules. *)
Ltac decide_in H keep dir :=
  erewrite (bind_ok decision.keep_null) in H by (apply keep; reflexivity);
  match type of H with
  | context [negb ?r] =>
      destruct r eqn:?; cbn [negb] in H; mexec_in H;
      [ erewrite (bind_ok decision.direction_ok) in H by (apply dir; reflexivity);
        match type of H with
        | context [if ?d then _ else _] => destruct d eqn:?; mexec_in H
        end
      | ]
  end.

Section verdicts.
Variable L : pylib.
Variables (c : ttest_args) (w : world) (t p : float).
Hypothesis Hobj : tested c t p w.
Hypothesis Hpass : alpha_passes (alpha_of c).
Hypothesis Hnp : is_nan p = false.
Hypothesis Hna : alpha_is_nan (alpha_of c) = false.

Lemma summary_verdict w' :
  summary_of L c w = (Ok tt, w') ->
  exists header,
    printed w w' =
    (header ++ verdict (rule (alpha_of c) p)
                       (rule (alpha_of c) p && direction (alt_hyp_of c) t))%list.
Proof using Hobj Hpass Hnp Hna.
  intros H.
  pose proof (keep_null_at c w t p Hobj Hpass Hnp Hna) as Hk.
  pose proof (direction_ok_at c w t p Hobj) as Hd.
  destruct c as [a popmean alt alpha|a b ty ev alt alpha];
    destruct Hobj as (Ha & Hal & Ht & Hp & Hrest); cbn [alt_hyp_of alpha_of] in *.
  - destruct Hrest as (Hsa & Hpm).
    cbn [summary_of] in H.
    unfold ttest_1samp.summary, ttest_1samp.alternative_sided in H.
    mexec_in H; try discriminate H.
    all: decide_in H Hk Hd.
    all: unfold ret in H; injection H as <-; unfold printed;
      cbn [stdout set_stdout]; rewrite <- !app_assoc, skipn_length_app;
      cbn [app fst snd andb];
      eexists [_;_;_;_;_;_;_;_;_;_;_;_;_]; reflexivity.
  - destruct Hrest as (Hsa & Hsb & Hty & Hev).
    cbn [summary_of] in H.
    unfold ttest_2samp.summary, ttest_2samp.alternative_sided,
      ttest_2samp.summary_assumptions in H.
    mexec_in H; try discriminate H.
    all: decide_in H Hk Hd.
    all: unfold ret in H; injection H as <-; unfold printed;
      cbn [stdout set_stdout]; rewrite <- !app_assoc, skipn_length_app;
      cbn [app fst snd andb];
      eexists [_;_;_;_;_;_;_;_;_;_;_;_]; reflexivity.
Qed.

Lemma to_file_verdict filename w' :
  to_file_of L c filename w = (Ok tt, w') ->
  exists data,
    written L filename w w' = Some data /\
    data !! "reject_null" = Some (PyBool (rule (alpha_of c) p)) /\
    data !! "accept_alt" =
      Some (PyBool (rule (alpha_of c) p && direction (alt_hyp_of c) t)).
Proof using Hobj Hpass Hnp Hna.
  intros H.
  pose proof (keep_null_at c w t p Hobj Hpass Hnp Hna) as Hk.
  pose proof (direction_ok_at c w t p Hobj) as Hd.
  destruct c as [a popmean alt alpha|a b ty ev alt alpha];
    destruct Hobj as (Ha & Hal & Ht & Hp & Hrest); cbn [alt_hyp_of alpha_of] in *.
  - destruct Hrest as (Hsa & Hpm).
    cbn [to_file_of] in H.
    unfold ttest_1samp.to_file, ttest_1samp.alternative_sided in H.
    mexec_in H; try discriminate H.
    all: decide_in H Hk Hd.
    all: unfold dump_to in H;
      match type of H with
      | (if ?e then _ else _) = _ => destruct e; [|discriminate H]
      end;
      injection H as <-; unfold written;
      cbn [files set_files clock]; rewrite lookup_insert_eq;
      eexists; split; [reflexivity|]; split; cbn [andb]; lookup.
  - destruct Hrest as (Hsa & Hsb & Hty & Hev).
    cbn [to_file_of] in H.
    unfold ttest_2samp.to_file, ttest_2samp.alternative_sided,
      ttest_2samp.to_file_assumptions in H.
    mexec_in H; try discriminate H.
    all: decide_in H Hk Hd.
    all: unfold dump_to in H;
      match type of H with
      | (if ?e then _ else _) = _ => destruct e; [|discriminate H]
      end;
      injection H as <-; unfold written;
      cbn [files set_files clock]; rewrite lookup_insert_eq;
      eexists; split; [reflexivity|]; split; cbn [andb]; lookup.
Qed.
End verdicts.

(** ** Programs that only read *)

Section read_only.
Context {A B : Type}.

Lemma read_only_ret (a : A) : read_only (ret a).
Proof. now intros w. Qed.
Lemma read_only_raise e : read_only (@raise A e).
Proof. now intros w. Qed.
Lemma read_only_lift (r : result A) : read_only (lift r).
Proof. now intros w. Qed.
Lemma read_only_bind (m : M A) (k : A -> M B) :
  read_only m -> (forall a, read_only (k a)) -> read_only (bind m k).
Proof.
  intros Hm Hk w. unfold bind. specialize (Hm w).
  destruct (m w) as [[a|e] w1]; simpl in *; subst; [apply Hk | reflexivity].
Qed.
Lemma read_only_try_except (body : M A) catches handler :
  read_only body -> read_only handler ->
  read_only (try_except body catches handler).
Proof.
  intros Hb Hh w. unfold try_except. specialize (Hb w).
  destruct (body w) as [[a|e] w1]; simpl in *; subst; [reflexivity|].
  destruct (catches e); [apply Hh | reflexivity].
Qed.
End read_only.

Lemma read_only_getattr n : read_only (getattr n).
Proof. intros w. unfold getattr. now destruct (self w !! n). Qed.

(** Decomposes a program into reads. *)
Ltac read_only :=
  repeat first
    [ apply read_only_ret
    | apply read_only_raise
    | apply read_only_lift
    | apply read_only_getattr
    | apply read_only_try_except
    | apply read_only_bind; [|intros ?]
    | match goal with
      | |- read_only (if ?c then _ else _) => destruct c
      | |- read_only (match ?x with _ => _ end) => destruct x
      end ].

Lemma keep_null_read_only : read_only decision.keep_null.
Proof. unfold decision.keep_null. read_only. Qed.

Lemma direction_ok_read_only : read_only decision.direction_ok.
Proof. unfold decision.direction_ok. read_only. Qed.

Lemma read_only_inv {A} (m : M A) w r w' : read_only m -> m w = (r, w') -> w' = w.
Proof. intros H E. specialize (H w). now rewrite E in H. Qed.

(** Steps over a read-only program at the head of [H], whatever it
    answers. *)
Ltac mread_in H lem :=
  let r := fresh "r" in
  let W := fresh "W" in
  let E := fresh "E" in
  let H' := fresh H in
  apply bind_ok_inv in H as (r & W & E & H');
  apply (read_only_inv _ _ _ _ lem) in E as ->.

(** ** The t-tests: stored p-value, refused parameters, decision *)

(** C3. Every construction that succeeds stores the t-statistic scipy
    returned and, as p-value, the raw two-sided one when the alternative
    is 'unequal' and the raw one divided by 2.0 when it is 'greater' or
    'less', whatever the sign of the t-statistic; no other alternative
    gets that far. *)
Theorem p_value_halved_for_directional (L : pylib) (c : ttest_args) (w0 w : world) :
  construct L c w0 = (Ok tt, w) ->
  exists t p_raw,
    raw_test L c = Ok (t, p_raw) /\
    self w !! "t_stat" = Some (PyFloat t) /\
    (alt_hyp_of c = PyStr "unequal" ->
     self w !! "p_val" = Some (PyFloat p_raw)) /\
    (alt_hyp_of c = PyStr "greater" \/ alt_hyp_of c = PyStr "less" ->
     self w !! "p_val" = Some (PyFloat (p_raw / 2))) /\
    (alt_hyp_of c = PyStr "unequal" \/ alt_hyp_of c = PyStr "greater" \/
     alt_hyp_of c = PyStr "less").
Proof.
  intros H.
  destruct (construct_ok L c w0 w H)
    as (t & p & Hraw & Hv & _ & (_ & _ & Ht & Hp & _) & _).
  exists t, p. repeat split; auto.
  - intros E. rewrite E in Hp. exact Hp.
  - intros [E|E]; rewrite E in Hp; exact Hp.
  - unfold alt_hyp_valid in Hv. destruct (alt_hyp_of c); try discriminate.
    cbn in Hv. rewrite orb_false_r in Hv.
    apply orb_true_iff in Hv as [Hv|Hv%orb_true_iff]; [|destruct Hv as [Hv|Hv]];
      apply String.eqb_eq in Hv as ->; auto.
Qed.

Example p_value_halved_on_tests_data :
  let L := plain.lib (0x1.186f174f88472p-1, 0x1.3299787024f48p-1)%float in
  let c := OneSample (plain.arange 1 10) (PyFloat 4.5) (PyStr "less") (PyFloat 0.5) in
  exists t p_raw,
    raw_test L c = Ok (t, p_raw) /\
    self (snd (construct L c plain.world0)) !! "t_stat" = Some (PyFloat t) /\
    (alt_hyp_of c = PyStr "unequal" ->
     self (snd (construct L c plain.world0)) !! "p_val" = Some (PyFloat p_raw)) /\
    (alt_hyp_of c = PyStr "greater" \/ alt_hyp_of c = PyStr "less" ->
     self (snd (construct L c plain.world0)) !! "p_val" = Some (PyFloat (p_raw / 2))) /\
    (alt_hyp_of c = PyStr "unequal" \/ alt_hyp_of c = PyStr "greater" \/
     alt_hyp_of c = PyStr "less").
Proof.
  intros L c.
  apply (p_value_halved_for_directional L c plain.world0).
  vm_compute. reflexivity.
Defined.

(** C2, as the code has it.  With the options that are documented as
    strings being strings, a construction raises [ValueError], having
    stored its arguments and nothing else (no test has run), whenever the
    alternative is not one of the three, or [alpha] has a truth value
    other than [False] and a type that is neither [int] nor [float], or
    [alpha] is a number below 0 or above 1. *)
Theorem invalid_parameter_raises (L : pylib) (c : ttest_args) (w0 : world) :
  string_options c ->
  alt_hyp_valid (alt_hyp_of c) = false \/ alpha_refused (alpha_of c) ->
  exists args,
    construct L c w0 = (Raise (ValueError args), stored_only c w0) /\
    self (stored_only c w0) !! "t_stat" = self w0 !! "t_stat" /\
    self (stored_only c w0) !! "p_val" = self w0 !! "p_val".
Proof.
  intros Hs Hbad. destruct (construct_refuses L c w0 Hs Hbad) as [args E].
  exists args. split; [exact E|].
  destruct c; cbn [stored_only self set_self];
    rewrite !lookup_insert_ne by discriminate; auto.
Qed.

Example invalid_parameter_raises_on_tests_data :
  let L := plain.lib (0x1.186f174f88472p-1, 0x1.3299787024f48p-1)%float in
  let c := TwoSample (plain.arange 1 10) (plain.arange 1 10)
             (PyStr "ind") (PyBool true) (PyStr "unequal") (PyInt 2) in
  exists args,
    construct L c plain.world0 = (Raise (ValueError args), stored_only c plain.world0) /\
    self (stored_only c plain.world0) !! "t_stat" = self plain.world0 !! "t_stat" /\
    self (stored_only c plain.world0) !! "p_val" = self plain.world0 !! "p_val".
Proof.
  intros L c. apply (invalid_parameter_raises L c plain.world0).
  - split; eexists; reflexivity.
  - right. right. split; [reflexivity|]. right. reflexivity.
Defined.

(** C2 as stated fails: an [alpha] of a type that is neither [int] nor
    [float] is let through when it has truth value [False].  The empty
    string and [False] both construct a test. *)
Lemma falsy_alpha_of_wrong_type_is_accepted :
  let L := plain.lib (0x1.186f174f88472p-1, 0x1.3299787024f48p-1)%float in
  let c1 := OneSample (plain.arange 1 10) (PyInt 5) (PyStr "unequal") (PyStr "") in
  let c2 := TwoSample (plain.arange 1 10) (plain.arange 1 10)
              (PyStr "ind") (PyBool true) (PyStr "unequal") (PyBool false) in
  type_in_int_float (alpha_of c1) = false /\
  type_in_int_float (alpha_of c2) = false /\
  fst (construct L c1 plain.world0) = Ok tt /\
  fst (construct L c2 plain.world0) = Ok tt.
Proof. vm_compute. repeat split. Qed.

(** C1, as the code has it.  On a constructed test whose p-value and
    [alpha] are numbers (not NaN), [summary] closes with, and [to_file]
    writes, the same decision: the null hypothesis is rejected exactly when
    [alpha] is a positive number, [p < alpha] and [p] is not zero, and the
    alternative is accepted exactly when the null is rejected and the
    direction check holds. *)
Theorem decision_reported (L : pylib) (c : ttest_args) (w0 w : world) (t p : float) :
  construct L c w0 = (Ok tt, w) ->
  self w !! "t_stat" = Some (PyFloat t) ->
  self w !! "p_val" = Some (PyFloat p) ->
  is_nan p = false ->
  alpha_is_nan (alpha_of c) = false ->
  let reject := rule (alpha_of c) p in
  let accept := reject && direction (alt_hyp_of c) t in
  (forall w', summary_of L c w = (Ok tt, w') ->
     exists header, printed w w' = (header ++ verdict reject accept)%list) /\
  (forall filename w', to_file_of L c filename w = (Ok tt, w') ->
     exists data,
       written L filename w w' = Some data /\
       data !! "reject_null" = Some (PyBool reject) /\
       data !! "accept_alt" = Some (PyBool accept)).
Proof.
  intros H Ht Hp Hnp Hna reject accept.
  destruct (construct_ok L c w0 w H)
    as (t' & p' & _ & _ & Hpass & Hobj & _).
  assert (t' = t /\ stored_p (alt_hyp_of c) p' = p) as [-> Ep].
  { destruct Hobj as (_ & _ & Ht' & Hp' & _). split; congruence. }
  rewrite Ep in Hobj.
  split.
  - intros w'. now apply summary_verdict.
  - intros filename w'. now apply to_file_verdict.
Qed.

Example decision_reported_on_tests_data :
  let L := plain.lib (0x1.186f174f88472p-1, 0x1.3299787024f48p-1)%float in
  let c := OneSample (plain.arange 1 10) (PyFloat 4.5) (PyStr "greater") (PyFloat 0.5) in
  let w := snd (construct L c plain.world0) in
  let reject := rule (alpha_of c) 0x1.3299787024f48p-2 in
  let accept := reject && direction (alt_hyp_of c) 0x1.186f174f88472p-1 in
  (reject = true /\ accept = true) /\
  (forall w', summary_of L c w = (Ok tt, w') ->
     exists header, printed w w' = (header ++ verdict reject accept)%list) /\
  (forall filename w', to_file_of L c filename w = (Ok tt, w') ->
     exists data,
       written L filename w w' = Some data /\
       data !! "reject_null" = Some (PyBool reject) /\
       data !! "accept_alt" = Some (PyBool accept)).
Proof.
  intros L c w reject accept. split; [split; reflexivity|].
  apply (decision_reported L c plain.world0 w
           0x1.186f174f88472p-1 0x1.3299787024f48p-2).
  - vm_compute. reflexivity.
  - vm_compute. reflexivity.
  - vm_compute. reflexivity.
  - reflexivity.
  - reflexivity.
Defined.

(** C1 as stated fails at a p-value of exactly zero, which scipy returns
    for an infinite t-statistic (a sample without variance): [alpha] is
    supplied and positive and [p < alpha], yet [summary] and [to_file] both
    report that the null hypothesis is not rejected. *)
Lemma zero_p_value_never_rejects :
  let L := plain.lib (infinity, 0%float) in
  let c := OneSample (PyArr (plain.vec [1; 1; 1]%float)) (PyInt 0)
             (PyStr "unequal") (PyFloat 0x1.999999999999ap-5) in
  let w := snd (construct L c plain.world0) in
  fst (construct L c plain.world0) = Ok tt /\
  self w !! "p_val" = Some (PyFloat 0) /\
  rule_as_specified (alpha_of c) 0 = true /\
  fst (summary_of L c w) = Ok tt /\
  printed w (snd (summary_of L c w)) !! 13%nat
    = Some (nl ++ "Reject Null Hypothesis: No") /\
  fst (to_file_of L c (Some "t.json") w) = Ok tt /\
  exists data,
    written L (Some "t.json") w (snd (to_file_of L c (Some "t.json") w)) = Some data /\
    data !! "reject_null" = Some (PyBool false).
Proof.
  vm_compute. repeat split. eexists. split; reflexivity.
Qed.

(** C10. For an independent two-sample test, the assumptions that
    [summary] prints (its sixth line) and that [to_file] writes name
    [Equal Variances] whether [equal_var] is true or not: in [summary] the
    flag only chooses the white space in front, in [to_file] nothing. *)
Theorem equal_variances_always_reported
    (L : pylib) (a b equal_var alt_hyp alpha : pyval) (w0 w : world) :
  construct L (TwoSample a b (PyStr "ind") equal_var alt_hyp alpha) w0 = (Ok tt, w) ->
  (forall w', ttest_2samp.summary L w = (Ok tt, w') ->
     exists gap,
       (gap = "   " \/ gap = tab) /\
       printed w w' !! 5%nat
       = Some ("   Independent Samples" ++ nl ++ gap ++ "Equal Variances")) /\
  (forall filename w', ttest_2samp.to_file L filename w = (Ok tt, w') ->
     exists data,
       written L filename w w' = Some data /\
       data !! "assumptions"
       = Some (PyList [PyStr "Independent Samples"; PyStr "Equal Variances"])).
Proof.
  intros H.
  destruct (construct_ok L _ w0 w H)
    as (t & p & _ & _ & _ & (Ha & Hal & Ht & Hp & Hsa & Hsb & Hty & Hev) & _).
  cbn [alt_hyp_of alpha_of] in *.
  split.
  - intros w' Hs.
    unfold ttest_2samp.summary, ttest_2samp.alternative_sided,
      ttest_2samp.summary_assumptions in Hs.
    mexec_in Hs; try discriminate Hs.
    all: mread_in Hs keep_null_read_only.
    all: destruct r; mexec_in Hs0.
    all: try (mread_in Hs0 direction_ok_read_only; destruct r; mexec_in Hs1).
    all: match goal with
         | Hf : _ = (Ok tt, ?x) |- _ =>
             unfold print, ret in Hf; injection Hf as <-
         end.
    all: unfold printed; cbn [stdout set_stdout];
      rewrite <- !app_assoc, skipn_length_app; cbn [app fst snd].
    all: first [ discriminate
               | exists "   "; split; [now left | reflexivity]
               | exists tab; split; [now right | reflexivity] ].
  - intros filename w' Hs.
    unfold ttest_2samp.to_file, ttest_2samp.alternative_sided,
      ttest_2samp.to_file_assumptions in Hs.
    mexec_in Hs; try discriminate Hs.
    all: mread_in Hs keep_null_read_only.
    all: destruct r; mexec_in Hs0.
    all: try (mread_in Hs0 direction_ok_read_only; destruct r; mexec_in Hs1).
    all: match goal with
         | Hf : dump_to _ _ _ _ = (Ok tt, _) |- _ =>
             unfold dump_to in Hf;
             match type of Hf with
             | (if ?e then _ else _) = _ => destruct e; [|discriminate Hf]
             end;
             injection Hf as <-
         end.
    all: unfold written; cbn [files set_files clock]; rewrite lookup_insert_eq;
      eexists; split; [reflexivity|]; first [ discriminate | lookup ].
Qed.

Example equal_variances_reported_for_welch :
  let L := plain.lib (0x1.186f174f88472p-1, 0x1.3299787024f48p-1)%float in
  let c := TwoSample (plain.arange 1 10) (plain.arange 2 11)
             (PyStr "ind") (PyBool false) (PyStr "unequal") (PyFloat 0.5) in
  let w := snd (construct L c plain.world0) in
  (exists gap,
     (gap = "   " \/ gap = tab) /\
     printed w (snd (ttest_2samp.summary L w)) !! 5%nat
     = Some ("   Independent Samples" ++ nl ++ gap ++ "Equal Variances")) /\
  (exists data,
     written L None w (snd (ttest_2samp.to_file L None w)) = Some data /\
     data !! "assumptions"
     = Some (PyList [PyStr "Independent Samples"; PyStr "Equal Variances"])).
Proof.
  intros L c w.
  destruct (equal_variances_always_reported L
              (plain.arange 1 10) (plain.arange 2 11) (PyBool false)
              (PyStr "unequal") (PyFloat 0.5) plain.world0 w) as [Hs Hf].
  - vm_compute. reflexivity.
  - split.
    + apply Hs. vm_compute. reflexivity.
    + apply Hf. vm_compute. reflexivity.
Defined.

(** ** The diagnostics of a regression *)

Section ols_reads.
Variable L : pylib.

Lemma arith_read_only op u v : read_only (ols.arith L op u v).
Proof. unfold ols.arith. read_only. Qed.
Lemma dot_read_only u v : read_only (ols.dot L u v).
Proof. unfold ols.dot. read_only. Qed.
Lemma call1_read_only f v : read_only (ols.call1 f v).
Proof. unfold ols.call1. read_only. Qed.
Lemma call1r_read_only f v : read_only (ols.call1r f v).
Proof. unfold ols.call1r. read_only. Qed.
Lemma neg_read_only v : read_only (ols.neg L v).
Proof. unfold ols.neg. read_only; apply call1_read_only. Qed.

Ltac ols_read_only :=
  repeat first
    [ apply arith_read_only
    | apply dot_read_only
    | apply call1_read_only
    | apply call1r_read_only
    | apply neg_read_only
    | progress read_only ].

Lemma dw_read_only : read_only (ols.dw L).
Proof. unfold ols.dw. ols_read_only. Qed.
Lemma omni_read_only : read_only (ols.omni L).
Proof. unfold ols.omni. ols_read_only. Qed.
Lemma JB_read_only : read_only (ols.JB L).
Proof. unfold ols.JB. ols_read_only. Qed.
Lemma ll_read_only : read_only (ols.ll L).
Proof. unfold ols.ll. ols_read_only. Qed.

Lemma call_read_only d : read_only (call L d).
Proof.
  destruct d; simpl;
    [apply dw_read_only | apply omni_read_only | apply JB_read_only | apply ll_read_only].
Qed.
End ols_reads.

(** C8. In any session of calls to the four diagnostics, every call
    answers what a call on the untouched object answers, and the object
    (every stored field, and the rest of the world) is left as it was. *)
Theorem diagnostics_repeatable (L : pylib) (ds : list diagnostic) (w : world) :
  session L ds w = (map (fun d => fst (call L d w)) ds, w).
Proof.
  induction ds as [|d ds IH]; simpl; [reflexivity|].
  pose proof (call_read_only L d w) as E.
  destruct (call L d w) as [r w1]; simpl in E; subst w1.
  now rewrite IH.
Qed.

(** ** Estimation *)

Lemma try_raise_ok_inv {A} (body : M A) catches e w a w' :
  try_except body catches (raise e) w = (Ok a, w') -> body w = (Ok a, w').
Proof.
  unfold try_except. destruct (body w) as [[b|e'] w1]; auto.
  destruct (catches e'); discriminate.
Qed.

(** A first read of an attribute the object may or may not have. *)
Ltac mget_in H :=
  lazymatch type of H with
  | bind (getattr ?n) ?k ?w = _ =>
      let E := fresh "Hget" in
      destruct (self w !! n) eqn:E;
      [ rewrite (bind_getattr n _ k w E) in H
      | rewrite (bind_getattr_none n k w E) in H; discriminate H ];
      cbn [self stdout files clock set_self set_stdout set_files] in E;
      rewrite ?lookup_insert_ne in E by discriminate
  | bind (match ?v with PyArr _ => _ | _ => _ end) _ _ = _ =>
      is_var v; destruct v; try discriminate H
  | bind (match ?v with PyList _ => _ | _ => _ end) _ _ = _ =>
      is_var v; destruct v; try discriminate H
  end.

Ltac minv_in H :=
  repeat (mrun_in H;
          try first [ progress cbn [as_array] in H | mcase_in H | mget_in H ]).

Lemma py_shape_ok v s : py_shape v = Ok s -> exists a, v = PyArr a /\ shape a = s.
Proof. destruct v; try discriminate. intros [= <-]. eauto. Qed.

Lemma py_arith_array L op u v r :
  as_num u = None \/ as_num v = None ->
  py_arith L op u v = Ok r -> exists c, r = PyArr c.
Proof.
  unfold py_arith. intros [E|E]; rewrite E.
  - destruct (as_array u), (as_array v); try discriminate.
    destruct (np_arith _ _ _ _); intros [= <-]; eauto.
  - destruct (as_num u) as [[]|]; destruct (as_array u), (as_array v);
      try discriminate; destruct (np_arith _ _ _ _); intros [= <-]; eauto.
Qed.

Ltac not_in := intros Hin%list_elem_of_In; simpl in Hin; intuition discriminate.

Lemma not_in_app_r (k : string) (l1 l2 : list string) : k ∉ (l1 ++ l2)%list -> k ∉ l2.
Proof. intros H Hin. apply H, elem_of_app. now right. Qed.

Lemma shape_item_some s i n : shape_item s i = Ok n -> s !! i = Some n.
Proof. unfold shape_item. destruct (s !! i); now intros [= <-]. Qed.

Section estimation.
Variable L : pylib.

Lemma estimate_ok w w' :
  ols.estimate L w = (Ok tt, w') ->
  exists y e nobs ncoef,
    self w !! "y" = Some (PyArr y) /\
    self w' !! "e" = Some (PyArr e) /\
    self w' !! "nobs" = Some (PyInt nobs) /\
    self w' !! "ncoef" = Some (PyInt ncoef) /\
    (forall k, k ∉ estimated -> self w' !! k = self w !! k) /\
    stdout w' = stdout w /\ files w' = files w /\ clock w' = clock w.
Proof.
  unfold ols.estimate. intros H.
  apply bind_ok_inv in H as ([] & w1 & Htry & H).
  apply try_raise_ok_inv in Htry.
  unfold ols.dot, ols.arith, ols.call1, ols.call1r, ols.attr_T, ols.meth_var in *.
  minv_in Htry; try discriminate Htry.
  unfold setattr in Htry. injection Htry as <-.
  minv_in H; try discriminate H.
  unfold setattr in H. injection H as <-.
  match goal with
  | Hy : self w !! "y" = Some (PyArr ?y),
    He : py_arith L Sub (PyArr ?y) _ = Ok (PyArr ?e),
    Hn : shape_item _ 0 = Ok ?n, Hk : shape_item _ 1 = Ok ?k |- _ =>
      exists y, e, n, k
  end.
  cbn [self stdout files clock set_self].
  repeat split; try lookup.
  intros k Hk.
  repeat rewrite lookup_insert_ne
    by (intros <-; apply Hk, list_elem_of_In; simpl; tauto).
  reflexivity.
Qed.

Lemma init_ok x y x_varnm y_varnm w0 w :
  ols.__init__ L x y x_varnm y_varnm w0 = (Ok tt, w) ->
  exists xa X ya e nobs ncoef names,
    x = PyArr xa /\ y = PyArr ya /\ design L x = Ok X /\
    self w !! "x" = Some (PyArr X) /\
    self w !! "y" = Some y /\
    self w !! "x_varnm" = Some (PyList names) /\
    self w !! "e" = Some (PyArr e) /\
    self w !! "nobs" = Some (PyInt nobs) /\
    self w !! "ncoef" = Some (PyInt ncoef) /\
    (forall k, k ∉ constructed -> self w !! k = self w0 !! k) /\
    stdout w = stdout w0 /\ files w = files w0 /\ clock w = clock w0 /\
    (py_truthy x_varnm = Ok false ->
       (List.length (shape xa) = 1%nat \/ shape xa !! 1%nat = Some 1 ->
        names = [PyStr "const"; PyStr "x"]) /\
       (forall k, List.length (shape xa) <> 1%nat -> shape xa !! 1%nat = Some k ->
                  k <> 1 -> names = PyStr "const" :: ols.numbered_names k)) /\
    (forall l, x_varnm = PyList l -> l <> [] -> names = PyStr "const" :: l).
Proof.
  unfold ols.__init__. intros H.
  minv_in H; try discriminate H.
  all: apply py_shape_ok in Heqr as (xa & -> & <-).
  all: cbn [as_array] in Heqr2; injection Heqr2 as <-.
  all: apply estimate_ok in H
         as (ya & e & nobs & ncoef & Hy & He & Hn & Hk & Hframe & Hso & Hf & Hc).
  all: cbn [self stdout files clock set_self] in *.
  all: rewrite lookup_insert_ne, lookup_insert_eq in Hy by discriminate;
       injection Hy as ->.
  all: exists xa, a3, ya, e, nobs, ncoef; eexists.
  all: split; [reflexivity|]; split; [reflexivity|].
  all: split; [unfold design; cbn [py_shape as_array]; rewrite Heqr0, Heqr1;
               exact Heqr3|].
  all: rewrite !Hframe by not_in.
  all: split; [lookup|]; split; [lookup|]; split; [lookup|].
  all: split; [assumption|]; split; [assumption|]; split; [assumption|].
  all: split; [intros k Hk'; rewrite Hframe by (revert Hk'; apply not_in_app_r);
               rewrite !lookup_insert_ne
                 by (intros <-; apply Hk', list_elem_of_In; simpl; tauto);
               reflexivity|].
  all: split; [assumption|]; split; [assumption|]; split; [assumption|].
  all: repeat match goal with
       | Hs : shape_item _ _ = Ok _ |- _ => apply shape_item_some in Hs
       | Hb : Nat.eqb _ _ = true |- _ => apply Nat.eqb_eq in Hb
       | Hb : Nat.eqb _ _ = false |- _ => apply Nat.eqb_neq in Hb
       | Hb : Z.eqb _ _ = true |- _ => apply Z.eqb_eq in Hb
       | Hb : Z.eqb _ _ = false |- _ => apply Z.eqb_neq in Hb
       end.
  all: split.
  all: try (intros l' E Hl'; subst; cbn in *;
            first [ now injection E as <- | now destruct l' ]).
  all: intros Hfalse; try discriminate Hfalse.
  all: split.
  all: try (intros [Hone|Hone]; first [reflexivity | congruence]).
  all: intros k Hlen Hcol Hne; first [congruence | cbn; do 2 f_equal; congruence].
Qed.
End estimation.

(** ** Programs that leave an attribute alone *)

Section ignores.
Context {A B : Type}.
Variable key : string.

Lemma ignores_ret (a : A) : ignores key (ret a).
Proof. now intros v w. Qed.
Lemma ignores_raise e : ignores key (@raise A e).
Proof. now intros v w. Qed.
Lemma ignores_lift (r : result A) : ignores key (lift r).
Proof. now intros v w. Qed.
Lemma ignores_bind (m : M A) (k : A -> M B) :
  ignores key m -> (forall a, ignores key (k a)) -> ignores key (bind m k).
Proof.
  intros Hm Hk v w. unfold bind. rewrite (Hm v w).
  destruct (m w) as [[a|e] w1]; simpl; [apply Hk | reflexivity].
Qed.
Lemma ignores_try_except (body : M A) catches handler :
  ignores key body -> ignores key handler ->
  ignores key (try_except body catches handler).
Proof.
  intros Hb Hh v w. unfold try_except. rewrite (Hb v w).
  destruct (body w) as [[a|e] w1]; simpl; [reflexivity|].
  destruct (catches e); [apply Hh | reflexivity].
Qed.
End ignores.

Lemma ignores_getattr key n : n <> key -> ignores key (getattr n).
Proof.
  intros Hn v w. unfold getattr. cbn [self set_self].
  rewrite lookup_insert_ne by congruence. now destruct (self w !! n).
Qed.

Lemma ignores_setattr key n u : n <> key -> ignores key (setattr n u).
Proof.
  intros Hn v w. unfold setattr, set_self. cbn.
  now rewrite insert_insert_ne by congruence.
Qed.

Ltac ignores :=
  repeat first
    [ apply ignores_ret
    | apply ignores_raise
    | apply ignores_lift
    | apply ignores_getattr; discriminate
    | apply ignores_setattr; discriminate
    | apply ignores_try_except
    | apply ignores_bind; [|intros ?]
    | match goal with
      | |- ignores _ (if ?c then _ else _) => destruct c
      | |- ignores _ (match ?x with _ => _ end) => destruct x
      end ].

Lemma estimate_ignores_names L : ignores "x_varnm" (ols.estimate L).
Proof.
  unfold ols.estimate, ols.dot, ols.arith, ols.call1, ols.call1r, ols.attr_T,
    ols.meth_var.
  ignores.
Qed.

(** ** Construction of a regression *)

(** C5, as the code has it.  A name list that is supplied is stored
    behind ['const'] without any check of its length: the construction
    succeeds or fails, and with the same exception, exactly as it does
    with any other non-empty list, one of the right length included. *)
Theorem names_length_unchecked
    (L : pylib) (x y y_varnm : pyval) (l l' : list pyval) (w0 : world) :
  l <> [] -> l' <> [] ->
  fst (ols.__init__ L x y (PyList l) y_varnm w0)
  = fst (ols.__init__ L x y (PyList l') y_varnm w0) /\
  (forall w, ols.__init__ L x y (PyList l) y_varnm w0 = (Ok tt, w) ->
             self w !! "x_varnm" = Some (PyList (PyStr "const" :: l))).
Proof.
  intros Hl Hl'. split.
  - assert (Hgen : forall l1, l1 <> [] ->
      fst (ols.__init__ L x y (PyList l1) y_varnm w0)
      = match design L x with
        | Ok X => fst ((setattr "y" y;;; setattr "y_varnm" y_varnm;;; ols.estimate L)
                         (set_self (insert "x" (PyArr X)) w0))
        | Raise e => Raise e
        end).
    { intros l1 Hl1. unfold ols.__init__, design.
      destruct (py_shape x) as [s|]; mrun; [|reflexivity].
      destruct (shape_item s 0) as [n|]; mrun; [|reflexivity].
      destruct (np_ones L n) as [col|]; mrun; [|reflexivity].
      destruct (as_array x) as [xa|]; mrun; [|reflexivity].
      destruct (np_c_ L col xa) as [X|]; mrun; [|reflexivity].
      destruct l1 as [|n1 l1]; [congruence|]. cbn [py_truthy negb]. mrun.
      assert (Hi : ignores "x_varnm"
                (setattr "y" y;;; setattr "y_varnm" y_varnm;;; ols.estimate L)).
      { apply ignores_bind; [apply ignores_setattr; discriminate|intros ?].
        apply ignores_bind; [apply ignores_setattr; discriminate|intros ?].
        apply estimate_ignores_names. }
      change (fst ((setattr "y" y;;; setattr "y_varnm" y_varnm;;; ols.estimate L)
                     (set_self (insert "x_varnm" (PyList ([PyStr "const"] ++ n1 :: l1)))
                        (set_self (insert "x" (PyArr X)) w0)))
              = fst ((setattr "y" y;;; setattr "y_varnm" y_varnm;;; ols.estimate L)
                       (set_self (insert "x" (PyArr X)) w0))).
      now rewrite Hi. }
    now rewrite (Hgen l Hl), (Hgen l' Hl').
  - intros w H.
    destruct (init_ok L _ _ _ _ _ _ H)
      as (xa & X & ya & e & nobs & ncoef & names & _ & _ & _ & _ & _ & Hn & _ & _ &
          _ & _ & _ & _ & _ & _ & Hsup).
    now rewrite Hn, (Hsup l eq_refl Hl).
Qed.

Example names_length_unchecked_on_one_predictor :
  let L := plain.lib (0%float, 1%float) in
  let l := [PyStr "bad_pred"; PyStr "bad_pred2"] in
  let l' := [PyStr "good_pred"] in
  fst (ols.__init__ L sample_x sample_y (PyList l) (PyStr "y") plain.world0)
  = fst (ols.__init__ L sample_x sample_y (PyList l') (PyStr "y") plain.world0) /\
  (forall w, ols.__init__ L sample_x sample_y (PyList l) (PyStr "y") plain.world0
             = (Ok tt, w) ->
             self w !! "x_varnm" = Some (PyList (PyStr "const" :: l))).
Proof.
  intros L l l'.
  apply (names_length_unchecked L sample_x sample_y (PyStr "y") l l' plain.world0);
    discriminate.
Defined.

(** C5 as stated fails: with one predictor column and two names the
    construction succeeds and keeps three names. *)
Lemma mismatched_names_are_accepted :
  let L := plain.lib (0%float, 1%float) in
  let l := [PyStr "bad_pred"; PyStr "bad_pred2"] in
  let r := ols.__init__ L sample_x sample_y (PyList l) (PyStr "y") plain.world0 in
  predictors sample_x = Some 1 /\
  Z.of_nat (List.length l) <> 1 /\
  fst r = Ok tt /\
  self (snd r) !! "x_varnm"
  = Some (PyList [PyStr "const"; PyStr "bad_pred"; PyStr "bad_pred2"]).
Proof. vm_compute. repeat split. discriminate. Qed.

Lemma lookup_map {A B} (f : A -> B) (l : list A) (i : nat) :
  map f l !! i = f <$> (l !! i).
Proof. revert i. induction l; intros [|i]; simpl; auto. Qed.

Lemma numbered_names_length k : 0 <= k -> List.length (ols.numbered_names k) = Z.to_nat k.
Proof.
  intros Hk. unfold ols.numbered_names, py_range.
  rewrite !length_map, length_seq. lia.
Qed.

Lemma numbered_names_lookup k i :
  1 <= i <= k ->
  ols.numbered_names k !! Z.to_nat (i - 1) = Some (PyStr ("x" ++ str_int i)).
Proof.
  intros Hi. unfold ols.numbered_names, py_range.
  assert (E : 1 + Z.of_nat (0 + Z.to_nat (i - 1)) = i) by lia.
  rewrite !lookup_map, lookup_seq_lt by lia. cbn [fmap option_fmap option_map].
  now rewrite E.
Qed.

(** C6. A construction without names (none, or an empty list) stores
    ['const', 'x'] when the predictor input is one-dimensional or has one
    column, and ['const', 'x1', ..., 'xk'] when it has k > 1 columns. *)
Theorem default_names_generated
    (L : pylib) (a : ndarray) (y x_varnm y_varnm : pyval) (w0 w : world) :
  py_truthy x_varnm = Ok false ->
  ols.__init__ L (PyArr a) y x_varnm y_varnm w0 = (Ok tt, w) ->
  (List.length (shape a) = 1%nat \/ shape a !! 1%nat = Some 1 ->
   self w !! "x_varnm" = Some (PyList [PyStr "const"; PyStr "x"])) /\
  (forall k, shape a !! 1%nat = Some k -> 1 < k ->
     exists names,
       self w !! "x_varnm" = Some (PyList names) /\
       List.length names = S (Z.to_nat k) /\
       names !! 0%nat = Some (PyStr "const") /\
       forall i, 1 <= i <= k ->
                 names !! Z.to_nat i = Some (PyStr ("x" ++ str_int i))).
Proof.
  intros Hnone H.
  destruct (init_ok L _ _ _ _ _ _ H)
    as (xa & X & ya & e & nobs & ncoef & names & [= <-] & _ & _ & _ & _ & Hn & _ &
        _ & _ & _ & _ & _ & _ & Hdef & _).
  destruct (Hdef Hnone) as [Hone Hmany]. split.
  - intros Hs. now rewrite Hn, (Hone Hs).
  - intros k Hk Hgt. exists names. split; [exact Hn|].
    rewrite (Hmany k); try lia.
    + split; [simpl; now rewrite numbered_names_length by lia|].
      split; [reflexivity|]. intros i Hi.
      replace (Z.to_nat i) with (S (Z.to_nat (i - 1))) by lia.
      now apply numbered_names_lookup.
    + intros Hlen. destruct (shape a) as [|? [|? ?]]; simpl in *; congruence.
    + exact Hk.
Qed.

Example default_names_for_two_columns :
  let L := plain.lib (0%float, 1%float) in
  let w := snd (ols.__init__ L (PyArr two_columns) sample_y PyNone (PyStr "y")
                  plain.world0) in
  self w !! "x_varnm" = Some (PyList [PyStr "const"; PyStr "x1"; PyStr "x2"]) /\
  exists names,
    self w !! "x_varnm" = Some (PyList names) /\
    List.length names = 3%nat /\
    names !! 0%nat = Some (PyStr "const") /\
    forall i, 1 <= i <= 2 -> names !! Z.to_nat i = Some (PyStr ("x" ++ str_int i)).
Proof.
  intros L w. split; [vm_compute; reflexivity|].
  refine (proj2 (default_names_generated L two_columns sample_y PyNone (PyStr "y")
                   plain.world0 w eq_refl _) 2 eq_refl _).
  - vm_compute. reflexivity.
  - lia.
Defined.

Example default_names_for_one_dimension :
  let L := plain.lib (0%float, 1%float) in
  let w := snd (ols.__init__ L sample_x sample_y PyNone (PyStr "y") plain.world0) in
  fst (ols.__init__ L sample_x sample_y PyNone (PyStr "y") plain.world0) = Ok tt /\
  self w !! "x_varnm" = Some (PyList [PyStr "const"; PyStr "x"]).
Proof. vm_compute. split; reflexivity. Qed.

(** Rewrites the outcome the program at the head of the goal waits for,
    when it is known. *)
Ltac mknown :=
  match goal with
  | H : ?r = _ |- match ?r with Ok _ => _ | Raise _ => _ end = _ => rewrite H
  | H : ?r = _ |- match ?r with Ok _ => _ | Raise _ => _ end _ = _ => rewrite H
  end.

Ltac mfwd := repeat (mrun; try first [ mknown | progress cbn [as_array] ]).

Lemma bind_try_caught {A B} (body handler : M A) catches (k : A -> M B) w e w1 :
  body w = (Raise e, w1) -> catches e = true ->
  bind (try_except body catches handler) k w = bind handler k w1.
Proof. intros Hb Hc. unfold bind, try_except. now rewrite Hb, Hc. Qed.

(** C4, as the code has it.  The code has no test of singularity of its
    own: it inverts the Gram matrix of the augmented design matrix with
    scipy and catches the [LinAlgError] of the inversion.  When the
    inversion raises it, whatever its own message, the construction
    raises [LinAlgError] with the three lines of [estimate] that call
    the matrix of independent observations singular; no result of
    [estimate] has been stored, nothing is printed and no file is
    written. *)
Theorem singular_design_raises
    (L : pylib) (x y x_varnm y_varnm : pyval) (w0 : world)
    (X G : ndarray) (args : list pyval) :
  design L x = Ok X ->
  gram L X = Ok G ->
  linalg_inv L G = Raise (LinAlgError args) ->
  x_varnm = PyNone \/ (exists l, x_varnm = PyList l) ->
  exists w,
    ols.__init__ L x y x_varnm y_varnm w0
    = (Raise (LinAlgError
                [PyStr (nl ++ nl ++ "Your matrix of independent observations is singular!" ++
                        nl ++ "Unfortunately, that means we cannot compute an OLS" ++
                        nl ++ "model for your provided data. Terminating immediately.")]),
       w) /\
    (forall k, k ∈ estimated -> self w !! k = self w0 !! k) /\
    stdout w = stdout w0 /\ files w = files w0.
Proof.
  unfold design, gram. intros Hd Hg Hinv Hnames.
  destruct x as [| | | | | | | |xa]; try discriminate Hd. cbn [py_shape as_array] in Hd.
  destruct (shape xa) as [|n rest] eqn:Hshape; [discriminate Hd|].
  cbn [shape_item lookup list_lookup] in Hd.
  destruct (np_ones L n) as [col|] eqn:Hones; [|discriminate Hd].
  assert (Hbody : forall w1,
    self w1 !! "x" = Some (PyArr X) ->
    ols.estimate L w1 = (Raise (LinAlgError [PyStr ols.singular_msg]), w1)).
  { intros w1 Hx. unfold ols.estimate.
    rewrite (bind_try_caught _ _ _ _ w1 (LinAlgError args) w1); [reflexivity| |reflexivity].
    unfold ols.dot, ols.call1r, ols.attr_T.
    mfwd. reflexivity. }
  assert (Hrun : exists names,
    ols.__init__ L (PyArr xa) y x_varnm y_varnm w0
    = ols.estimate L
        (set_self (insert "y_varnm" y_varnm)
           (set_self (insert "y" y)
              (set_self (insert "x_varnm" names)
                 (set_self (insert "x" (PyArr X)) w0))))).
  { unfold ols.__init__. cbn [py_shape as_array]. rewrite Hshape.
    destruct Hnames as [->|[[|n1 l] ->]]; cbn [py_truthy negb];
      try (destruct rest as [|k rest]; [|destruct (k =? 1) eqn:Ek]);
      eexists;
      repeat (mfwd; cbn [List.length Nat.eqb shape_item lookup list_lookup negb];
              rewrite ?Ek);
      reflexivity. }
  destruct Hrun as [names ->].
  eexists. split; [apply Hbody; lookup|].
  cbn [self stdout files set_self]. split; [|split; reflexivity].
  intros k Hk. apply list_elem_of_In in Hk. simpl in Hk.
  rewrite !lookup_insert_ne by (intros <-; intuition discriminate). reflexivity.
Qed.

Example singular_design_of_the_tests :
  let L := plain.lib (0%float, 1%float) in
  exists w,
    ols.__init__ L row_of_ones row_of_range PyNone (PyStr "y") plain.world0
    = (Raise (LinAlgError
                [PyStr (nl ++ nl ++ "Your matrix of independent observations is singular!" ++
                        nl ++ "Unfortunately, that means we cannot compute an OLS" ++
                        nl ++ "model for your provided data. Terminating immediately.")]),
       w) /\
    (forall k, k ∈ estimated -> self w !! k = self plain.world0 !! k) /\
    stdout w = stdout plain.world0 /\ files w = files plain.world0.
Proof.
  intros L.
  refine (singular_design_raises L row_of_ones row_of_range PyNone (PyStr "y")
            plain.world0
            (NdArray [1; 11] (repeat 1%float 11))
            (NdArray [11; 11] (repeat 1%float 121))
            [PyStr "singular matrix"] _ _ _ _).
  - vm_compute. reflexivity.
  - vm_compute. reflexivity.
  - vm_compute. reflexivity.
  - now left.
Defined.

(** C4 as stated fails: a Gram matrix can be singular without the
    inversion noticing.  With a second predictor that is eleven times
    the first plus thirteen, the columns of the augmented design matrix
    are dependent and its Gram matrix, whose entries are whole numbers
    held exactly, sends (13, 11, -1) to zero; in binary64 the
    elimination leaves a last pivot that is small but not zero, the
    inversion answers and the regression is constructed. *)
Lemma undetected_singular_design_is_accepted :
  let L := plain.lib (0%float, 1%float) in
  let x := PyArr (int_array dependent_columns) in
  design L x = Ok (int_array dependent_design) /\
  gram L (int_array dependent_design) = Ok (int_array (gram_Z dependent_design)) /\
  singular_Z (gram_Z dependent_design) /\
  exists w, ols.__init__ L x sample_y PyNone (PyStr "y") plain.world0 = (Ok tt, w).
Proof.
  intros L x. split; [vm_compute; reflexivity|]. split; [vm_compute; reflexivity|].
  split.
  - exists [13; 11; -1]. split; [reflexivity|]. split; [discriminate|].
    vm_compute. reflexivity.
  - eexists. vm_compute. reflexivity.
Qed.

(** ** The omnibus test and the export of a regression *)

(** C7. Where [scipy.stats.normaltest] refuses fewer than eight
    observations with a [ValueError] and answers from eight on, [omni] on a
    constructed regression never raises: below eight residuals it returns
    the pair (nan, nan), from eight on the statistic and p-value of
    [normaltest].  The object is left as it was. *)
Theorem omnibus_needs_eight
    (L : pylib) (x y x_varnm y_varnm : pyval) (w0 w : world) :
  (forall a n rest, shape a = n :: rest -> n < 8 ->
     exists args, stats_normaltest L a = Raise (ValueError args)) ->
  (forall a n rest, shape a = n :: rest -> 8 <= n ->
     exists s p, stats_normaltest L a = Ok (s, p)) ->
  ols.__init__ L x y x_varnm y_varnm w0 = (Ok tt, w) ->
  exists e,
    self w !! "e" = Some (PyArr e) /\
    (forall n rest, shape e = n :: rest -> n < 8 ->
       ols.omni L w = (Ok (PyTuple [PyFloat nan; PyFloat nan]), w)) /\
    (forall n rest, shape e = n :: rest -> 8 <= n ->
       exists s p,
         stats_normaltest L e = Ok (s, p) /\
         ols.omni L w = (Ok (PyTuple [PyArr s; PyArr p]), w)).
Proof.
  intros Hsmall Hlarge H.
  destruct (init_ok L _ _ _ _ _ _ H)
    as (xa & X & ya & e & nobs & ncoef & names & _ & _ & _ & _ & _ & _ & He & _).
  exists e. split; [exact He|]. split.
  - intros n rest Hs Hn. destruct (Hsmall e n rest Hs Hn) as [args Hr].
    unfold ols.omni, try_except.
    erewrite bind_getattr by exact He. cbn [as_array]. mrun. now rewrite Hr.
  - intros n rest Hs Hn. destruct (Hlarge e n rest Hs Hn) as (s & p & Hr).
    exists s, p. split; [exact Hr|].
    unfold ols.omni, try_except.
    erewrite bind_getattr by exact He. cbn [as_array]. mrun. now rewrite Hr.
Qed.

Lemma plain_normaltest_small tp a n rest :
  shape a = n :: rest -> n < 8 ->
  exists args, stats_normaltest (plain.lib tp) a = Raise (ValueError args).
Proof.
  intros Hs Hn. cbn. unfold plain.normaltest. rewrite Hs.
  destruct (n <? 8) eqn:E; [eauto | apply Z.ltb_ge in E; lia].
Qed.

Lemma plain_normaltest_large tp a n rest :
  shape a = n :: rest -> 8 <= n ->
  exists s p, stats_normaltest (plain.lib tp) a = Ok (s, p).
Proof.
  intros Hs Hn. cbn. unfold plain.normaltest. rewrite Hs.
  destruct (n <? 8) eqn:E; [apply Z.ltb_lt in E; lia | eauto].
Qed.

Example omnibus_on_five_and_ten_points :
  let L := plain.lib (0%float, 1%float) in
  let w5 := snd (ols.__init__ L five_x five_y PyNone (PyStr "y") plain.world0) in
  let w10 := snd (ols.__init__ L sample_x sample_y PyNone (PyStr "y") plain.world0) in
  ols.omni L w5 = (Ok (PyTuple [PyFloat nan; PyFloat nan]), w5) /\
  exists s p, ols.omni L w10 = (Ok (PyTuple [PyArr s; PyArr p]), w10).
Proof.
  intros L w5 w10. split.
  - destruct (omnibus_needs_eight L five_x five_y PyNone (PyStr "y") plain.world0 w5
                (plain_normaltest_small _) (plain_normaltest_large _))
      as (e & He & Hsmall & _); [vm_compute; reflexivity|].
    assert (exists b, e = NdArray [5] b) as [b ->].
    { revert He. vm_compute. intros [= <-]. eauto. }
    apply (Hsmall 5 []); [reflexivity | lia].
  - destruct (omnibus_needs_eight L sample_x sample_y PyNone (PyStr "y") plain.world0 w10
                (plain_normaltest_small _) (plain_normaltest_large _))
      as (e & He & _ & Hlarge); [vm_compute; reflexivity|].
    assert (exists b, e = NdArray [10] b) as [b ->].
    { revert He. vm_compute. intros [= <-]. eauto. }
    destruct (Hlarge 10 []) as (s & p & _ & Ho); [reflexivity | lia |].
    now exists s, p.
Defined.

Lemma answers_bind {A B} (P : B -> Prop) (m : M A) (k : A -> M B) :
  (forall a, answers P (k a)) -> answers P (bind m k).
Proof.
  intros Hk w b w' H. apply bind_ok_inv in H as (a & w1 & _ & H).
  exact (Hk a w1 b w' H).
Qed.
Lemma answers_ret {A} (P : A -> Prop) a : P a -> answers P (ret a).
Proof. intros Ha w b w' [= <- _]. exact Ha. Qed.
Lemma answers_try_except {A} (P : A -> Prop) (body handler : M A) catches :
  answers P body -> answers P handler -> answers P (try_except body catches handler).
Proof.
  intros Hb Hh w a w' H. unfold try_except in H.
  destruct (body w) as [[b|e] w1] eqn:E.
  - injection H as <- <-. exact (Hb _ _ _ E).
  - destruct (catches e); [exact (Hh _ _ _ H) | discriminate].
Qed.

Section export.
Variable L : pylib.

Lemma ll_answers : answers (tuple_of 3) (ols.ll L).
Proof.
  unfold ols.ll. repeat (apply answers_bind; intros ?).
  apply answers_ret. eexists. split; reflexivity.
Qed.
Lemma JB_answers : answers (tuple_of 4) (ols.JB L).
Proof.
  unfold ols.JB. repeat (apply answers_bind; intros ?).
  apply answers_ret. eexists. split; reflexivity.
Qed.
Lemma omni_answers : answers (tuple_of 2) (ols.omni L).
Proof.
  unfold ols.omni. apply answers_try_except.
  - repeat (apply answers_bind; intros ?).
    apply answers_ret. eexists. split; reflexivity.
  - apply answers_ret. eexists. split; reflexivity.
Qed.

Lemma unpack_tuple n v : tuple_of n v -> exists l, unpack n v = Ok l.
Proof.
  intros (l & -> & Hl). exists l. unfold unpack.
  now rewrite <- Hl, Nat.eqb_refl.
Qed.

(** [to_file] up to its read of [ncoefs]: the three diagnostics, then two
    attributes a constructed object has. *)
Lemma to_file_outcome filename w y nobs :
  self w !! "y" = Some y -> self w !! "nobs" = Some nobs ->
  self w !! "ncoefs" = None ->
  exists e,
    ols.to_file L filename w = (Raise e, w) /\
    (forall r1 r2 r3,
       ols.ll L w = (Ok r1, w) -> ols.JB L w = (Ok r2, w) ->
       ols.omni L w = (Ok r3, w) -> e = AttributeError "ncoefs").
Proof.
  intros Hy Hn Hnone. unfold ols.to_file. mrun.
  destruct (ols.ll L w) as [[r1|e1] w1] eqn:E1;
    pose proof (ll_read_only L w) as R1; rewrite E1 in R1; simpl in R1; subst w1.
  2:{ exists e1. rewrite (bind_raise _ _ _ _ _ E1). split; [reflexivity|congruence]. }
  rewrite (bind_ok _ _ _ _ _ E1).
  destruct (unpack_tuple 3 r1 (ll_answers _ _ _ E1)) as [l1 U1]. rewrite U1. mrun.
  destruct (ols.JB L w) as [[r2|e2] w2] eqn:E2;
    pose proof (JB_read_only L w) as R2; rewrite E2 in R2; simpl in R2; subst w2.
  2:{ exists e2. rewrite (bind_raise _ _ _ _ _ E2). split; [reflexivity|congruence]. }
  rewrite (bind_ok _ _ _ _ _ E2).
  destruct (unpack_tuple 4 r2 (JB_answers _ _ _ E2)) as [l2 U2]. rewrite U2. mrun.
  destruct (ols.omni L w) as [[r3|e3] w3] eqn:E3;
    pose proof (omni_read_only L w) as R3; rewrite E3 in R3; simpl in R3; subst w3.
  2:{ exists e3. rewrite (bind_raise _ _ _ _ _ E3). split; [reflexivity|congruence]. }
  rewrite (bind_ok _ _ _ _ _ E3).
  destruct (unpack_tuple 2 r3 (omni_answers _ _ _ E3)) as [l3 U3]. rewrite U3. mrun.
  rewrite (bind_getattr_none _ _ _ Hnone).
  exists (AttributeError "ncoefs"). split; [reflexivity|auto].
Qed.
End export.

(** C9. On a regression constructed from a fresh instance, estimation has
    stored [ncoef] and no [ncoefs]; [to_file] therefore never completes:
    it raises, leaving the object and the file system as they were, and
    the exception is the [AttributeError] for [ncoefs] as soon as the
    three diagnostics it calls first have answered. *)
Theorem to_file_never_completes
    (L : pylib) (x y x_varnm y_varnm : pyval) (w0 w : world)
    (filename : option string) :
  self w0 !! "ncoefs" = None ->
  ols.__init__ L x y x_varnm y_varnm w0 = (Ok tt, w) ->
  (exists k, self w !! "ncoef" = Some (PyInt k)) /\
  self w !! "ncoefs" = None /\
  exists e,
    ols.to_file L filename w = (Raise e, w) /\
    (forall r1 r2 r3,
       ols.ll L w = (Ok r1, w) -> ols.JB L w = (Ok r2, w) ->
       ols.omni L w = (Ok r3, w) -> e = AttributeError "ncoefs").
Proof.
  intros Hfresh H.
  destruct (init_ok L _ _ _ _ _ _ H)
    as (xa & X & ya & e & nobs & ncoef & names & _ & _ & _ & _ & Hy & _ & _ & Hn &
        Hk & Hframe & _).
  assert (Hnone : self w !! "ncoefs" = None).
  { rewrite Hframe; [exact Hfresh|]. unfold constructed, estimated. not_in. }
  split; [eauto|]. split; [exact Hnone|].
  exact (to_file_outcome L filename w _ _ Hy Hn Hnone).
Qed.

Example to_file_raises_on_ten_points :
  let L := plain.lib (0%float, 1%float) in
  let w := snd (ols.__init__ L sample_x sample_y PyNone (PyStr "y") plain.world0) in
  (exists k, self w !! "ncoef" = Some (PyInt k)) /\
  self w !! "ncoefs" = None /\
  ols.to_file L (Some "ols.json") w = (Raise (AttributeError "ncoefs"), w).
Proof.
  intros L w.
  destruct (to_file_never_completes L sample_x sample_y PyNone (PyStr "y")
              plain.world0 w (Some "ols.json")) as (Hk & Hnone & e & He & Hwhy).
  - reflexivity.
  - vm_compute. reflexivity.
  - split; [exact Hk|]. split; [exact Hnone|].
    rewrite He. f_equal. f_equal.
    eapply Hwhy; vm_compute; reflexivity.
Defined.

(** ** More on the construction of the t-tests *)

Section more_checks.
Variable L : pylib.
Variables (w : world) (test_type alt_hyp alpha : pyval).
Hypothesis Htype : self w !! "test_type" = Some test_type.
Hypothesis Halt : self w !! "alt_hyp" = Some alt_hyp.
Hypothesis Halpha : self w !! "alpha" = Some alpha.

Lemma cmp_in_range c u :
  alpha_passes alpha -> py_truthy alpha = Ok true ->
  (c = Lt_ /\ u = 0 \/ c = Gt_ /\ u = 1) ->
  py_cmp c alpha (PyInt u) = Ok false.
Proof.
  intros [Hf|(_ & _ & Hlo & Hhi)] Ht [[-> ->]|[-> ->]]; congruence.
Qed.

Lemma check_params_1_passes :
  alt_hyp_valid alt_hyp = true -> alpha_passes alpha ->
  ttest_1samp.check_params L w = (Ok tt, w).
Proof using Halt Halpha.
  unfold alt_hyp_valid. intros Hv Hp. unfold ttest_1samp.check_params.
  mrun. rewrite Hv. cbn [negb]. mrun.
  destruct Hp as [Hf|(Ht & Hty & Hlo & Hhi)].
  - rewrite Hf. reflexivity.
  - rewrite Ht. mrun. rewrite Hty. cbn [negb]. mrun. rewrite Hlo. mrun.
    rewrite Hhi. reflexivity.
Qed.

Lemma check_params_2_passes :
  in_strs test_type ["ind"; "rel"] = true ->
  alt_hyp_valid alt_hyp = true -> alpha_passes alpha ->
  ttest_2samp.check_params L w = (Ok tt, w).
Proof using Htype Halt Halpha.
  unfold alt_hyp_valid. intros Hty' Hv Hp. unfold ttest_2samp.check_params.
  mrun. rewrite Hty'. cbn [negb]. mrun. rewrite Hv. cbn [negb]. mrun.
  destruct Hp as [Hf|(Ht & Hty & Hlo & Hhi)].
  - rewrite Hf. reflexivity.
  - rewrite Ht. mrun. rewrite Hty. cbn [negb]. mrun. rewrite Hlo. mrun.
    rewrite Hhi. reflexivity.
Qed.

Lemma check_params_2_type w' :
  ttest_2samp.check_params L w = (Ok tt, w') ->
  in_strs test_type ["ind"; "rel"] = true.
Proof using Htype Halt Halpha.
  unfold ttest_2samp.check_params. intros H. mrun_in H.
  destruct (in_strs test_type _); [reflexivity|].
  cbn [negb] in H. mexec_in H; discriminate H.
Qed.

Lemma check_params_2_bad_type s :
  test_type = PyStr s -> in_strs test_type ["ind"; "rel"] = false ->
  exists args, ttest_2samp.check_params L w = (Raise (ValueError args), w).
Proof using Htype Halt Halpha.
  intros -> Hbad. unfold ttest_2samp.check_params. mrun. rewrite Hbad.
  cbn [negb]. mrun. cbn [str_concat]. mrun. eauto.
Qed.

Lemma check_params_1_bad_alt :
  plain_non_string alt_hyp = true ->
  exists what, ttest_1samp.check_params L w = (Raise (TypeError what), w).
Proof using Halt Halpha.
  intros Hns. unfold ttest_1samp.check_params. mrun.
  destruct alt_hyp; try discriminate Hns; cbn [in_strs negb]; mrun;
    cbn [str_concat]; mrun; eauto.
Qed.

Lemma check_params_2_bad_alt :
  in_strs test_type ["ind"; "rel"] = true ->
  plain_non_string alt_hyp = true ->
  exists what, ttest_2samp.check_params L w = (Raise (TypeError what), w).
Proof using Htype Halt Halpha.
  intros Hty Hns. unfold ttest_2samp.check_params. mrun. rewrite Hty.
  cbn [negb]. mrun.
  destruct alt_hyp; try discriminate Hns; cbn [in_strs negb]; mrun;
    cbn [str_concat]; mrun; eauto.
Qed.
End more_checks.

Section more_construction.
Variable L : pylib.

Lemma construct_then c w0 :
  construct L c w0
  = match c with
    | OneSample _ _ _ _ =>
        bind (ttest_1samp.check_params L) (fun _ => ttest_1samp.test L) (stored_only c w0)
    | TwoSample _ _ _ _ _ _ =>
        bind (ttest_2samp.check_params L) (fun _ => ttest_2samp.test L) (stored_only c w0)
    end.
Proof. destruct c; reflexivity. Qed.

Lemma construct_type_valid c w0 w :
  construct L c w0 = (Ok tt, w) -> test_type_valid c = true.
Proof.
  rewrite construct_then. destruct c as [a pm alt alpha|a b ty ev alt alpha];
    [reflexivity|]. intros H.
  apply bind_ok_inv in H as ([] & w1 & Hc & _).
  eapply check_params_2_type with (alt_hyp := alt) (alpha := alpha) in Hc;
    [exact Hc| | |]; simpl; lookup.
Qed.

Lemma construct_runs c w0 t p :
  test_type_valid c = true -> alt_hyp_valid (alt_hyp_of c) = true ->
  alpha_passes (alpha_of c) -> raw_test L c = Ok (t, p) ->
  exists w, construct L c w0 = (Ok tt, w).
Proof.
  rewrite construct_then.
  destruct c as [a pm alt alpha|a b ty ev alt alpha]; simpl; intros Hty Hv Hp Hr.
  - erewrite bind_ok
      by (apply check_params_1_passes with (alt_hyp := alt) (alpha := alpha);
          auto; simpl; lookup).
    unfold ttest_1samp.test. mrun. rewrite Hr. mrun.
    destruct (eq_str alt "unequal"); cbn [negb]; mrun; cbn [snd];
      rewrite ?halve; mrun; eexists; reflexivity.
  - erewrite bind_ok
      by (apply check_params_2_passes
            with (test_type := ty) (alt_hyp := alt) (alpha := alpha);
          auto; simpl; lookup).
    unfold ttest_2samp.test. mrun.
    destruct (eq_str ty "ind"); mrun; rewrite Hr; mrun;
      destruct (eq_str alt "unequal"); cbn [negb]; mrun; cbn [snd];
      rewrite ?halve; mrun; eexists; reflexivity.
Qed.

Lemma construct_wrong_alt c w0 :
  test_type_valid c = true -> plain_non_string (alt_hyp_of c) = true ->
  exists what, construct L c w0 = (Raise (TypeError what), stored_only c w0).
Proof.
  rewrite construct_then.
  destruct c as [a pm alt alpha|a b ty ev alt alpha]; simpl; intros Hty Hns.
  - destruct (check_params_1_bad_alt L
                (stored_only (OneSample a pm alt alpha) w0) alt alpha)
      as [what E]; auto; try (simpl; lookup).
    exists what. now rewrite (bind_raise _ _ _ _ _ E).
  - destruct (check_params_2_bad_alt L
                (stored_only (TwoSample a b ty ev alt alpha) w0) ty alt alpha)
      as [what E]; auto; try (simpl; lookup).
    exists what. now rewrite (bind_raise _ _ _ _ _ E).
Qed.
End more_construction.

(** X1. A t-test is constructed exactly when the test type (for two
    samples) and the alternative are among the allowed strings, [alpha]
    passes its check, and scipy answers: nothing else can make a
    construction fail. *)
Theorem construction_succeeds_exactly (L : pylib) (c : ttest_args) (w0 : world) :
  (exists w, construct L c w0 = (Ok tt, w)) <->
  test_type_valid c = true /\ alt_hyp_valid (alt_hyp_of c) = true /\
  alpha_passes (alpha_of c) /\ exists tp, raw_test L c = Ok tp.
Proof.
  split.
  - intros [w H]. split; [exact (construct_type_valid L c w0 w H)|].
    destruct (construct_ok L c w0 w H) as (t & p & Hr & Hv & Hp & _). eauto.
  - intros (Hty & Hv & Hp & [[t p] Hr]). exact (construct_runs L c w0 t p Hty Hv Hp Hr).
Qed.

(** X2. A two-sample construction whose test type is a string other than
    'ind' and 'rel' raises [ValueError], whatever the other arguments are,
    having only stored its arguments. *)
Theorem invalid_test_type_raises
    (L : pylib) (a b equal_var alt_hyp alpha : pyval) (s : string) (w0 : world) :
  in_strs (PyStr s) ["ind"; "rel"] = false ->
  let c := TwoSample a b (PyStr s) equal_var alt_hyp alpha in
  exists args, construct L c w0 = (Raise (ValueError args), stored_only c w0).
Proof.
  intros Hbad c. unfold c. rewrite construct_then.
  destruct (check_params_2_bad_type L (stored_only c w0) (PyStr s) alt_hyp alpha)
    with (s := s) as [args E]; auto; try (simpl; lookup).
  exists args. now rewrite (bind_raise _ _ _ _ _ E).
Qed.

Example invalid_test_type_of_the_tests :
  let L := plain.lib (0%float, 1%float) in
  let c := TwoSample (plain.arange 1 10) (plain.arange 1 10) (PyStr "bad_test_type")
             (PyBool true) (PyStr "unequal") PyNone in
  exists args, construct L c plain.world0 = (Raise (ValueError args), stored_only c plain.world0).
Proof.
  intros L c.
  apply (invalid_test_type_raises L (plain.arange 1 10) (plain.arange 1 10)
           (PyBool true) (PyStr "unequal") PyNone "bad_test_type" plain.world0).
  reflexivity.
Defined.

(** X3. An alternative hypothesis that is not a string (None, a number,
    a list, ...) does not get the [ValueError] of the other bad
    parameters: building the message fails first, with [TypeError]. *)
Theorem non_string_alternative_raises_type_error
    (L : pylib) (c : ttest_args) (w0 : world) :
  test_type_valid c = true -> plain_non_string (alt_hyp_of c) = true ->
  exists what, construct L c w0 = (Raise (TypeError what), stored_only c w0).
Proof. apply construct_wrong_alt. Qed.

Example alternative_none_raises_type_error :
  let L := plain.lib (0%float, 1%float) in
  let c := OneSample (plain.arange 1 10) (PyInt 5) PyNone PyNone in
  exists what, construct L c plain.world0 = (Raise (TypeError what), stored_only c plain.world0).
Proof.
  intros L c.
  apply (non_string_alternative_raises_type_error L c plain.world0); reflexivity.
Defined.

(** X4. A paired test ('rel') never looks at [equal_var]: with any two
    values of the flag the construction succeeds or not alike, and stores
    the same t-statistic and p-value. *)
Theorem paired_test_ignores_equal_var
    (L : pylib) (a b ev ev' alt_hyp alpha : pyval) (w0 : world) :
  let c := TwoSample a b (PyStr "rel") ev alt_hyp alpha in
  let c' := TwoSample a b (PyStr "rel") ev' alt_hyp alpha in
  ((exists w, construct L c w0 = (Ok tt, w)) <->
   (exists w', construct L c' w0 = (Ok tt, w'))) /\
  (forall w w', construct L c w0 = (Ok tt, w) -> construct L c' w0 = (Ok tt, w') ->
     self w !! "t_stat" = self w' !! "t_stat" /\
     self w !! "p_val" = self w' !! "p_val").
Proof.
  intros c c'. split.
  - split; intros [w H];
      pose proof (construct_type_valid L _ w0 w H) as Hty;
      destruct (construct_ok L _ w0 w H) as (t & p & Hr & Hv & Hp & _);
      [exact (construct_runs L c' w0 t p Hty Hv Hp Hr)
      |exact (construct_runs L c w0 t p Hty Hv Hp Hr)].
  - intros w w' H H'.
    destruct (construct_ok L _ w0 w H)
      as (t & p & Hr & _ & _ & (_ & _ & Ht & Hpv & _) & _).
    destruct (construct_ok L _ w0 w' H')
      as (t' & p' & Hr' & _ & _ & (_ & _ & Ht' & Hpv' & _) & _).
    assert (E : raw_test L c = raw_test L c') by reflexivity.
    fold c in Hr. fold c' in Hr'. rewrite E, Hr' in Hr. injection Hr as -> ->.
    subst c c'. cbn [alt_hyp_of] in *. split; congruence.
Qed.

(** ** What the reports of a t-test contain *)

Lemma keep_null_self_only w1 w2 :
  self w1 = self w2 -> fst (decision.keep_null w1) = fst (decision.keep_null w2).
Proof.
  intros Hs. unfold decision.keep_null, bind, getattr, lift, ret. rewrite Hs.
  repeat (match goal with
          | |- context [match ?x with _ => _ end] =>
              lazymatch x with
              | context [match _ with _ => _ end] => fail
              | _ => destruct x
              end
          end; cbn [fst snd]; rewrite ?Hs); reflexivity.
Qed.

(** Steps over a read-only program at the head of [H] and keeps what it
    answered as [E]. *)
Ltac mkeep_in H lem E :=
  let r := fresh "r" in
  let W := fresh "W" in
  let H' := fresh H in
  apply bind_ok_inv in H as (r & W & E & H');
  let R := fresh "R" in
  pose proof (read_only_inv _ _ _ _ lem E) as R; subst W.

Section reports_in_full.
Variable L : pylib.
Variables (c : ttest_args) (w : world) (t p : float).
Hypothesis Hobj : tested c t p w.

Lemma to_file_document filename w' :
  to_file_of L c filename w = (Ok tt, w') ->
  exists keep n data,
    decision.keep_null w = (Ok keep, w) /\
    py_len (sample_of c) = Ok n /\
    self w' = self w /\ stdout w' = stdout w /\ clock w' = clock w /\
    files w' = <[filename_or L filename (clock w) := Some (PyDict data)]> (files w) /\
    data !! "sig_test" = Some (PyStr ("T-Test (" ++ sided_of (alt_hyp_of c) ++ ")")) /\
    data !! "data_size" = Some (PyInt n) /\
    data !! "null_hyp" = Some (null_hyp_of c) /\
    data !! "alt_hyp" = Some (PyStr (alternative_of L c)) /\
    data !! "t_stat" = Some (PyFloat t) /\
    data !! "p_val" = Some (PyFloat p) /\
    data !! "reject_null" = Some (PyBool (negb keep)) /\
    data !! "accept_alt" = Some (PyBool (negb keep && direction (alt_hyp_of c) t)).
Proof using Hobj.
  intros H.
  pose proof (direction_ok_at c w t p Hobj) as Hd.
  destruct c as [a popmean alt alpha|a b ty ev alt alpha];
    destruct Hobj as (Ha & Hal & Ht & Hp & Hrest);
    cbn [alt_hyp_of alpha_of sample_of null_hyp_of alternative_of] in *.
  - destruct Hrest as (Hsa & Hpm). cbn [to_file_of] in H.
    unfold ttest_1samp.to_file, ttest_1samp.alternative_sided in H.
    mexec_in H; try discriminate H.
    all: mkeep_in H keep_null_read_only Ek.
    all: destruct r; mexec_in H0.
    all: try (erewrite (bind_ok decision.direction_ok) in H0
                by (apply Hd; reflexivity);
              destruct (direction alt t) eqn:Edir; mexec_in H0).
    all: unfold dump_to in H0;
      match type of H0 with
      | (if ?e then _ else _) = _ => destruct e; [|discriminate H0]
      end;
      injection H0 as <-.
    all: eexists _, _, _; split; [exact Ek|]; split; [first [reflexivity|eassumption]|].
    all: cbn [self stdout files clock set_files].
    all: do 3 (split; [reflexivity|]).
    all: split; [apply insert_insert_eq|].
    all: unfold sided_of, relation_of;
      repeat match goal with Hb : eq_str _ _ = _ |- _ => rewrite Hb end.
    all: cbn [andb negb fst snd]; repeat split; lookup.
  - destruct Hrest as (Hsa & Hsb & Hty & Hev). cbn [to_file_of] in H.
    unfold ttest_2samp.to_file, ttest_2samp.alternative_sided,
      ttest_2samp.to_file_assumptions in H.
    mexec_in H; try discriminate H.
    all: mkeep_in H keep_null_read_only Ek.
    all: destruct r; mexec_in H0.
    all: try (erewrite (bind_ok decision.direction_ok) in H0
                by (apply Hd; reflexivity);
              destruct (direction alt t) eqn:Edir; mexec_in H0).
    all: unfold dump_to in H0;
      match type of H0 with
      | (if ?e then _ else _) = _ => destruct e; [|discriminate H0]
      end;
      injection H0 as <-.
    all: eexists _, _, _; split; [exact Ek|]; split; [first [reflexivity|eassumption]|].
    all: cbn [self stdout files clock set_files].
    all: do 3 (split; [reflexivity|]).
    all: split; [apply insert_insert_eq|].
    all: unfold sided_of, relation_of;
      repeat match goal with Hb : eq_str _ _ = _ |- _ => rewrite Hb end.
    all: cbn [andb negb fst snd]; repeat split; lookup.
Qed.

Lemma summary_document w' :
  summary_of L c w = (Ok tt, w') ->
  exists keep n header,
    fst (decision.keep_null w) = Ok keep /\
    py_len (sample_of c) = Ok n /\
    self w' = self w /\ files w' = files w /\ clock w' = clock w /\
    stdout w' =
      (stdout w ++ header ++
       verdict (negb keep) (negb keep && direction (alt_hyp_of c) t))%list /\
    List.length header = header_lines c /\
    header !! 0%nat = Some (nl ++ bar) /\
    header !! 1%nat
      = Some ("Significance Test: T-Test (" ++ sided_of (alt_hyp_of c) ++ ")") /\
    header !! 6%nat = Some (nl ++ "Data Size: " ++ str_int n) /\
    header !! (header_lines c - 4)%nat
      = Some ("Alternative Hypothesis: " ++ alternative_of L c).
Proof using Hobj.
  intros H.
  pose proof (direction_ok_at c w t p Hobj) as Hd.
  destruct c as [a popmean alt alpha|a b ty ev alt alpha];
    destruct Hobj as (Ha & Hal & Ht & Hp & Hrest);
    cbn [alt_hyp_of alpha_of sample_of alternative_of header_lines] in *.
  - destruct Hrest as (Hsa & Hpm). cbn [summary_of] in H.
    unfold ttest_1samp.summary, ttest_1samp.alternative_sided in H.
    mexec_in H; try discriminate H.
    all: mkeep_in H keep_null_read_only Ek.
    all: destruct r; mexec_in H0.
    all: try (erewrite (bind_ok decision.direction_ok) in H0
                by (apply Hd; reflexivity);
              destruct (direction alt t) eqn:Edir; mexec_in H0).
    all: unfold ret in H0; injection H0 as <-.
    all: eexists _, _, [_;_;_;_;_;_;_;_;_;_;_;_;_].
    all: split; [match type of Ek with
                 | decision.keep_null ?W = _ =>
                     rewrite (keep_null_self_only w W eq_refl), Ek; reflexivity
                 end|].
    all: split; [first [reflexivity|eassumption]|].
    all: cbn [self stdout files clock set_stdout].
    all: do 3 (split; [reflexivity|]).
    all: split; [rewrite <- !app_assoc; reflexivity|].
    all: unfold sided_of, relation_of;
      repeat match goal with Hb : eq_str _ _ = _ |- _ => rewrite Hb end.
    all: repeat split.
  - destruct Hrest as (Hsa & Hsb & Hty & Hev). cbn [summary_of] in H.
    unfold ttest_2samp.summary, ttest_2samp.alternative_sided,
      ttest_2samp.summary_assumptions in H.
    mexec_in H; try discriminate H.
    all: mkeep_in H keep_null_read_only Ek.
    all: destruct r; mexec_in H0.
    all: try (erewrite (bind_ok decision.direction_ok) in H0
                by (apply Hd; reflexivity);
              destruct (direction alt t) eqn:Edir; mexec_in H0).
    all: unfold ret in H0; injection H0 as <-.
    all: eexists _, _, [_;_;_;_;_;_;_;_;_;_;_;_].
    all: split; [match type of Ek with
                 | decision.keep_null ?W = _ =>
                     rewrite (keep_null_self_only w W eq_refl), Ek; reflexivity
                 end|].
    all: split; [first [reflexivity|eassumption]|].
    all: cbn [self stdout files clock set_stdout].
    all: do 3 (split; [reflexivity|]).
    all: split; [rewrite <- !app_assoc; reflexivity|].
    all: unfold sided_of, relation_of;
      repeat match goal with Hb : eq_str _ _ = _ |- _ => rewrite Hb end.
    all: repeat split.
Qed.
End reports_in_full.

(** ** Decisions off the numbers *)

Lemma nan_spec x : is_nan x = true -> Prim2SF x = S754_nan.
Proof.
  unfold is_nan. rewrite FloatAxioms.eqb_spec. unfold SFeqb. intros H.
  destruct (Prim2SF x) eqn:E; try reflexivity;
    rewrite SFcompare_refl in H by discriminate; discriminate.
Qed.

Lemma nan_not_above x y : is_nan y = true -> PrimFloat.leb x y = false.
Proof.
  intros H%nan_spec. rewrite FloatAxioms.leb_spec, H. unfold SFleb.
  now destruct (Prim2SF x).
Qed.

Lemma nan_not_below x y : is_nan x = true -> PrimFloat.leb x y = false.
Proof.
  intros H%nan_spec. now rewrite FloatAxioms.leb_spec, H.
Qed.

Lemma nan_not_zero x : is_nan x = true -> PrimFloat.eqb x 0 = false.
Proof.
  intros H%nan_spec. now rewrite FloatAxioms.eqb_spec, H.
Qed.

Lemma cmp_ge_nan p alpha :
  is_nan p = true -> type_in_int_float alpha = true ->
  py_cmp Ge_ (PyFloat p) alpha = Ok false.
Proof.
  intros Hn. unfold type_in_int_float.
  destruct alpha as [| |z|f| | | | |a]; cbn [py_type]; try discriminate;
    try (destruct (shape a); discriminate); intros _.
  - change (py_cmp Ge_ (PyFloat p) (PyInt z))
      with (Ok (PrimFloat.leb (float_of_Z z) p)).
    now rewrite (nan_not_above _ p Hn).
  - change (py_cmp Ge_ (PyFloat p) (PyFloat f)) with (Ok (PrimFloat.leb f p)).
    now rewrite (nan_not_above _ p Hn).
Qed.

Lemma cmp_eq_zero p :
  py_cmp Eq_ (PyFloat p) (PyInt 0) = Ok (PrimFloat.eqb p 0).
Proof. reflexivity. Qed.

Lemma cmp_ge_nan_alpha p :
  py_cmp Ge_ (PyFloat p) (PyFloat nan) = Ok false.
Proof.
  change (py_cmp Ge_ (PyFloat p) (PyFloat nan)) with (Ok (PrimFloat.leb nan p)).
  now rewrite (nan_not_below nan p eq_refl).
Qed.

Section decision_off_the_numbers.
Variables (w : world) (alpha : pyval) (p : float).
Hypothesis Halpha : self w !! "alpha" = Some alpha.
Hypothesis Hp : self w !! "p_val" = Some (PyFloat p).

(** With a p-value that is NaN, a supplied [alpha] never keeps the null
    hypothesis. *)
Lemma keep_null_nan_p :
  is_nan p = true -> py_truthy alpha = Ok true -> type_in_int_float alpha = true ->
  decision.keep_null w = (Ok false, w).
Proof using Halpha Hp.
  intros Hn Ht Hty. unfold decision.keep_null. mrun. rewrite Ht. mrun.
  rewrite (cmp_ge_nan p alpha Hn Hty). mrun.
  rewrite cmp_eq_zero, (nan_not_zero p Hn). mrun. rewrite Ht. mrun. reflexivity.
Qed.

(** With an [alpha] that is NaN, the null hypothesis is kept only at a
    p-value of zero. *)
Lemma keep_null_nan_alpha :
  alpha = PyFloat nan ->
  decision.keep_null w = (Ok (PrimFloat.eqb p 0), w).
Proof using Halpha Hp.
  intros E. unfold decision.keep_null. mrun.
  assert (Ht : py_truthy alpha = Ok true) by now rewrite E.
  rewrite Ht. mrun. rewrite E at 1. rewrite cmp_ge_nan_alpha. mrun.
  rewrite cmp_eq_zero. mrun.
  destruct (PrimFloat.eqb p 0); mrun; [reflexivity|].
  rewrite Ht. mrun. reflexivity.
Qed.
End decision_off_the_numbers.

Lemma nan_alpha_passes : alpha_passes (PyFloat nan).
Proof. right. repeat split. Qed.

Lemma passes_type alpha :
  alpha_passes alpha -> py_truthy alpha = Ok true -> type_in_int_float alpha = true.
Proof. intros [Hf|(_ & Hty & _)] Ht; congruence. Qed.

Lemma printed_app w w' (l : list string) :
  stdout w' = (stdout w ++ l)%list -> printed w w' = l.
Proof. unfold printed. intros ->. apply skipn_length_app. Qed.

(** X5. The summary of a constructed t-test only prints: the object and
    the files are as before.  What it prints is a header of 13 [print]
    calls (one sample) or 12 (two samples) followed by the three calls
    of the verdict, which say whether the null hypothesis is rejected
    and the alternative accepted as the stored statistics decide.  The
    header names the test two-sided exactly for 'unequal', gives the
    size of the first sample, and states the alternative with the
    relation the argument asks for. *)
Theorem summary_only_prints (L : pylib) (c : ttest_args) (w0 w w' : world) :
  construct L c w0 = (Ok tt, w) ->
  summary_of L c w = (Ok tt, w') ->
  self w' = self w /\ files w' = files w /\
  exists keep t n header,
    fst (decision.keep_null w) = Ok keep /\
    self w !! "t_stat" = Some (PyFloat t) /\
    py_len (sample_of c) = Ok n /\
    printed w w'
      = (header ++ verdict (negb keep) (negb keep && direction (alt_hyp_of c) t))%list /\
    List.length header = header_lines c /\
    header !! 1%nat
      = Some ("Significance Test: T-Test (" ++ sided_of (alt_hyp_of c) ++ ")") /\
    header !! 6%nat = Some (nl ++ "Data Size: " ++ str_int n) /\
    header !! (header_lines c - 4)%nat
      = Some ("Alternative Hypothesis: " ++ alternative_of L c).
Proof.
  intros H Hs.
  destruct (construct_ok L c w0 w H) as (t & p & _ & _ & _ & Hobj & _).
  destruct (summary_document L c w t _ Hobj w' Hs)
    as (keep & n & header & Hkeep & Hn & Hself & Hfiles & _ & Hout & Hlen & _ & H1 & H6
        & Halt).
  split; [exact Hself|]. split; [exact Hfiles|].
  exists keep, t, n, header.
  split; [exact Hkeep|].
  split; [exact (proj1 (proj2 (proj2 Hobj)))|].
  split; [exact Hn|].
  split; [exact (printed_app w w' _ Hout)|].
  repeat split; assumption.
Qed.

Example summary_of_a_one_sided_test :
  let L := plain.lib (0x1.186f174f88472p-1, 0x1.3299787024f48p-1)%float in
  let c := OneSample (plain.arange 1 10) (PyFloat 4.5) (PyStr "less") (PyFloat 0.5) in
  let w := snd (construct L c plain.world0) in
  let w' := snd (summary_of L c w) in
  self w' = self w /\ files w' = files w /\
  exists keep t n header,
    fst (decision.keep_null w) = Ok keep /\
    self w !! "t_stat" = Some (PyFloat t) /\
    py_len (sample_of c) = Ok n /\
    printed w w'
      = (header ++ verdict (negb keep) (negb keep && direction (alt_hyp_of c) t))%list /\
    List.length header = 13%nat /\
    header !! 1%nat = Some "Significance Test: T-Test (one-sided)" /\
    header !! 6%nat = Some (nl ++ "Data Size: " ++ str_int n) /\
    header !! 9%nat = Some ("Alternative Hypothesis: " ++ alternative_of L c).
Proof.
  intros L c w w'.
  apply (summary_only_prints L c plain.world0 w w'); vm_compute; reflexivity.
Defined.

Lemma written_insert L filename w w' data :
  files w' = <[filename_or L filename (clock w) := Some (PyDict data)]> (files w) ->
  written L filename w w' = Some data.
Proof. unfold written. intros ->. now rewrite lookup_insert_eq. Qed.

(** X6. The document [to_file] writes for a constructed t-test carries
    the statistic and the p-value exactly as the object stores them,
    the size of the first sample, the label two-sided exactly for
    'unequal', the alternative in words, and the null hypothesis: a pair
    of text and population mean for one sample, a single string for
    two. *)
Theorem to_file_exports_what_is_stored
    (L : pylib) (c : ttest_args) (filename : option string) (w0 w w' : world) :
  construct L c w0 = (Ok tt, w) ->
  to_file_of L c filename w = (Ok tt, w') ->
  exists data n,
    written L filename w w' = Some data /\
    py_len (sample_of c) = Ok n /\
    data !! "data_size" = Some (PyInt n) /\
    data !! "t_stat" = self w !! "t_stat" /\
    data !! "p_val" = self w !! "p_val" /\
    data !! "sig_test" = Some (PyStr ("T-Test (" ++ sided_of (alt_hyp_of c) ++ ")")) /\
    data !! "null_hyp" = Some (null_hyp_of c) /\
    data !! "alt_hyp" = Some (PyStr (alternative_of L c)).
Proof.
  intros H Hf.
  destruct (construct_ok L c w0 w H) as (t & p & _ & _ & _ & Hobj & _).
  destruct (to_file_document L c w t _ Hobj filename w' Hf)
    as (keep & n & data & _ & Hn & _ & _ & _ & Hfiles & Hsig & Hsize & Hnull & Halt
        & Ht & Hp & _).
  destruct Hobj as (_ & _ & Est & Esp & _).
  exists data, n. rewrite Est, Esp.
  repeat split; try assumption. now apply written_insert.
Qed.

Example to_file_exports_on_two_samples :
  let L := plain.lib (0x1.186f174f88472p-1, 0x1.3299787024f48p-1)%float in
  let c := TwoSample (plain.arange 1 10) (plain.arange 2 11) (PyStr "rel")
             (PyBool true) (PyStr "greater") (PyFloat 0.5) in
  let w := snd (construct L c plain.world0) in
  let w' := snd (to_file_of L c (Some "out.json") w) in
  exists data n,
    written L (Some "out.json") w w' = Some data /\
    py_len (sample_of c) = Ok n /\
    data !! "data_size" = Some (PyInt n) /\
    data !! "t_stat" = self w !! "t_stat" /\
    data !! "p_val" = self w !! "p_val" /\
    data !! "sig_test" = Some (PyStr ("T-Test (" ++ sided_of (alt_hyp_of c) ++ ")")) /\
    data !! "null_hyp" = Some (null_hyp_of c) /\
    data !! "alt_hyp" = Some (PyStr (alternative_of L c)).
Proof.
  intros L c w w'.
  apply (to_file_exports_what_is_stored L c (Some "out.json") plain.world0 w w');
    vm_compute; reflexivity.
Defined.

(** X7. [to_file] on a constructed t-test leaves the object and the
    output alone and writes one file: the one named by the argument, or,
    when the argument is missing or the empty string, the one named by
    the time stamp; every other file is as before. *)
Theorem to_file_writes_one_file
    (L : pylib) (c : ttest_args) (filename : option string) (w0 w w' : world) :
  construct L c w0 = (Ok tt, w) ->
  to_file_of L c filename w = (Ok tt, w') ->
  let name :=
    match filename with
    | Some (String a s) => String a s
    | _ => strftime L "%a_%d_%b_%Y_%H_%M_%S.json" (clock w)
    end in
  self w' = self w /\ stdout w' = stdout w /\
  (exists data, files w' !! name = Some (Some (PyDict data))) /\
  forall other, other <> name -> files w' !! other = files w !! other.
Proof.
  intros H Hf name.
  destruct (construct_ok L c w0 w H) as (t & p & _ & _ & _ & Hobj & _).
  destruct (to_file_document L c w t _ Hobj filename w' Hf)
    as (keep & n & data & _ & _ & Hself & Hout & _ & Hfiles & _).
  assert (E : filename_or L filename (clock w) = name)
    by (subst name; destruct filename as [[|a s]|]; reflexivity).
  rewrite E in Hfiles. rewrite Hfiles.
  split; [exact Hself|]. split; [exact Hout|]. split.
  - exists data. now rewrite lookup_insert_eq.
  - intros other Ho. now rewrite lookup_insert_ne.
Qed.

Example to_file_writes_the_stamped_file :
  let L := plain.lib (0x1.186f174f88472p-1, 0x1.3299787024f48p-1)%float in
  let c := OneSample (plain.arange 1 10) (PyFloat 4.5) (PyStr "unequal") (PyFloat 0.5) in
  let w := snd (construct L c plain.world0) in
  let w' := snd (to_file_of L c (Some "") w) in
  let name := strftime L "%a_%d_%b_%Y_%H_%M_%S.json" (clock w) in
  self w' = self w /\ stdout w' = stdout w /\
  (exists data, files w' !! name = Some (Some (PyDict data))) /\
  forall other, other <> name -> files w' !! other = files w !! other.
Proof.
  intros L c w w'.
  apply (to_file_writes_one_file L c (Some "") plain.world0 w w');
    vm_compute; reflexivity.
Defined.

(** X8. When the stored p-value is NaN and a nonzero [alpha] was given,
    both reports say the null hypothesis is rejected: no comparison with
    NaN holds, so none of the three ways of keeping it applies. *)
Theorem nan_p_value_rejects
    (L : pylib) (c : ttest_args) (p : float) (w0 w : world) :
  construct L c w0 = (Ok tt, w) ->
  self w !! "p_val" = Some (PyFloat p) ->
  is_nan p = true ->
  py_truthy (alpha_of c) = Ok true ->
  (forall filename w', to_file_of L c filename w = (Ok tt, w') ->
     exists data, written L filename w w' = Some data /\
                  data !! "reject_null" = Some (PyBool true)) /\
  (forall w', summary_of L c w = (Ok tt, w') ->
     exists header accept,
       List.length header = header_lines c /\
       printed w w' = (header ++ verdict true accept)%list).
Proof.
  intros H Hp Hn Ht.
  destruct (construct_ok L c w0 w H) as (t & p' & _ & _ & Hpass & Hobj & _).
  assert (Hk : decision.keep_null w = (Ok false, w)).
  { destruct Hobj as (_ & Ea & _ & _).
    apply (keep_null_nan_p w (alpha_of c) p Ea Hp Hn Ht).
    now apply passes_type. }
  split.
  - intros filename w' Hf.
    destruct (to_file_document L c w t _ Hobj filename w' Hf)
      as (keep & n & data & Hkeep & _ & _ & _ & _ & Hfiles & _ & _ & _ & _ & _ & _ & Hr & _).
    rewrite Hk in Hkeep. injection Hkeep as <-.
    exists data. split; [now apply written_insert|exact Hr].
  - intros w' Hs.
    destruct (summary_document L c w t _ Hobj w' Hs)
      as (keep & n & header & Hkeep & _ & _ & _ & _ & Hout & Hlen & _).
    rewrite Hk in Hkeep. injection Hkeep as <-.
    exists header, (negb false && direction (alt_hyp_of c) t).
    split; [exact Hlen|]. now apply printed_app.
Qed.

Example nan_p_value_rejects_at_a_quarter :
  let L := plain.lib (nan, nan) in
  let c := OneSample (plain.arange 1 10) (PyFloat 4.5) (PyStr "unequal") (PyFloat 0.25) in
  let w := snd (construct L c plain.world0) in
  (forall filename w', to_file_of L c filename w = (Ok tt, w') ->
     exists data, written L filename w w' = Some data /\
                  data !! "reject_null" = Some (PyBool true)) /\
  (forall w', summary_of L c w = (Ok tt, w') ->
     exists header accept,
       List.length header = header_lines c /\
       printed w w' = (header ++ verdict true accept)%list).
Proof.
  intros L c w.
  apply (nan_p_value_rejects L c nan plain.world0 w); vm_compute; reflexivity.
Defined.

(** X9. An [alpha] that is NaN passes the checks of both constructors,
    and the object then rejects the null hypothesis at every stored
    p-value except zero. *)
Theorem nan_alpha_rejects_unless_p_is_zero
    (L : pylib) (c : ttest_args) (t p_raw : float) (w0 : world) :
  alpha_of c = PyFloat nan ->
  test_type_valid c = true ->
  alt_hyp_valid (alt_hyp_of c) = true ->
  raw_test L c = Ok (t, p_raw) ->
  exists w p,
    construct L c w0 = (Ok tt, w) /\
    self w !! "p_val" = Some (PyFloat p) /\
    forall filename w', to_file_of L c filename w = (Ok tt, w') ->
      exists data, written L filename w w' = Some data /\
        data !! "reject_null" = Some (PyBool (negb (PrimFloat.eqb p 0))).
Proof.
  intros Ea Hty Halt Hr.
  assert (Hpass : alpha_passes (alpha_of c)) by (rewrite Ea; apply nan_alpha_passes).
  destruct (construct_runs L c w0 t p_raw Hty Halt Hpass Hr) as [w H].
  destruct (construct_ok L c w0 w H) as (t' & p' & _ & _ & _ & Hobj & _).
  exists w, (stored_p (alt_hyp_of c) p').
  split; [exact H|].
  pose proof Hobj as (_ & Eal & _ & Ep & _).
  split; [exact Ep|].
  intros filename w' Hf.
  destruct (to_file_document L c w t' _ Hobj filename w' Hf)
    as (keep & n & data & Hkeep & _ & _ & _ & _ & Hfiles & _ & _ & _ & _ & _ & _ & Hrej & _).
  rewrite (keep_null_nan_alpha w (alpha_of c) _ Eal Ep Ea) in Hkeep.
  injection Hkeep as <-.
  exists data. split; [now apply written_insert|exact Hrej].
Qed.

Example nan_alpha_on_two_samples :
  let L := plain.lib (0x1.186f174f88472p-1, 1)%float in
  let c := TwoSample (plain.arange 1 10) (plain.arange 2 11) (PyStr "ind")
             (PyBool false) (PyStr "unequal") (PyFloat nan) in
  exists w p,
    construct L c plain.world0 = (Ok tt, w) /\
    self w !! "p_val" = Some (PyFloat p) /\
    forall filename w', to_file_of L c filename w = (Ok tt, w') ->
      exists data, written L filename w w' = Some data /\
        data !! "reject_null" = Some (PyBool (negb (PrimFloat.eqb p 0))).
Proof.
  intros L c.
  apply (nan_alpha_rejects_unless_p_is_zero L c 0x1.186f174f88472p-1 1 plain.world0);
    reflexivity.
Defined.

(** ** What a constructed regression stores *)

Lemma arith_int_sub L x y r : py_arith L Sub (PyInt x) (PyInt y) = Ok r -> r = PyInt (x - y).
Proof. now intros [= <-]. Qed.

Lemma arith_int_div L x y r : py_arith L Div (PyInt x) (PyInt y) = Ok r -> y <> 0.
Proof.
  cbn. destruct (y =? 0) eqn:E; [discriminate|]. intros _. now apply Z.eqb_neq.
Qed.

Section estimation_in_full.
Variable L : pylib.

Lemma estimate_full w w' :
  ols.estimate L w = (Ok tt, w') ->
  exists X y nobs ncoef G Gi Xty b Xb e,
    self w !! "x" = Some (PyArr X) /\
    self w !! "y" = Some (PyArr y) /\
    shape y !! 0%nat = Some nobs /\
    shape X !! 1%nat = Some ncoef /\
    nobs <> ncoef /\
    self w' !! "nobs" = Some (PyInt nobs) /\
    self w' !! "ncoef" = Some (PyInt ncoef) /\
    self w' !! "df_e" = Some (PyInt (nobs - ncoef)) /\
    self w' !! "df_r" = Some (PyInt (ncoef - 1)) /\
    (forall k, k ∈ estimated -> is_Some (self w' !! k)) /\
    gram L X = Ok G /\ linalg_inv L G = Ok Gi /\
    np_dot L (np_T L X) y = Ok Xty /\ np_dot L Gi Xty = Ok b /\
    np_dot L X b = Ok Xb /\
    py_arith L Sub (PyArr y) (PyArr Xb) = Ok (PyArr e) /\
    self w' !! "inv_xx" = Some (PyArr Gi) /\
    self w' !! "b" = Some (PyArr b) /\
    self w' !! "e" = Some (PyArr e).
Proof.
  unfold ols.estimate. intros H.
  apply bind_ok_inv in H as ([] & w1 & Htry & H).
  apply try_raise_ok_inv in Htry.
  unfold ols.dot, ols.arith, ols.call1, ols.call1r, ols.attr_T, ols.meth_var in *.
  minv_in Htry; try discriminate Htry.
  unfold setattr in Htry. injection Htry as <-.
  minv_in H; try discriminate H.
  unfold setattr in H. injection H as <-.
  repeat match goal with
  | Hs : py_arith L Sub (PyInt _) (PyInt _) = Ok _ |- _ =>
      apply arith_int_sub in Hs; subst
  | Hs : as_array (PyArr _) = Ok _ |- _ => cbn [as_array] in Hs; injection Hs as <-
  | Hs : py_shape (PyArr _) = Ok _ |- _ => cbn [py_shape] in Hs; injection Hs as <-
  | Hs : shape_item _ _ = Ok _ |- _ => apply shape_item_some in Hs
  | Hs : Ok _ = Ok _ |- _ => injection Hs as <-
  end.
  match goal with
  | Hd : py_arith L Div (PyInt _) (PyInt _) = Ok _ |- _ => apply arith_int_div in Hd
  end.
  match goal with
  | Hx : self w !! "x" = Some (PyArr ?X), Hy : self w !! "y" = Some (PyArr ?y),
    Hn : shape ?y !! 0%nat = Some ?n, Hk : shape ?X !! 1%nat = Some ?k,
    HG : np_dot L (np_T L ?X) ?X = Ok ?G, Hi : linalg_inv L ?G = Ok ?Gi,
    Ht : np_dot L (np_T L ?X) ?y = Ok ?Xty, Hb : np_dot L ?Gi ?Xty = Ok ?b,
    Hxb : np_dot L ?X ?b = Ok ?Xb,
    He : py_arith L Sub (PyArr ?y) (PyArr ?Xb) = Ok (PyArr ?e) |- _ =>
      exists X, y, n, k, G, Gi, Xty, b, Xb, e
  end.
  cbn [self stdout files clock set_self]. unfold gram.
  repeat split; try assumption; try lookup; try lia.
  intros k Hk. apply list_elem_of_In in Hk. simpl in Hk.
  repeat (destruct Hk as [<-|Hk]; [eexists; lookup|]). destruct Hk.
Qed.

Lemma init_runs_estimate x y x_varnm y_varnm w0 w :
  ols.__init__ L x y x_varnm y_varnm w0 = (Ok tt, w) ->
  exists X names w1,
    design L x = Ok X /\
    self w1 !! "x" = Some (PyArr X) /\
    self w1 !! "y" = Some y /\
    self w1 !! "y_varnm" = Some y_varnm /\
    self w1 !! "x_varnm" = Some (PyList names) /\
    ols.estimate L w1 = (Ok tt, w).
Proof.
  unfold ols.__init__. intros H.
  minv_in H; try discriminate H.
  all: apply py_shape_ok in Heqr as (xa & -> & <-).
  all: cbn [as_array] in Heqr2; injection Heqr2 as <-.
  all: match type of H with ols.estimate L ?w1 = _ => exists a3; eexists; exists w1 end.
  all: split; [unfold design; cbn [py_shape as_array]; rewrite Heqr0, Heqr1;
               exact Heqr3|].
  all: cbn [self set_self]; repeat split; try lookup; exact H.
Qed.

Lemma init_full x y x_varnm y_varnm w0 w :
  ols.__init__ L x y x_varnm y_varnm w0 = (Ok tt, w) ->
  exists X ya nobs ncoef G Gi Xty b Xb e,
    design L x = Ok X /\ y = PyArr ya /\
    self w !! "x" = Some (PyArr X) /\
    self w !! "y" = Some y /\
    self w !! "y_varnm" = Some y_varnm /\
    shape ya !! 0%nat = Some nobs /\
    shape X !! 1%nat = Some ncoef /\
    nobs <> ncoef /\
    self w !! "nobs" = Some (PyInt nobs) /\
    self w !! "ncoef" = Some (PyInt ncoef) /\
    self w !! "df_e" = Some (PyInt (nobs - ncoef)) /\
    self w !! "df_r" = Some (PyInt (ncoef - 1)) /\
    (forall k, k ∈ constructed -> is_Some (self w !! k)) /\
    gram L X = Ok G /\ linalg_inv L G = Ok Gi /\
    np_dot L (np_T L X) ya = Ok Xty /\ np_dot L Gi Xty = Ok b /\
    np_dot L X b = Ok Xb /\
    py_arith L Sub (PyArr ya) (PyArr Xb) = Ok (PyArr e) /\
    self w !! "inv_xx" = Some (PyArr Gi) /\
    self w !! "b" = Some (PyArr b) /\
    self w !! "e" = Some (PyArr e).
Proof.
  intros H.
  apply init_runs_estimate in H as (X & names & w1 & HX & Hx & Hy & Hyn & Hxn & H).
  pose proof (estimate_ok L w1 w H) as (? & ? & ? & ? & _ & _ & _ & _ & Hframe & _).
  apply estimate_full in H
    as (X' & ya & nobs & ncoef & G & Gi & Xty & b & Xb & e & Hx' & Hy' & Hn & Hk & Hne
        & Sn & Sk & Se & Sr & Hall & HG & HGi & HXty & Hb & HXb & He & Si & Sb & Sres).
  rewrite Hx in Hx'. injection Hx' as <-. rewrite Hy in Hy'. injection Hy' as ->.
  exists X, ya, nobs, ncoef, G, Gi, Xty, b, Xb, e.
  rewrite <- Hx, <- Hy, <- Hyn, <- !Hframe by not_in.
  repeat split; try assumption.
  intros k Hk'. apply elem_of_app in Hk' as [Hk'|Hk']; [|now apply Hall].
  apply list_elem_of_In in Hk'. simpl in Hk'.
  rewrite Hframe
    by (intros Hin%list_elem_of_In; simpl in Hin; intuition (subst; discriminate)).
  intuition (subst; eauto).
Qed.
End estimation_in_full.

Lemma bind_try_passes {A B} (body handler : M A) catches (k : A -> M B) w e w1 :
  body w = (Raise e, w1) -> catches e = false ->
  bind (try_except body catches handler) k w = (Raise e, w1).
Proof. intros Hb Hc. unfold bind, try_except. now rewrite Hb, Hc. Qed.

Section construction_of_a_regression.
Variable L : pylib.

Lemma design_inv x X :
  design L x = Ok X ->
  exists xa n rest col,
    x = PyArr xa /\ shape xa = n :: rest /\ np_ones L n = Ok col /\
    np_c_ L col xa = Ok X.
Proof.
  unfold design. intros Hd.
  destruct x as [| | | | | | | |xa]; try discriminate Hd. cbn [py_shape as_array] in Hd.
  destruct (shape xa) as [|n rest] eqn:Hshape; [discriminate Hd|].
  cbn [shape_item lookup list_lookup] in Hd.
  destruct (np_ones L n) as [col|] eqn:Hones; [|discriminate Hd].
  exists xa, n, rest, col. auto.
Qed.

Lemma init_is_estimate x y x_varnm y_varnm w0 X :
  design L x = Ok X ->
  x_varnm = PyNone \/ (exists l, x_varnm = PyList l) ->
  exists names,
    ols.__init__ L x y x_varnm y_varnm w0
    = ols.estimate L
        (set_self (insert "y_varnm" y_varnm)
           (set_self (insert "y" y)
              (set_self (insert "x_varnm" names)
                 (set_self (insert "x" (PyArr X)) w0)))).
Proof.
  intros (xa & n & rest & col & -> & Hshape & Hones & Hd)%design_inv Hnames.
  unfold ols.__init__. cbn [py_shape as_array]. rewrite Hshape.
  destruct Hnames as [->|[[|n1 l] ->]]; cbn [py_truthy negb];
    try (destruct rest as [|k rest]; [|destruct (k =? 1) eqn:Ek]);
    eexists;
    repeat (mfwd; cbn [List.length Nat.eqb shape_item lookup list_lookup negb];
            rewrite ?Ek);
    reflexivity.
Qed.
End construction_of_a_regression.

(** X10. A constructed regression stores the number of observations as
    the length of [y] and the number of coefficients as the width of the
    design matrix with its column of ones; the degrees of freedom are
    their difference and the width less one.  The two counts are never
    equal: with as many coefficients as observations the integer
    division in the adjusted R-squared has no result, so the
    construction does not complete. *)
Theorem degrees_of_freedom_stored
    (L : pylib) (x y x_varnm y_varnm : pyval) (w0 w : world) :
  ols.__init__ L x y x_varnm y_varnm w0 = (Ok tt, w) ->
  exists X ya nobs ncoef,
    design L x = Ok X /\ y = PyArr ya /\
    shape ya !! 0%nat = Some nobs /\
    shape X !! 1%nat = Some ncoef /\
    self w !! "nobs" = Some (PyInt nobs) /\
    self w !! "ncoef" = Some (PyInt ncoef) /\
    self w !! "df_e" = Some (PyInt (nobs - ncoef)) /\
    self w !! "df_r" = Some (PyInt (ncoef - 1)) /\
    nobs <> ncoef.
Proof.
  intros H.
  apply init_full in H
    as (X & ya & nobs & ncoef & G & Gi & Xty & b & Xb & e & HX & -> & _ & _ & _
        & Hn & Hk & Hne & Sn & Sk & Se & Sr & _).
  exists X, ya, nobs, ncoef. repeat split; assumption.
Qed.

Example degrees_of_freedom_on_ten_points :
  let L := plain.lib (0%float, 1%float) in
  let w := snd (ols.__init__ L sample_x sample_y PyNone (PyStr "y") plain.world0) in
  exists X ya nobs ncoef,
    design L sample_x = Ok X /\ sample_y = PyArr ya /\
    shape ya !! 0%nat = Some nobs /\
    shape X !! 1%nat = Some ncoef /\
    self w !! "nobs" = Some (PyInt nobs) /\
    self w !! "ncoef" = Some (PyInt ncoef) /\
    self w !! "df_e" = Some (PyInt (nobs - ncoef)) /\
    self w !! "df_r" = Some (PyInt (ncoef - 1)) /\
    nobs <> ncoef.
Proof.
  intros L w.
  apply (degrees_of_freedom_stored L sample_x sample_y PyNone (PyStr "y")
           plain.world0 w).
  vm_compute. reflexivity.
Defined.

(** X11. The coefficients a constructed regression stores are the
    product of the stored inverse of the Gram matrix of the design with
    the product of the transposed design and [y], and the stored
    residuals are [y] less the product of the design with these
    coefficients, each as the library computes it. *)
Theorem coefficients_from_normal_equations
    (L : pylib) (x y x_varnm y_varnm : pyval) (w0 w : world) :
  ols.__init__ L x y x_varnm y_varnm w0 = (Ok tt, w) ->
  exists X ya G Gi Xty b Xb e,
    design L x = Ok X /\ y = PyArr ya /\
    gram L X = Ok G /\ linalg_inv L G = Ok Gi /\
    np_dot L (np_T L X) ya = Ok Xty /\ np_dot L Gi Xty = Ok b /\
    np_dot L X b = Ok Xb /\
    py_arith L Sub (PyArr ya) (PyArr Xb) = Ok (PyArr e) /\
    self w !! "x" = Some (PyArr X) /\
    self w !! "inv_xx" = Some (PyArr Gi) /\
    self w !! "b" = Some (PyArr b) /\
    self w !! "e" = Some (PyArr e).
Proof.
  intros H.
  apply init_full in H
    as (X & ya & nobs & ncoef & G & Gi & Xty & b & Xb & e & HX & -> & Sx & _ & _
        & _ & _ & _ & _ & _ & _ & _ & _ & HG & HGi & HXty & Hb & HXb & He & Si & Sb & Sres).
  exists X, ya, G, Gi, Xty, b, Xb, e. repeat split; assumption.
Qed.

Example coefficients_on_two_columns :
  let L := plain.lib (0%float, 1%float) in
  let x := PyArr two_columns in
  let w := snd (ols.__init__ L x sample_y PyNone (PyStr "y") plain.world0) in
  exists X ya G Gi Xty b Xb e,
    design L x = Ok X /\ sample_y = PyArr ya /\
    gram L X = Ok G /\ linalg_inv L G = Ok Gi /\
    np_dot L (np_T L X) ya = Ok Xty /\ np_dot L Gi Xty = Ok b /\
    np_dot L X b = Ok Xb /\
    py_arith L Sub (PyArr ya) (PyArr Xb) = Ok (PyArr e) /\
    self w !! "x" = Some (PyArr X) /\
    self w !! "inv_xx" = Some (PyArr Gi) /\
    self w !! "b" = Some (PyArr b) /\
    self w !! "e" = Some (PyArr e).
Proof.
  intros L x w.
  apply (coefficients_from_normal_equations L x sample_y PyNone (PyStr "y")
           plain.world0 w).
  vm_compute. reflexivity.
Defined.

(** X12. Constructing a regression sets every one of the nineteen
    attributes [x], [x_varnm], [y], [y_varnm] and the fifteen results of
    [estimate], with [y] and [y_varnm] stored as they were given; no
    other attribute changes, nothing is printed and no file is
    written. *)
Theorem construction_footprint
    (L : pylib) (x y x_varnm y_varnm : pyval) (w0 w : world) :
  ols.__init__ L x y x_varnm y_varnm w0 = (Ok tt, w) ->
  (forall k, k ∈ constructed -> is_Some (self w !! k)) /\
  self w !! "y" = Some y /\ self w !! "y_varnm" = Some y_varnm /\
  (forall k, k ∉ constructed -> self w !! k = self w0 !! k) /\
  stdout w = stdout w0 /\ files w = files w0.
Proof.
  intros H.
  pose proof (init_ok L x y x_varnm y_varnm w0 w H)
    as (? & ? & ? & ? & ? & ? & ? & _ & _ & _ & _ & _ & _ & _ & _ & _ & Hframe & Hout
        & Hfiles & _).
  apply init_full in H
    as (X & ya & nobs & ncoef & G & Gi & Xty & b & Xb & e & HX & -> & _ & Sy & Syn
        & _ & _ & _ & _ & _ & _ & _ & Hall & _).
  repeat split; assumption.
Qed.

Example construction_footprint_on_ten_points :
  let L := plain.lib (0%float, 1%float) in
  let w := snd (ols.__init__ L sample_x sample_y (PyList [PyStr "slope"]) (PyStr "height")
                  plain.world0) in
  (forall k, k ∈ constructed -> is_Some (self w !! k)) /\
  self w !! "y" = Some sample_y /\ self w !! "y_varnm" = Some (PyStr "height") /\
  (forall k, k ∉ constructed -> self w !! k = self plain.world0 !! k) /\
  stdout w = stdout plain.world0 /\ files w = files plain.world0.
Proof.
  intros L w.
  apply (construction_footprint L sample_x sample_y (PyList [PyStr "slope"])
           (PyStr "height") plain.world0 w).
  vm_compute. reflexivity.
Defined.

(** X13. [str] of a constructed regression never raises and changes
    nothing; the number it gives is the number of rows of the stored
    design matrix. *)
Theorem str_of_a_regression
    (L : pylib) (x y x_varnm y_varnm : pyval) (w0 w : world) :
  ols.__init__ L x y x_varnm y_varnm w0 = (Ok tt, w) ->
  exists X n,
    design L x = Ok X /\ shape X !! 0%nat = Some n /\
    ols.__str__ w = (Ok ("OLS Regression on " ++ str_int n ++ " Observations"), w).
Proof.
  intros H.
  apply init_full in H
    as (X & ya & nobs & ncoef & G & Gi & Xty & b & Xb & e & HX & -> & Sx & _ & _
        & _ & Hk & _).
  destruct (shape X) as [|n [|k rest]] eqn:Hs; try discriminate Hk.
  exists X, n. split; [exact HX|]. split; [now rewrite Hs|].
  unfold ols.__str__. mrun. cbn [py_shape]. rewrite Hs.
  cbn [shape_item lookup list_lookup]. mrun. reflexivity.
Qed.

Example str_of_the_regression_on_ten_points :
  let L := plain.lib (0%float, 1%float) in
  let w := snd (ols.__init__ L sample_x sample_y PyNone (PyStr "y") plain.world0) in
  exists X n,
    design L sample_x = Ok X /\ shape X !! 0%nat = Some n /\
    ols.__str__ w = (Ok ("OLS Regression on " ++ str_int n ++ " Observations"), w).
Proof.
  intros L w.
  apply (str_of_a_regression L sample_x sample_y PyNone (PyStr "y") plain.world0 w).
  vm_compute. reflexivity.
Defined.

(** X14. An [x] that is not an array, or an array without dimensions,
    stops the constructor at its first line: [AttributeError] for the
    missing [shape], [IndexError] for the empty one, and nothing has
    been stored. *)
Theorem x_without_rows_is_refused
    (L : pylib) (x y x_varnm y_varnm : pyval) (w0 : world) :
  predictors x = None ->
  ols.__init__ L x y x_varnm y_varnm w0
  = (Raise (match x with
            | PyArr _ => IndexError "tuple index out of range"
            | _ => AttributeError "shape"
            end), w0).
Proof.
  unfold predictors, ols.__init__. intros H.
  destruct x as [| | | | | | | |xa]; cbn [py_shape]; mrun; try reflexivity.
  destruct (shape xa) as [|n [|k rest]]; try discriminate H.
  mrun. reflexivity.
Qed.

Example a_list_for_x_is_refused :
  let L := plain.lib (0%float, 1%float) in
  ols.__init__ L (PyList [PyInt 1; PyInt 2; PyInt 3]) sample_y PyNone (PyStr "y")
    plain.world0
  = (Raise (AttributeError "shape"), plain.world0).
Proof.
  intros L.
  apply (x_without_rows_is_refused L (PyList [PyInt 1; PyInt 2; PyInt 3]) sample_y
           PyNone (PyStr "y") plain.world0).
  reflexivity.
Defined.

(** X15. Names given as anything but a list (a tuple, a string, a
    number) with truth value [True] raise [TypeError] at the
    concatenation with ['const']: the design matrix is stored by then,
    and nothing else. *)
Theorem names_must_be_a_list
    (L : pylib) (x y x_varnm y_varnm : pyval) (w0 : world) (X : ndarray) :
  design L x = Ok X ->
  py_truthy x_varnm = Ok true ->
  plain_non_list x_varnm = true ->
  exists what,
    ols.__init__ L x y x_varnm y_varnm w0
    = (Raise (TypeError what), set_self (insert "x" (PyArr X)) w0).
Proof.
  intros (xa & n & rest & col & -> & Hshape & Hones & Hd)%(design_inv L) Ht Hnl.
  unfold ols.__init__. cbn [py_shape as_array]. rewrite Hshape.
  destruct x_varnm; try discriminate Hnl; eexists;
    repeat (mfwd; cbn [shape_item lookup list_lookup negb]; rewrite ?Ht);
    reflexivity.
Qed.

Example names_in_a_tuple_are_refused :
  let L := plain.lib (0%float, 1%float) in
  exists what,
    ols.__init__ L sample_x sample_y (PyTuple [PyStr "slope"]) (PyStr "y") plain.world0
    = (Raise (TypeError what),
       set_self (insert "x" (PyArr (NdArray [10; 2]
           [1; 1; 1; 2; 1; 3; 1; 4; 1; 5; 1; 6; 1; 7; 1; 8; 1; 9; 1; 10]%float)))
         plain.world0).
Proof.
  intros L.
  apply (names_must_be_a_list L sample_x sample_y (PyTuple [PyStr "slope"]) (PyStr "y")
           plain.world0); vm_compute; reflexivity.
Defined.

(** X16. Of the exceptions raised while the coefficients are computed,
    only [LinAlgError] is replaced by the message of [estimate]: one
    raised by the product of the transposed design with [y], as for a
    [y] of the wrong length, reaches the caller as it is.  The inverse
    is stored by then, the coefficients are not. *)
Theorem only_linalg_errors_are_reworded
    (L : pylib) (x x_varnm y_varnm : pyval) (w0 : world)
    (X G Gi ya : ndarray) (ex : exn) :
  design L x = Ok X ->
  gram L X = Ok G ->
  linalg_inv L G = Ok Gi ->
  np_dot L (np_T L X) ya = Raise ex ->
  x_varnm = PyNone \/ (exists l, x_varnm = PyList l) ->
  exists w,
    ols.__init__ L x (PyArr ya) x_varnm y_varnm w0
    = (Raise (if is_LinAlgError ex then LinAlgError [PyStr ols.singular_msg] else ex), w) /\
    self w !! "inv_xx" = Some (PyArr Gi) /\
    self w !! "b" = self w0 !! "b".
Proof.
  intros HX HG HGi Hdot Hnames.
  destruct (init_is_estimate L x (PyArr ya) x_varnm y_varnm w0 X HX Hnames)
    as [names ->].
  unfold gram in HG.
  set (w1 := set_self (insert "y_varnm" y_varnm)
               (set_self (insert "y" (PyArr ya))
                  (set_self (insert "x_varnm" names)
                     (set_self (insert "x" (PyArr X)) w0)))).
  assert (Hbody :
    (x <- getattr "x";; xT <- ols.attr_T L x;; x <- getattr "x";;
     xx <- ols.dot L xT x;; inv_xx <- ols.call1r (linalg_inv L) xx;;
     setattr "inv_xx" inv_xx;;; x <- getattr "x";; xT <- ols.attr_T L x;;
     y <- getattr "y";; xy <- ols.dot L xT y;; inv_xx <- getattr "inv_xx";;
     b <- ols.dot L inv_xx xy;; setattr "b" b) w1
    = (Raise ex, set_self (insert "inv_xx" (PyArr Gi)) w1)).
  { unfold ols.dot, ols.call1r, ols.attr_T. subst w1. mfwd. reflexivity. }
  exists (set_self (insert "inv_xx" (PyArr Gi)) w1).
  split; [|split; [lookup|subst w1; cbn [self set_self];
                           now rewrite !lookup_insert_ne by discriminate]].
  unfold ols.estimate.
  destruct (is_LinAlgError ex) eqn:E.
  - rewrite (bind_try_caught _ _ _ _ w1 ex _ Hbody E). reflexivity.
  - exact (bind_try_passes _ _ _ _ w1 ex _ Hbody E).
Qed.

Example short_y_error_passes_through :
  let L := plain.lib (0%float, 1%float) in
  exists w,
    ols.__init__ L sample_x five_y PyNone (PyStr "y") plain.world0
    = (Raise (ValueError [PyStr "shapes not aligned"]), w) /\
    (exists Gi, self w !! "inv_xx" = Some (PyArr Gi)) /\
    self w !! "b" = self plain.world0 !! "b".
Proof.
  intros L.
  destruct (design L sample_x) as [X|] eqn:HX; [|discriminate HX].
  destruct (gram L X) as [G|] eqn:HG;
    [|vm_compute in HX; injection HX as <-; discriminate HG].
  destruct (linalg_inv L G) as [Gi|] eqn:HGi;
    [|vm_compute in HX; injection HX as <-; vm_compute in HG; injection HG as <-;
      discriminate HGi].
  destruct (only_linalg_errors_are_reworded L sample_x PyNone (PyStr "y") plain.world0
              X G Gi (plain.vec [1.5; 1.75; 3.5; 3.75; 5.25]%float)
              (ValueError [PyStr "shapes not aligned"]) HX HG HGi)
    as (w & Hw & Hi & Hb).
  - vm_compute in HX. injection HX as <-. vm_compute. reflexivity.
  - now left.
  - exists w. split; [exact Hw|]. split; [exists Gi; exact Hi|exact Hb].
Defined.

(** ** Running the steps of a t-test again *)

Lemma set_self_id k v w : self w !! k = Some v -> set_self (insert k v) w = w.
Proof.
  destruct w as [s o f c]. unfold set_self. cbn [self stdout files clock].
  intros H. f_equal. now apply insert_id.
Qed.

Lemma set_self_twice k v1 v2 w :
  set_self (insert k v2) (set_self (insert k v1) w) = set_self (insert k v2) w.
Proof.
  destruct w as [s o f c]. unfold set_self. cbn [self stdout files clock].
  f_equal. apply insert_insert_eq.
Qed.

(** X17. On a constructed t-test the parameter checks pass again and
    running the test again leaves the object exactly as it is: a
    one-sided p-value is computed afresh and halved once, not halved a
    second time. *)
Theorem checks_and_test_repeatable
    (L : pylib) (c : ttest_args) (w0 w : world) :
  construct L c w0 = (Ok tt, w) ->
  check_params_of L c w = (Ok tt, w) /\ test_of L c w = (Ok tt, w).
Proof.
  intros H.
  pose proof (construct_type_valid L c w0 w H) as Hty.
  destruct (construct_ok L c w0 w H) as (t & p & Hr & Hv & Hp & Hobj & _).
  destruct c as [a pm alt alpha|a b ty ev alt alpha];
    cbn [test_type_valid alt_hyp_of alpha_of raw_test check_params_of test_of] in *.
  - destruct Hobj as (Ealt & Ealpha & Et & Ep & Ea & Epm).
    cbn [alt_hyp_of alpha_of] in *. split.
    + now apply check_params_1_passes with (alt_hyp := alt) (alpha := alpha).
    + unfold ttest_1samp.test. mrun. rewrite Hr. mrun. cbn [fst snd].
      rewrite (set_self_id "t_stat" _ w Et). unfold stored_p in Ep.
      destruct (eq_str alt "unequal"); cbn [negb]; mrun.
      * now rewrite (set_self_id "p_val" _ w Ep).
      * rewrite halve. mrun. unfold setattr. rewrite set_self_twice.
        now rewrite (set_self_id "p_val" _ w Ep).
  - destruct Hobj as (Ealt & Ealpha & Et & Ep & Ea & Eb & Ety & Eev).
    cbn [alt_hyp_of alpha_of] in *. split.
    + now apply check_params_2_passes
        with (test_type := ty) (alt_hyp := alt) (alpha := alpha).
    + unfold ttest_2samp.test. mrun.
      destruct (eq_str ty "ind"); mrun; rewrite Hr; mrun; cbn [fst snd];
        rewrite (set_self_id "t_stat" _ w Et); unfold stored_p in Ep;
        destruct (eq_str alt "unequal"); cbn [negb]; mrun;
        rewrite ?halve; mrun; unfold setattr, ret; rewrite ?set_self_twice;
        now rewrite (set_self_id "p_val" _ w Ep).
Qed.

Example checks_and_test_repeatable_on_a_one_sided_test :
  let L := plain.lib (0x1.186f174f88472p-1, 0x1.3299787024f48p-1)%float in
  let c := OneSample (plain.arange 1 10) (PyFloat 4.5) (PyStr "greater") (PyFloat 0.5) in
  let w := snd (construct L c plain.world0) in
  check_params_of L c w = (Ok tt, w) /\ test_of L c w = (Ok tt, w).
Proof.
  intros L c w.
  apply (checks_and_test_repeatable L c plain.world0 w). vm_compute. reflexivity.
Defined.
